(** * taintedword: heuristic DOCX provenance scorer

    A shallow embedding of [taintedword.py] and the properties of its
    detector suite, score aggregation and verdict cascade.

    Modelling conventions.
    - Python [str] values are Rocq strings, one character per code point;
      the model therefore covers text whose code points are below 256, and
      the character classes below ([isspace], [\d], [\w], [lower], the
      line boundaries of [splitlines]) are Python's on that range.
    - Python [float] scores are exact rationals ([Q]).  Every weight in the
      program is a decimal literal and every test on a score is an order
      comparison with a decimal literal, so the model keeps the sums exact
      where binary floating point rounds to the nearest double.  A
      property about a sum of weights is stated for the additions in the
      order in which the source makes them.
    - An archive is the list of its entries (name, decoded content) in
      archive order; the XML parser [ET.fromstring] belongs to Python's
      library and is a parameter of the development.  The model covers
      entries that the archive delivers without error and that are UTF-8
      text, which the parser reads as the same text; an entry that
      declares another encoding, or one with a bad checksum, is outside
      it.
    - [int] is Python's [int] on the digit strings for which it returns
      ([int_returns]).
    - [raise] is an explicit result type; [try/except] is a match on it. *)

From Stdlib Require Import QArith Lqa ZArith NArith Lia.
From Stdlib Require Import Bool String Ascii List DecimalString.
Import ListNotations.

Local Open Scope string_scope.
Local Open Scope list_scope.

(* ================================================================== *)
(** * Python text operations *)
(* ================================================================== *)

Module Text.

Definition code (c : ascii) : N := N_of_ascii c.

Definition between (lo hi : N) (c : ascii) : bool :=
  (lo <=? code c)%N && (code c <=? hi)%N.

(** [str.isspace] on one character, also the class [\s] of [re]. *)
Definition isspace (c : ascii) : bool :=
  between 9 13 c || between 28 32 c || (code c =? 133)%N || (code c =? 160)%N.

(** The class [\d] of [re]: decimal digits. *)
Definition isdecimal (c : ascii) : bool := between 48 57 c.

(** The class [\w] of [re]: alphanumeric characters and the underscore. *)
Definition isword (c : ascii) : bool :=
  between 48 57 c || between 65 90 c || between 97 122 c || (code c =? 95)%N
  || (code c =? 170)%N || (code c =? 181)%N || (code c =? 186)%N
  || between 178 179 c || (code c =? 185)%N || between 188 190 c
  || between 192 214 c || between 216 246 c || between 248 255 c.

(** The characters at which [str.splitlines] ends a line. *)
Definition islinebreak (c : ascii) : bool :=
  between 10 13 c || between 28 30 c || (code c =? 133)%N.

Definition lower_char (c : ascii) : ascii :=
  if between 65 90 c || (between 192 222 c && negb (code c =? 215)%N)
  then ascii_of_N (code c + 32)
  else c.

(** [s.lower()] *)
Fixpoint lower (s : string) : string :=
  match s with
  | EmptyString => EmptyString
  | String c s' => String (lower_char c) (lower s')
  end.

(** [s.startswith(p)] *)
Definition startswith (s p : string) : bool := String.prefix p s.

(** [sub in s] *)
Fixpoint contains (sub s : string) : bool :=
  String.prefix sub s
  || match s with
     | EmptyString => false
     | String _ s' => contains sub s'
     end.

(** [s.endswith(p)] *)
Fixpoint endswith (s p : string) : bool :=
  String.eqb s p
  || match s with
     | EmptyString => false
     | String _ s' => endswith s' p
     end.

(** [s.count(sub)] for a non-empty [sub]: occurrences that do not overlap,
    counted from the left.  [skip] is the number of characters still
    covered by the occurrence counted last. *)
Fixpoint count_from (sub s : string) (skip : nat) : nat :=
  match s with
  | EmptyString => 0
  | String _ s' =>
      match skip with
      | S k => count_from sub s' k
      | O => if String.prefix sub s
             then S (count_from sub s' (String.length sub - 1))
             else count_from sub s' 0
      end
  end.

Definition count (s sub : string) : nat := count_from sub s 0.

Fixpoint lstrip (s : string) : string :=
  match s with
  | EmptyString => EmptyString
  | String c s' => if isspace c then lstrip s' else s
  end.

Fixpoint rstrip (s : string) : string :=
  match s with
  | EmptyString => EmptyString
  | String c s' =>
      match rstrip s' with
      | EmptyString => if isspace c then EmptyString else String c EmptyString
      | r => String c r
      end
  end.

(** [s.strip()] *)
Definition strip (s : string) : string := rstrip (lstrip s).

(** Truth value of a string: it is not empty. *)
Definition nonempty (s : string) : bool :=
  match s with EmptyString => false | String _ _ => true end.

(** [len(s.splitlines())].  A line ends at a line boundary, with
    [\r\n] counting once; text after the last boundary is a line unless
    it is empty.  [inline] tells that the current line has a character. *)
Fixpoint count_lines (inline : bool) (s : string) : nat :=
  match s with
  | EmptyString => if inline then 1 else 0
  | String c s' =>
      if islinebreak c then
        match s' with
        | String c2 s'' =>
            if (code c =? 13)%N && (code c2 =? 10)%N
            then S (count_lines false s'')
            else S (count_lines false s')
        | EmptyString => 1
        end
      else count_lines true s'
  end.

Definition len_splitlines (s : string) : nat := count_lines false s.

(** [s[n:]] *)
Fixpoint slice_from (n : nat) (s : string) : string :=
  match n, s with
  | O, _ => s
  | S _, EmptyString => EmptyString
  | S k, String _ s' => slice_from k s'
  end.

(** [int(s)] for a string of decimal digits. *)
Fixpoint int_digits (acc : N) (s : string) : N :=
  match s with
  | EmptyString => acc
  | String c s' => int_digits (acc * 10 + (code c - 48))%N s'
  end.

Definition int (s : string) : N := int_digits 0 s.

(** [int(s)] returns for a string of at most 4300 digits; beyond this
    default limit of the interpreter it raises [ValueError], which the
    callers do not catch. *)
Definition int_returns (s : string) : bool := (String.length s <=? 4300)%nat.

(** [str(n)] for a natural number. *)
Definition str (n : N) : string :=
  NilZero.string_of_uint (N.to_uint n).

(** The one-character strings for line feed and carriage return. *)
Definition LF : string := String (ascii_of_N 10) EmptyString.
Definition CR : string := String (ascii_of_N 13) EmptyString.

(** The double quote of a Python literal is written as an apostrophe in
    the literals of this file; [dq] puts the double quotes back.  No
    literal of the program that is passed to [dq] has an apostrophe. *)
Fixpoint dq (s : string) : string :=
  match s with
  | EmptyString => EmptyString
  | String c s' =>
      String (if (code c =? 39)%N then ascii_of_N 34 else c) (dq s')
  end.

(** [any(f in s for f in subs)] *)
Definition any_in (subs : list string) (s : string) : bool :=
  existsb (fun f => contains f s) subs.

(** [all(f in s for f in subs)] *)
Definition all_in (subs : list string) (s : string) : bool :=
  forallb (fun f => contains f s) subs.

End Text.

Import Text.

(* ================================================================== *)
(** * The fragment of Python's [re] the program uses *)
(* ================================================================== *)

Module Re.

(** Patterns.  The program's patterns repeat single character classes
    only ([[^>]*], [\d+], [\s*], [.*]), so [Star] takes a class. *)
Inductive regex : Type :=
| Eps
| Chr (p : ascii -> bool)
| Bnd
| Cat (a b : regex)
| Alt (a b : regex)
| Star (p : ascii -> bool)
| Grp (a : regex).

Definition one (x : ascii) : ascii -> bool := Ascii.eqb x.
Definition other_than (x : ascii) : ascii -> bool := fun c => negb (Ascii.eqb x c).

(** A literal character under [re.I]. *)
Definition is_nocase (x : ascii) : ascii -> bool :=
  fun c => Ascii.eqb (lower_char x) (lower_char c).

(** [.]: any character but a line feed. *)
Definition dot : ascii -> bool := fun c => negb (code c =? 10)%N.

Fixpoint lit_with (cls : ascii -> ascii -> bool) (s : string) : regex :=
  match s with
  | EmptyString => Eps
  | String c EmptyString => Chr (cls c)
  | String c s' => Cat (Chr (cls c)) (lit_with cls s')
  end.

Definition lit : string -> regex := lit_with one.
Definition lit_nocase : string -> regex := lit_with is_nocase.

Definition Plus (p : ascii -> bool) : regex := Cat (Chr p) (Star p).

Fixpoint seq (rs : list regex) : regex :=
  match rs with
  | [] => Eps
  | [r] => r
  | r :: rs' => Cat r (seq rs')
  end.

Fixpoint alts (rs : list regex) : regex :=
  match rs with
  | [] => Eps
  | [r] => r
  | r :: rs' => Alt r (alts rs')
  end.

Definition isword_opt (c : option ascii) : bool :=
  match c with Some x => isword x | None => false end.

Definition head (s : string) : option ascii :=
  match s with EmptyString => None | String c _ => Some c end.

Section Matcher.
(** What a successful match yields: the text of the group and the
    input left after the match. *)
Definition outcome : Type := option string * string.

(** A continuation receives the character before the position, the
    rest of the input and the group captured so far. *)
Definition cont : Type := option ascii -> string -> option string -> option outcome.

(** Greedy repetition of a class: the longest run first, one character
    given back at each failure of the continuation. *)
Fixpoint star (p : ascii -> bool) (prev : option ascii) (s : string)
         (cap : option string) (k : cont) : option outcome :=
  match s with
  | String c s' =>
      if p c then
        match star p (Some c) s' cap k with
        | Some r => Some r
        | None => k prev s cap
        end
      else k prev s cap
  | EmptyString => k prev s cap
  end.

(** Backtracking match of [r] at the start of [s]. *)
Fixpoint run (r : regex) (prev : option ascii) (s : string)
         (cap : option string) (k : cont) : option outcome :=
  match r with
  | Eps => k prev s cap
  | Chr p =>
      match s with
      | String c s' => if p c then k (Some c) s' cap else None
      | EmptyString => None
      end
  | Bnd =>
      if xorb (isword_opt prev) (isword_opt (head s)) then k prev s cap else None
  | Cat a b => run a prev s cap (fun prev' s' cap' => run b prev' s' cap' k)
  | Alt a b =>
      match run a prev s cap k with
      | Some o => Some o
      | None => run b prev s cap k
      end
  | Star p => star p prev s cap k
  | Grp a =>
      run a prev s cap
          (fun prev' s' _ =>
             k prev' s' (Some (substring 0 (String.length s - String.length s') s)))
  end.

Definition match_at (r : regex) (prev : option ascii) (s : string) : option outcome :=
  run r prev s None (fun _ s' cap => Some (cap, s')).
End Matcher.

(** [re.search(r, s)] as a truth value; [prev] is the character before [s]. *)
Fixpoint search_from (r : regex) (prev : option ascii) (s : string) : bool :=
  match match_at r prev s with
  | Some _ => true
  | None =>
      match s with
      | EmptyString => false
      | String c s' => search_from r (Some c) s'
      end
  end.

Definition search (r : regex) (s : string) : bool := search_from r None s.

(** [re.findall(r, s)] for a pattern whose matches are never empty:
    leftmost matches that do not overlap.  Each match is reported as the
    text of its group (when the pattern has one) and its whole text.
    [skip] counts the characters still covered by the last match. *)
Fixpoint findall_from (r : regex) (prev : option ascii) (s : string) (skip : nat)
  : list (option string * string) :=
  match s with
  | EmptyString => []
  | String c s' =>
      match skip with
      | S n => findall_from r (Some c) s' n
      | O =>
          match match_at r prev s with
          | Some (cap, rest) =>
              let n := (String.length s - String.length rest)%nat in
              (cap, substring 0 n s) :: findall_from r (Some c) s' (n - 1)
          | None => findall_from r (Some c) s' 0
          end
      end
  end.

Definition findall (r : regex) (s : string) : list (option string * string) :=
  findall_from r None s 0.

(** [re.findall] of a pattern with one group: the group of each match. *)
Definition findall_group (r : regex) (s : string) : list string :=
  map (fun m => match fst m with Some g => g | None => EmptyString end) (findall r s).

End Re.

Import Re.

(* ================================================================== *)
(** * Parsed XML, archives and exceptions *)
(* ================================================================== *)

(** An [xml.etree.ElementTree.Element]: tag, text before the first child,
    attributes and children, in document order. *)
#[warnings="-register-all"]
Inductive Element : Type :=
| Elem (tag : string) (text : option string)
       (attrib : list (string * string)) (children : list Element).

Definition tag (e : Element) : string := let (t, _, _, _) := e in t.
Definition text (e : Element) : option string := let (_, x, _, _) := e in x.
Definition attrib (e : Element) : list (string * string) := let (_, _, a, _) := e in a.
Definition children (e : Element) : list Element := let (_, _, _, c) := e in c.

(** [e.iter()]: the element and its descendants, in document order. *)
Fixpoint iter (e : Element) : list Element :=
  match e with
  | Elem _ _ _ cs => e :: flat_map iter cs
  end.

(** [d.get(key, default)] on an attribute dictionary. *)
Fixpoint get_default (d : list (string * string)) (key default : string) : string :=
  match d with
  | [] => default
  | (k, v) :: d' => if String.eqb k key then v else get_default d' key default
  end.

(** The exceptions that reach the model. *)
Inductive exn : Type :=
| KeyError (key : string)
| ValueError
| ParseError.

Inductive result (A : Type) : Type :=
| Ok (a : A)
| Raise (e : exn).
Arguments Ok {A} a.
Arguments Raise {A} e.

Definition bind {A B : Type} (r : result A) (f : A -> result B) : result B :=
  match r with
  | Ok a => f a
  | Raise e => Raise e
  end.

Notation "'do' x <- r ; k" := (bind r (fun x => k))
  (at level 10, x name, r at level 100, k at level 200).

(** An open [zipfile.ZipFile]: the entries in archive order.  When a name
    occurs twice, [zf.open(name)] reads the entry added last. *)
Definition ZipFile : Type := list (string * string).

Definition namelist (zf : ZipFile) : list string := map fst zf.

Fixpoint zf_open (zf : ZipFile) (name : string) : option string :=
  match zf with
  | [] => None
  | (n, data) :: zf' =>
      match zf_open zf' name with
      | Some later => Some later
      | None => if String.eqb n name then Some data else None
      end
  end.

(** The part bundle built by [score_docx]. *)
Record Parts : Type := mkParts {
  app_xml : option Element;
  font_xml : option Element;
  doc_xml : option Element;
  styles_xml : option Element;
  settings_xml : option Element;
  theme_xml : option Element;
  content_types_txt : string;
  custom_props_txt : string;
  core_txt : string;
  app_txt : string;
  font_txt : string;
  doc_txt : string;
  styles_txt : string;
  settings_txt : string;
  theme_txt : string
}.

Definition NAMESPACE_w : string :=
  "http://schemas.openxmlformats.org/wordprocessingml/2006/main".

Section Helpers.
(** [ET.fromstring]: [None] stands for [ParseError]. *)
Variable fromstring : string -> option Element.

Definition read_xml_from_zip (zf : ZipFile) (name : string) : result (option Element) :=
  match zf_open zf name with
  | None => Ok None
  | Some data =>
      match fromstring data with
      | Some root => Ok (Some root)
      | None => Raise ParseError
      end
  end.

Definition read_text_from_zip (zf : ZipFile) (name : string) : string :=
  match zf_open zf name with
  | None => ""
  | Some data => data
  end.
End Helpers.

(** The running state of a detector: [score] and the evidence list [ev]. *)
Record St : Type := mkSt { score : Q; ev : list string }.

Definition st0 : St := mkSt 0 [].

(** [score += w; ev.append(e)] *)
Definition hit (w : Q) (e : string) (st : St) : St :=
  mkSt (score st + w) (ev st ++ [e]).

(** [ev.append(e)] alone *)
Definition note (e : string) (st : St) : St :=
  mkSt (score st) (ev st ++ [e]).

(** [score += w] alone *)
Definition bump (w : Q) (st : St) : St :=
  mkSt (score st + w) (ev st).

Definition Qltb (x y : Q) : bool :=
  match (x ?= y)%Q with Lt => true | _ => false end.

(** [x >= y] and [x < y] on scores *)
Definition ge (x y : Q) : bool := Qle_bool y x.
Definition lt (x y : Q) : bool := Qltb x y.

(** [min(a, b)] of Python: [b] when [b < a], else [a]. *)
Definition py_min (a b : Q) : Q := if Qltb b a then b else a.

(** [max(a, b, ...)] of Python: the first of the largest arguments. *)
Definition py_max (a : Q) (rest : list Q) : Q :=
  fold_left (fun best x => if Qltb best x then x else best) rest a.

(** [return min(score, 10.0), ev] *)
Definition finish (st : St) : Q * list string := (py_min (score st) 10.0, ev st).

Local Open Scope Q_scope.

(* ================================================================== *)
(** * The detector suite *)
(* ================================================================== *)

(** The loop shared by [lo_checks] and [word_checks]: the first element of
    [app_xml.iter()] whose tag ends with [Application], and the lower-cased
    [(elem.text or "")] of that element. *)
Definition first_application (root : Element) : option Element :=
  find (fun elem => endswith (tag elem) "Application") (iter root).

Definition text_or_empty (elem : Element) : string :=
  match text elem with Some t => t | None => "" end.

(** [styles_root.findall("w:style", NAMESPACES)]: the children named [w:style]. *)
Definition findall_w_style (root : Element) : list Element :=
  filter (fun s => String.eqb (tag s) ("{" ++ NAMESPACE_w ++ "}style")%string)
         (children root).

Definition member (x : string) (l : list string) : bool :=
  existsb (String.eqb x) l.

(** ** LibreOffice *)

Definition lo_body (parts : Parts) : St :=
  let st := st0 in
  let st :=
    match app_xml parts with
    | Some root =>
        match first_application root with
        | Some elem =>
            let val := lower (text_or_empty elem) in
            if contains "libreoffice" val
            then hit 6 "Application tag indicates LibreOffice" st
            else st
        | None => st
        end
    | None => st
    end in
  let font_txt := font_txt parts in
  let st :=
    if any_in ["Liberation"; "Noto"; "Lohit"] font_txt
    then hit 3 "LibreOffice font families present (Liberation/Noto/Lohit)" st
    else st in
  let st :=
    if negb (contains "<w:panose1" font_txt) && negb (contains "<w:sig" font_txt)
       && nonempty font_txt
    then note "No <w:panose1> or <w:sig> font fingerprints (often present in Word)" st
    else st in
  let doc_txt := doc_txt parts in
  let st :=
    if contains "<w:formProt" doc_txt
    then hit 3 "Found <w:formProt> (LibreOffice hallmark)" st
    else st in
  let styles_txt := styles_txt parts in
  let st :=
    if nonempty styles_txt then
      let st :=
        match styles_xml parts with
        | Some styles_root =>
            let names :=
              map (fun s => lower (get_default (attrib s)
                                     ("{" ++ NAMESPACE_w ++ "}styleId")%string ""))
                  (findall_w_style styles_root) in
            if existsb (fun n => member n names)
                       ["text body"; "standard"; "heading"; "index"]
            then hit 3 "Found LibreOffice-style names (Text Body / Standard)" st
            else st
        | None => st
        end in
      if any_in ["Liberation Sans"; "Liberation Serif"; "Noto Sans"; "Lohit"] styles_txt
      then hit 3 "LibreOffice font families referenced in styles" st
      else st
    else st in
  let settings_txt := settings_txt parts in
  let st :=
    if contains "<w:autoHyphenation" settings_txt
    then hit 0.5 "Contains <w:autoHyphenation> (possible LO default)" st
    else st in
  let ct_txt := content_types_txt parts in
  let st :=
    if any_in ["image/png"; "image/jpeg"] ct_txt
    then hit 1 "Lists extra image MIME types (often seen in LO)" st
    else st in
  let custom_txt := custom_props_txt parts in
  let st :=
    if contains "<vt:bool>0</vt:bool>" custom_txt
       || contains "<vt:bool>1</vt:bool>" custom_txt
    then hit 0.2 "Boolean serialization uses numeric form (LibreOffice style)" st
    else st in
  let st :=
    if contains "vt:lpwstr" custom_txt && contains "$Linux_" custom_txt
    then hit 0.3 "AppVersion property includes LibreOffice/Linux signature" st
    else st in
  let core_txt := core_txt parts in
  let st :=
    if contains "schemas.openxmlformats.org/officeDocument/2006/bibliography" core_txt
       && negb (contains "schemas.microsoft.com/office" core_txt)
    then hit 0.4 "Open bibliography schema without Microsoft URIs (LO-style rewrite)" st
    else st in
  st.

Definition lo_checks (zf : ZipFile) (parts : Parts) : Q * list string :=
  finish (lo_body parts).

(** ** Google Docs *)

(** [w:w="[\d]+\.[\d]+"] *)
Definition re_decimal_attr : regex :=
  seq [lit (dq "w:w='"); Plus isdecimal; lit "."; Plus isdecimal; lit (dq "'")].

(** [w:color w:val="[0-9a-f]{6}"] *)
Definition lower_hex_digit (c : ascii) : bool := between 48 57 c || between 97 102 c.

Definition re_lower_hex : regex :=
  seq [lit (dq "w:color w:val='");
       Chr lower_hex_digit; Chr lower_hex_digit; Chr lower_hex_digit;
       Chr lower_hex_digit; Chr lower_hex_digit; Chr lower_hex_digit;
       lit (dq "'")].

(** [w:font[^>]+name="Play"] *)
Definition re_play_font : regex :=
  seq [lit "w:font"; Plus (other_than ">"); lit (dq "name='Play'")].

(** The four tests of [gdocs_checks] that carry a weight of their own. *)
Definition gd_bool_attr (parts : Parts) : bool :=
  contains (dq "w:semiHidden w:val='1'") (styles_txt parts)
  || contains (dq "w:unhideWhenUsed w:val='1'") (styles_txt parts).

Definition gd_decimal (parts : Parts) : bool :=
  search re_decimal_attr (styles_txt parts).

Definition gd_play (parts : Parts) : bool :=
  search re_play_font (font_txt parts) || contains "Play Bold" (font_txt parts).

Definition gd_roboto (parts : Parts) : bool :=
  any_in ["Roboto"; "Noto Sans"; "Noto Serif"] (font_txt parts).

(** The two weak patterns. *)
Definition gd_lower_hex (parts : Parts) : bool :=
  search re_lower_hex (styles_txt parts).

Definition gd_symex (parts : Parts) : bool :=
  contains "word/2015/wordml/symex" (styles_txt parts)
  || contains "w16se" (styles_txt parts).

Definition gdocs_body (parts : Parts) : St :=
  let st := st0 in
  let st :=
    if gd_bool_attr parts
    then hit 2.0 "Boolean attributes serialized as w:val='1' (Google Docs pattern)" st
    else st in
  let st :=
    if gd_decimal parts
    then hit 1.5 "Decimal-style numeric attributes (e.g., w:w='0.0') found" st
    else st in
  let lower_hex := gd_lower_hex parts in
  let st :=
    if lower_hex
    then note "Lowercase 6-digit hex color codes (weak Google Docs pattern)" st
    else st in
  let has_symex := gd_symex parts in
  let st :=
    if has_symex
    then note "Contains w16se:symex namespace (weak marker; Word may include)" st
    else st in
  let fonts_hit := false in
  let '(st, fonts_hit) :=
    if gd_play parts
    then (hit 3.0 "Contains Play / Play Bold fonts (Google bundle)" st, true)
    else (st, fonts_hit) in
  let '(st, fonts_hit) :=
    if gd_roboto parts
    then (hit 1.5 "Contains Roboto/Noto font families (Google pattern)" st, true)
    else (st, fonts_hit) in
  let st :=
    if (lower_hex || has_symex) && (fonts_hit || ge (score st) 2.5) then
      let st := if lower_hex then bump 0.5 st else st in
      let st := if has_symex then bump 0.5 st else st in
      st
    else st in
  st.

Definition gdocs_checks (zf : ZipFile) (parts : Parts) : Q * list string :=
  finish (gdocs_body parts).

(** ** Apple Pages *)

(** [\bApple\b|\bPages\b] *)
Definition re_apple_pages : regex :=
  Alt (seq [Bnd; lit "Apple"; Bnd]) (seq [Bnd; lit "Pages"; Bnd]).

Definition pages_body (parts : Parts) : St :=
  let st := st0 in
  let theme_txt := theme_txt parts in
  let app_core_txt := (app_txt parts ++ core_txt parts)%string in
  let st :=
    if contains "Helvetica Neue" theme_txt
    then hit 4.5 "Contains Helvetica Neue (Apple Pages default font)" st
    else st in
  let st :=
    if contains "<a:theme" theme_txt && contains "Office Theme" theme_txt
       && negb (contains "xmlns:thm15" theme_txt)
    then hit 1.5 "Missing thm15 theme namespace (Pages-style theme)" st
    else st in
  let st :=
    if contains "<a:srgbClr" theme_txt && negb (contains "<a:sysClr" theme_txt)
    then hit 1.0 "Theme uses only <a:srgbClr> (no <a:sysClr>)" st
    else st in
  let st :=
    if negb (contains "<a:objectDefaults>" theme_txt)
       || negb (contains "<a:extLst>" theme_txt)
    then
      if ge (score st) 1.5
      then hit 0.5 "No <a:objectDefaults> or <a:extLst> (weak Pages indicator)" st
      else st
    else st in
  let st :=
    if search re_apple_pages app_core_txt
    then hit 3.5 "Explicit Apple/Pages marker in metadata" st
    else st in
  st.

Definition pages_checks (zf : ZipFile) (parts : Parts) : Q * list string :=
  finish (pages_body parts).

(** ** Pandoc / programmatic *)

(** [styleId=\"SourceCode\"|styleId=\"VerbatimChar\"] *)
Definition re_pandoc_styles : regex :=
  Alt (lit (dq "styleId='SourceCode'")) (lit (dq "styleId='VerbatimChar'")).

(** [styleId=\"KeywordTok\"|styleId=\"StringTok\"|styleId=\"CommentTok\"] *)
Definition re_token_styles : regex :=
  alts [lit (dq "styleId='KeywordTok'"); lit (dq "styleId='StringTok'");
        lit (dq "styleId='CommentTok'")].

(** [<dc:creator\s*/>|<cp:lastModifiedBy>\s*</cp:lastModifiedBy>] *)
Definition re_empty_author : regex :=
  Alt (seq [lit "<dc:creator"; Star isspace; lit "/>"])
      (seq [lit "<cp:lastModifiedBy>"; Star isspace; lit "</cp:lastModifiedBy>"]).

Definition pandoc_body (zf : ZipFile) (parts : Parts) : St :=
  let st := st0 in
  let app_txt := app_txt parts in
  let core_txt := core_txt parts in
  let styles_txt := styles_txt parts in
  let theme_txt := theme_txt parts in
  let doc_txt := doc_txt parts in
  let font_txt := font_txt parts in
  let st :=
    if search (lit_nocase "pandoc") (app_txt ++ core_txt)%string
    then hit 8 "Application or core properties mention Pandoc" st
    else st in
  let st :=
    if negb (any_in ["Application"; "AppVersion"; "Company"] app_txt)
       && nonempty (strip app_txt)
    then hit 1.5 "App properties minimal (likely programmatic generation)" st
    else st in
  let st :=
    if search re_pandoc_styles styles_txt
    then hit 2.5 "Contains 'SourceCode' / 'VerbatimChar' styles (Pandoc hallmark)" st
    else st in
  let st :=
    if search re_token_styles styles_txt
    then hit 2.0 "Contains Pygments token styles (Pandoc code highlighting)" st
    else st in
  let st :=
    if negb (contains "xmlns:thm15" theme_txt) && contains "<a:srgbClr" theme_txt
       && negb (contains "<a:sysClr" theme_txt)
    then hit 1.5 "Theme lacks thm15 namespace, uses only sRGB colors (Pandoc minimal theme)" st
    else st in
  let st :=
    if all_in ["Calibri"; "Cambria"] font_txt
       && negb (any_in ["Aptos"; "Liberation"; "Roboto"] font_txt)
    then hit 1.0 "Generic Calibri/Cambria font table (typical Pandoc default)" st
    else st in
  let st :=
    if negb (contains "rsidR" doc_txt) && negb (contains "mc:Ignorable" doc_txt)
    then hit 1.0 "Document XML lacks Word-specific rsid and mc:Ignorable attributes" st
    else st in
  let web_txt := read_text_from_zip zf "word/webSettings.xml" in
  let st :=
    if contains "<w:doNotSaveAsSingleFile" web_txt
       && negb (contains "optimizeForBrowser" web_txt)
    then hit 0.8 "Contains <w:doNotSaveAsSingleFile> without optimizeForBrowser (Pandoc default)" st
    else st in
  let st :=
    if negb (contains "<w:latentStyles" styles_txt)
       && contains (dq "<w:styleId='Normal'") styles_txt
    then hit 0.8 "Missing <w:latentStyles> (common in Pandoc-generated DOCX)" st
    else st in
  let st :=
    if (count doc_txt "<w:r>" <? 2 * count doc_txt "<w:p>")%nat
    then hit 0.8 "Low <w:r>/<w:p> ratio (flattened run structure typical of Pandoc)" st
    else st in
  let st :=
    if contains "<w:pPr>" doc_txt
       && negb (any_in ["w:spacing"; "w:ind"; "w:contextualSpacing"] doc_txt)
    then hit 0.5 "Paragraph properties minimal (no spacing/indent attributes)" st
    else st in
  let st :=
    if contains "Lucida" font_txt && negb (contains "Cambria Math" font_txt)
    then hit 0.5 "Math font substitution (Lucida instead of Cambria Math)" st
    else st in
  let st :=
    if any_in ["4F81BD"; "C0504D"; "9BBB59"; "8064A2"; "4BACC6"; "F79646"] theme_txt
    then hit 0.5 "Classic Office 2007 color palette (Pandoc default theme)" st
    else st in
  let st :=
    if search re_empty_author core_txt
    then hit 0.5 "Empty author/modified fields (metadata stripped by Pandoc)" st
    else st in
  st.

Definition pandoc_checks (zf : ZipFile) (parts : Parts) : Q * list string :=
  finish (pandoc_body zf parts).

(** ** WordPad *)

Definition wordpad_body (parts : Parts) : St :=
  let st := st0 in
  let content_types := content_types_txt parts in
  let has_theme := contains "/word/theme/theme1.xml" content_types in
  let has_settings := contains "/word/settings.xml" content_types in
  let has_fonts := contains "/word/fontTable.xml" content_types in
  let st :=
    if negb has_theme && negb has_settings && negb has_fonts
    then hit 3 "Content_Types.xml lacks theme/settings/fontTable overrides (WordPad pattern)" st
    else st in
  let styles_txt := styles_txt parts in
  let st :=
    if (0 <? len_splitlines styles_txt)%nat && (len_splitlines styles_txt <? 10)%nat
       && contains (dq "<w:styleId='Normal'") styles_txt
    then hit 3 "Tiny styles.xml with only 'Normal' style (WordPad hallmark)" st
    else st in
  let doc_txt := doc_txt parts in
  let st :=
    if contains "<w:document xmlns:w=" doc_txt
       && negb (contains "xmlns:r=" doc_txt)
       && negb (contains "xmlns:mc=" doc_txt)
    then hit 3 "Document XML uses only xmlns:w (minimal namespace set typical of WordPad)" st
    else st in
  let st :=
    if negb (nonempty (app_txt parts)) && negb (nonempty (core_txt parts))
    then hit 1 "No app/core properties (WordPad omits docProps entirely)" st
    else st in
  st.

Definition wordpad_checks (zf : ZipFile) (parts : Parts) : Q * list string :=
  finish (wordpad_body parts).

(** ** TextEdit *)

Definition textedit_body (parts : Parts) : St :=
  let st := st0 in
  let content_types := content_types_txt parts in
  let app_txt := app_txt parts in
  let core_txt := core_txt parts in
  let doc_txt := doc_txt parts in
  let theme_txt := theme_txt parts in
  let st :=
    if contains "/word/theme/theme1.xml" content_types
       && negb (contains "/word/styles.xml" content_types)
       && negb (contains "/word/settings.xml" content_types)
       && negb (contains "/word/fontTable.xml" content_types)
       && negb (contains "/word/numbering.xml" content_types)
    then hit 3 "Has theme but lacks styles/settings/fontTable/numbering (TextEdit pattern)" st
    else st in
  let st :=
    if startswith (strip app_txt) "<Properties"
       && negb (contains "<Application>" app_txt)
    then hit 3 "app.xml is empty <Properties> with no <Application> tag (TextEdit hallmark)" st
    else st in
  let st :=
    if contains "<cp:coreProperties" core_txt
       && (count core_txt "<dc:" =? 1)%nat
       && negb (contains "<lastModifiedBy>" core_txt)
       && negb (contains "<revision>" core_txt)
    then hit 2 "core.xml uses cp: prefix and only dc:creator (TextEdit serialization)" st
    else st in
  let st :=
    if contains "xmlns:w=" doc_txt
       && forallb (fun x => negb (contains x doc_txt))
                  ["xmlns:mc="; "xmlns:w14="; "xmlns:w15="; "xmlns:w16="]
       && contains (dq "<w:rFonts w:ascii='Times'") doc_txt
    then hit 2 "document.xml limited to base namespaces and hardcoded Times font" st
    else st in
  let st :=
    if contains (dq "name='Default Theme'") theme_txt
    then hit 1 "Theme1.xml uses name='Default Theme' (TextEdit theme rewrite)" st
    else st in
  let st :=
    if negb (contains "/docProps/custom.xml" content_types)
       && negb (contains "/customXml/" content_types)
       && negb (contains "<Template>" app_txt)
    then hit 1 "No customXml or extended properties (TextEdit metadata purge)" st
    else st in
  st.

Definition textedit_checks (zf : ZipFile) (parts : Parts) : Q * list string :=
  finish (textedit_body parts).

(** ** Microsoft Word *)

(** [enumerate(l)] *)
Fixpoint enumerate_from {A : Type} (i : Z) (l : list A) : list (Z * A) :=
  match l with
  | [] => []
  | x :: l' => (i, x) :: enumerate_from (i + 1)%Z l'
  end.

Definition enumerate {A : Type} (l : list A) : list (Z * A) := enumerate_from 0%Z l.

(** [max((i for i, p in enumerate(l) if test(p)), default=d)] *)
Definition max_index (test : string -> bool) (l : list string) (d : Z) : Z :=
  match map fst (filter (fun ip => test (snd ip)) (enumerate l)) with
  | [] => d
  | i :: rest => fold_left (fun best j => if (best <? j)%Z then j else best) rest i
  end.

(** [next((i for i, p in enumerate(l) if test(p)), None)] *)
Definition next_index (test : string -> bool) (l : list string) : option Z :=
  match map fst (filter (fun ip => test (snd ip)) (enumerate l)) with
  | [] => None
  | i :: _ => Some i
  end.

(** [re.search(r'Heading1|Heading2|Heading3', ...)] *)
Definition re_headings : regex :=
  alts [lit "Heading1"; lit "Heading2"; lit "Heading3"].

Definition boost_text : string :=
  "No strong non-Word indicators (boosting Word confidence)".

Definition order_text : string :=
  ("Override order in [Content_Types].xml shows docProps before /word/document.xml "
   ++ "(python-docx generation pattern; small deduction)")%string.

Section Word.
Variable fromstring : string -> option Element.

(** The tests on the parts that come before the look at the other scores. *)
Definition word_signals (parts : Parts) (st : St) : St :=
  let st :=
    match app_xml parts with
    | Some root =>
        match first_application root with
        | Some elem =>
            let val := lower (text_or_empty elem) in
            if contains "word" val
            then hit 4.0 "Application tag indicates Microsoft Word" st
            else st
        | None => st
        end
    | None => st
    end in
  let theme_txt := theme_txt parts in
  let font_txt := font_txt parts in
  let styles_txt := styles_txt parts in
  let st :=
    if contains "xmlns:thm15" theme_txt
    then hit 1.5 "Theme includes thm15 namespace (common in Word)" st
    else st in
  let st :=
    if contains "<a:sysClr" theme_txt
    then hit 1.0 "Theme uses <a:sysClr> (Windows system color mapping)" st
    else st in
  let st :=
    if contains "<w:panose1" font_txt || contains "<w:sig" font_txt
    then hit 1.0 "Font table includes <w:panose1> / <w:sig> fingerprints (Word)" st
    else st in
  let st :=
    if search re_headings styles_txt
    then hit 0.8 "Heading1–3 style cascade present (Word defaults)" st
    else st in
  st.

(** [if lo_score < 4 and gd_score < 4 and pg_score < 4: ...] *)
Definition word_boost (lo_score gd_score pg_score : Q) (st : St) : St :=
  if lt lo_score 4 && lt gd_score 4 && lt pg_score 4
  then hit 1.2 boost_text st
  else st.

(** The ordering test on [[Content_Types].xml]; any exception inside the
    [try] block leaves the state as it was. *)
Definition word_order (parts : Parts) (st : St) : St :=
  let raw := content_types_txt parts in
  match fromstring raw with
  | None => st
  | Some root =>
      let overrides :=
        map (fun elem => get_default (attrib elem) "PartName" "")
            (filter (fun elem => endswith (tag elem) "Override") (children root)) in
      if member "/word/document.xml" overrides then
        let docprops_last :=
          max_index (fun p => startswith p "/docProps/") overrides (-1) in
        let word_first := next_index (fun p => startswith p "/word/") overrides in
        match word_first with
        | Some wf =>
            if (0 <=? docprops_last)%Z && (docprops_last <? wf)%Z
            then hit (- 0.3) order_text st
            else st
        | None => st
        end
      else st
  end.

Definition word_body (parts : Parts) (lo_score gd_score pg_score : Q) : St :=
  word_order parts (word_boost lo_score gd_score pg_score (word_signals parts st0)).

Definition word_checks (zf : ZipFile) (parts : Parts)
           (lo_score gd_score pg_score : Q) : Q * list string :=
  finish (word_body parts lo_score gd_score pg_score).
End Word.

(* ================================================================== *)
(** * Word variants and the speculative detectors *)
(* ================================================================== *)

(** ** Word for the web against desktop Word *)

(** The two buckets of [word_variants_checks], each a score with its
    evidence list. *)
Record VSt : Type := mkVSt { word_web : St; word_desktop : St }.

Definition web (w : Q) (e : string) (v : VSt) : VSt :=
  mkVSt (hit w e (word_web v)) (word_desktop v).

Definition desktop (w : Q) (e : string) (v : VSt) : VSt :=
  mkVSt (word_web v) (hit w e (word_desktop v)).

Definition word_variants_body (parts : Parts) : VSt :=
  let v := mkVSt st0 st0 in
  let app_txt := app_txt parts in
  let core_txt := core_txt parts in
  let theme_txt := theme_txt parts in
  let font_txt := font_txt parts in
  let settings_txt := settings_txt parts in
  let doc_txt := doc_txt parts in
  let v :=
    if contains "Microsoft Word for the web" app_txt
    then web 6 "<Application>Microsoft Word for the web</Application> detected" v
    else v in
  let v :=
    if contains "Microsoft Office Word" app_txt
    then desktop 6 "<Application>Microsoft Office Word</Application> detected" v
    else v in
  let v :=
    if contains "Aptos" font_txt
    then desktop 2 "Aptos/Aptos Display font (new Word 2024 default)" v
    else v in
  let v :=
    if contains "Calibri" font_txt && negb (contains "Aptos" font_txt)
    then web 1.5 "Legacy Calibri font (Word Web or pre-2024 Word)" v
    else v in
  let v :=
    if contains "xmlns:thm15" theme_txt
    then web 1 "Theme includes thm15 namespace (Word Web)" v
    else v in
  let v :=
    if contains "w16du" theme_txt || contains "w16du" settings_txt
    then desktop 1.5 "Modern WordML namespaces (Word 2023/2024 Desktop)" v
    else v in
  let v :=
    if (3 * count doc_txt "<w:p>" <? count doc_txt "<w:r>")%nat
    then web 1.5 "Highly fragmented <w:r> structure (Word for Web pattern)" v
    else desktop 0.5 "Compact run structure (Desktop Word)" v in
  let v :=
    if contains "<cp:revision>" core_txt
    then desktop 1 "Core properties include <cp:revision> (Desktop Word)" v
    else web 0.5 "No revision property (Word Web minimal metadata)" v in
  v.

(** The result: the [score] and [ev] dictionaries, keys in insertion order. *)
Definition word_variants_checks (zf : ZipFile) (parts : Parts)
  : list (string * Q) * list (string * list string) :=
  let v := word_variants_body parts in
  ([("word_web", py_min (score (word_web v)) 10.0);
    ("word_desktop", py_min (score (word_desktop v)) 10.0)],
   [("word_web", ev (word_web v)); ("word_desktop", ev (word_desktop v))]).

(** ** OnlyOffice table and section idioms *)

Definition hex_upper_digit (c : ascii) : bool := between 65 70 c || between 48 57 c.

(** [<w:tblCellSpacing[^>]*w:w="(\d+)"] *)
Definition re_cell_spacing : regex :=
  seq [lit "<w:tblCellSpacing"; Star (other_than ">"); lit (dq "w:w='");
       Grp (Plus isdecimal); lit (dq "'")].

(** [<w:tblLayout[^>]*w:type="fixed"] *)
Definition re_fixed_layout : regex :=
  seq [lit "<w:tblLayout"; Star (other_than ">"); lit (dq "w:type='fixed'")].

(** [<w:tblLook[^>]*w:val="0[4-7][A-F0-9]{2}"] *)
Definition re_tbl_look : regex :=
  seq [lit "<w:tblLook"; Star (other_than ">"); lit (dq "w:val='0");
       Chr (between 52 55); Chr hex_upper_digit; Chr hex_upper_digit; lit (dq "'")].

(** [<w:tblW[^>]*>\s*<w:tblStyle] *)
Definition re_tblw_first : regex :=
  seq [lit "<w:tblW"; Star (other_than ">"); lit ">"; Star isspace; lit "<w:tblStyle"].

(** [<w:tblBorders[^>]*>\s*<w:tblLayout] *)
Definition re_borders_first : regex :=
  seq [lit "<w:tblBorders"; Star (other_than ">"); lit ">"; Star isspace;
       lit "<w:tblLayout"].

(** [w:w="(\d+)"] *)
Definition re_width : regex :=
  seq [lit (dq "w:w='"); Grp (Plus isdecimal); lit (dq "'")].

(** [<w:(tbl|tr|tc|p|r)PrChange] *)
Definition re_pr_change : regex :=
  seq [lit "<w:"; Grp (alts [lit "tbl"; lit "tr"; lit "tc"; lit "p"; lit "r"]);
       lit "PrChange"].

(** [itemProps\d+\.xml] *)
Definition re_item_props : regex :=
  seq [lit "itemProps"; Plus isdecimal; lit ".xml"].

(** [(formid=|glossaryid=|jsaproject)] under [re.I] *)
Definition re_oform : regex :=
  Grp (alts [lit_nocase "formid="; lit_nocase "glossaryid="; lit_nocase "jsaproject"]).

(** [onlyoffice_checks(doc_text, evidence)] appends to the caller's list;
    the result pairs the returned score with the list after the call. *)
Definition onlyoffice_checks (doc_text : string) (evidence : list string)
  : Q * list string :=
  let st := mkSt 0 evidence in
  let st :=
    if existsb (fun m => (int m mod 1134 <? 10)%N) (findall_group re_cell_spacing doc_text)
    then hit 2 "Table cell spacing → doubled mm/twip conversion (OnlyOffice)." st
    else st in
  let tbl_layouts := List.length (findall re_fixed_layout doc_text) in
  let st :=
    if (3 <=? tbl_layouts)%nat
    then hit 2 (str (N.of_nat tbl_layouts)
                ++ " tables forced to fixed layout (OnlyOffice default).")%string st
    else st in
  let st :=
    if search re_tbl_look doc_text
    then hit 2 "Nonstandard <w:tblLook> bitmask (OnlyOffice bit flag composition)." st
    else st in
  let st :=
    if search re_tblw_first doc_text
    then hit 1 "<w:tblW> precedes <w:tblStyle> (OnlyOffice ordering)." st
    else st in
  let st :=
    if search re_borders_first doc_text
    then hit 1 "<w:tblBorders> precedes <w:tblLayout> (OnlyOffice ordering)." st
    else st in
  let st :=
    match find (fun m => let v := int m in
                         negb ((v mod 5 =? 0)%N || (v mod 5 =? 5)%N)
                         && negb (v mod 10 =? 0)%N)
               (findall_group re_width doc_text) with
    | Some m =>
        hit 1 ("Non-rounded twip " ++ str (int m)
               ++ " — float→int mm rounding (OnlyOffice).")%string st
    | None => st
    end in
  let st :=
    if contains "<w:tblLayout" doc_text && negb (contains "mc:Ignorable" doc_text)
    then hit 1 "tblLayout present but missing mc:Ignorable (OnlyOffice omission)." st
    else st in
  let st :=
    if search re_pr_change doc_text && negb (contains "<w:trackChange" doc_text)
    then hit 2 "Inline *PrChange blocks without trackChange (OnlyOffice-style revisions)." st
    else st in
  let st :=
    if contains (dq "<w:numId w:val='0'") doc_text
       && negb (contains "<w:abstractNumId" doc_text)
    then hit 1 "<w:numId w:val='0'> without abstractNum (OnlyOffice numbering map leak)." st
    else st in
  let st :=
    if contains "<w:lvlOverride" doc_text && negb (contains "<w:startOverride" doc_text)
    then hit 1 "<w:lvlOverride> without startOverride (OnlyOffice list export artifact)." st
    else st in
  let st :=
    if contains "<w:headerReference" doc_text
       && negb (contains "<w:evenAndOddHeaders" doc_text)
    then hit 1 "Header refs but no evenAndOddHeaders — pre-v5 OnlyOffice schema." st
    else st in
  let st :=
    if contains "<w:sectPr" doc_text && negb (contains "<w:titlePg" doc_text)
    then hit 1 "Sections present but missing titlePg — older OnlyOffice export (<v5)." st
    else st in
  let st :=
    if search re_item_props doc_text || search re_oform doc_text
    then hit 2 "References to OForm/Glossary/JSA — OnlyOffice extensions." st
    else st in
  let st :=
    if negb (contains "xmlns:wps" doc_text) && contains "drawing" doc_text
    then hit 1 "Missing wps/wpg drawing namespaces (OnlyOffice omission)." st
    else st in
  finish st.

(** ** Word on the web and SharePoint *)

(** [https://.*sharepoint\.com] under [re.I] *)
Definition re_sharepoint : regex :=
  seq [lit_nocase "https://"; Star dot; lit_nocase "sharepoint.com"].

(** One turn of the loop over [zf.namelist()]. *)
Definition wordaspect_name (st : St) (name : string) : St :=
  let st :=
    if startswith name "webextensions/"
    then hit 3 ("Contains " ++ name ++ " (Word 365 Web add-in structure)")%string st
    else st in
  let st :=
    if contains "sharepoint.com" (lower name)
    then hit 5 ("References SharePoint URL in relationships: " ++ name)%string st
    else st in
  st.

Definition check_speculative_wordaspect (zf : ZipFile) : Q * list string :=
  let st := fold_left wordaspect_name (namelist zf) st0 in
  let core := read_text_from_zip zf "docProps/core.xml" in
  let st :=
    if search re_sharepoint core
    then hit 4 "SharePoint reference found in core properties" st
    else st in
  let st :=
    if search (lit "Microsoft Office Word") core
    then hit 1 "Application tag suggests Office Online editor" st
    else st in
  (py_min (score st) 10, ev st).

(** ** Other engines *)

(** The [xml_bundle] dictionary; [score_docx] supplies all six keys. *)
Record Bundle : Type := mkBundle {
  b_app : string; b_core : string; b_font : string;
  b_styles : string; b_theme : string; b_content : string
}.

(** The [scores] dictionary with its [evidences] list of pairs. *)
Record OSt : Type := mkOSt {
  o_scores : list (string * Q);
  o_evidences : list (string * string)
}.

(** [d[key] += w] on a dictionary that has the key *)
Definition add_at (key : string) (w : Q) (d : list (string * Q)) : list (string * Q) :=
  map (fun kv => if String.eqb (fst kv) key then (fst kv, snd kv + w) else kv) d.

(** [d[key] = v] on a dictionary that has the key *)
Definition set_at (key : string) (v : Q) (d : list (string * Q)) : list (string * Q) :=
  map (fun kv => if String.eqb (fst kv) key then (fst kv, v) else kv) d.

(** [d[key]] on a dictionary that has the key *)
Definition at_key (key : string) (d : list (string * Q)) : Q :=
  match find (fun kv => String.eqb (fst kv) key) d with
  | Some kv => snd kv
  | None => 0
  end.

(** [scores[key] += w; evidences.append((engine, e))] *)
Definition ohit (key : string) (w : Q) (engine e : string) (o : OSt) : OSt :=
  mkOSt (add_at key w (o_scores o)) (o_evidences o ++ [(engine, e)]).

Definition check_speculative_lomarkeshare (xml_bundle : Bundle)
  : list (string * Q) * list (string * string) :=
  let app := b_app xml_bundle in
  let core := b_core xml_bundle in
  let font := b_font xml_bundle in
  let styles := b_styles xml_bundle in
  let theme := b_theme xml_bundle in
  let content := b_content xml_bundle in
  let o := mkOSt [("wps", 0.0); ("onlyoffice", 0.0); ("abiword", 0.0);
                  ("calligra", 0.0); ("wordpad", 0.0); ("softmaker", 0.0);
                  ("programmatic", 0.0)] [] in
  let o :=
    if any_in ["wps"; "kingsoft"; "wps office"] (lower (app ++ core))
    then ohit "wps" 8 "WPS Office" "Application metadata contains WPS/Kingsoft signature" o
    else o in
  let o :=
    if contains "schemas.wps.cn" (app ++ content ++ styles)
    then ohit "wps" 5 "WPS Office" "Contains Chinese WPS-specific XML namespace" o
    else o in
  let o :=
    if any_in ["SimSun"; "KaiTi"; "FangSong"] font
    then ohit "wps" 2 "WPS Office" "CJK font families common in WPS Office" o
    else o in
  let o :=
    if contains "abiword" (lower (app ++ core))
    then ohit "abiword" 8 "AbiWord" "Application tag or creator field mentions AbiWord" o
    else o in
  let o :=
    if negb (contains "<a:theme" theme) && contains "<w:docDefaults" styles
    then ohit "abiword" 3 "AbiWord" "No theme.xml but includes simple docDefaults" o
    else o in
  let o :=
    if contains (dq "styleId='Normal'") styles && negb (contains "Heading1" styles)
    then ohit "abiword" 1 "AbiWord" "Single 'Normal' style without headings (AbiWord pattern)" o
    else o in
  let o :=
    if contains "calligra" (lower (app ++ core ++ content))
    then ohit "calligra" 8 "Calligra Words" "Application metadata indicates Calligra Words" o
    else o in
  let o :=
    if negb (contains "<w:compatSetting" content) && contains "koffice" (lower (app ++ core))
    then ohit "calligra" 2 "Calligra Words" "No compatSetting + legacy KOffice marker" o
    else o in
  let o :=
    if contains "wordpad" (lower (app ++ core))
    then ohit "wordpad" 8 "WordPad" "Application tag indicates WordPad" o
    else o in
  let o :=
    if negb (contains "word/theme/theme1.xml" content)
       && contains (dq "<w:styleId='Normal'") styles
       && negb (contains "<w:style" (slice_from 500 content))
    then ohit "wordpad" 3 "WordPad" "No theme and only a 'Normal' style (WordPad pattern)" o
    else o in
  let o :=
    if contains "textmaker" (lower (app ++ core ++ content))
    then ohit "softmaker" 8 "TextMaker" "Application metadata includes TextMaker" o
    else o in
  let o :=
    if contains "SoftMaker Office" (core ++ content)
    then ohit "softmaker" 6 "TextMaker" "Custom props mention SoftMaker Office" o
    else o in
  let o :=
    if any_in ["pandoc"; "docx4j"; "aspose"; "poi"; "python-docx"]
              (lower (app ++ core ++ content))
    then ohit "programmatic" 8 "Programmatic" "Metadata references Pandoc/docx4j/Aspose" o
    else o in
  let o :=
    if negb (any_in ["Application"; "AppVersion"; "Company"] (app ++ core ++ content))
    then ohit "programmatic" 2 "Programmatic" "No app metadata tags (generated by library)" o
    else o in
  let o :=
    if negb (contains "<w:themeFontLang" styles) && contains "<w:lang" content
    then ohit "programmatic" 1.5 "Programmatic"
              "Basic language tags without theme references (minimal DOCX structure)" o
    else o in
  let o :=
    if contains "onlyoffice" (lower (app ++ core ++ content))
    then ohit "onlyoffice" 8 "OnlyOffice" "Application metadata references OnlyOffice" o
    else o in
  let o :=
    if contains "onlyoffice.com/schema" content
    then ohit "onlyoffice" 4 "OnlyOffice" "Contains OnlyOffice custom schema URI" o
    else o in
  let o :=
    if negb (contains "<w:latentStyles" styles)
    then ohit "onlyoffice" 1.5 "OnlyOffice"
              "Missing latentStyles section (common in OnlyOffice exports)" o
    else o in
  let '(oo_score, oo_ev) := onlyoffice_checks content [] in
  let o :=
    if ge oo_score 2
    then mkOSt (set_at "onlyoffice"
                       (py_min 10.0 (at_key "onlyoffice" (o_scores o) + oo_score))
                       (o_scores o))
               (o_evidences o ++ map (fun e => ("OnlyOffice", e)) oo_ev)
    else o in
  (map (fun kv => (fst kv, py_min (snd kv) 10.0)) (o_scores o), o_evidences o).

(* ================================================================== *)
(** * Verdict and scoring engine *)
(* ================================================================== *)

(** A [scores] dictionary: its items in insertion order, keys distinct. *)
Definition Scores : Type := list (string * Q).

(** [d[key]] *)
Fixpoint getitem (d : Scores) (key : string) : result Q :=
  match d with
  | [] => Raise (KeyError key)
  | (k, v) :: d' => if String.eqb k key then Ok v else getitem d' key
  end.

(** [max(d, key=d.get)] continued from the best item so far: a later item
    replaces it only when its value is strictly greater. *)
Fixpoint max_item (best : string * Q) (d : Scores) : string * Q :=
  match d with
  | [] => best
  | kv :: d' => max_item (if Qltb (snd best) (snd kv) then kv else best) d'
  end.

(** [max(d, key=d.get)]; [ValueError] on an empty dictionary. *)
Definition max_key (d : Scores) : result string :=
  match d with
  | [] => Raise ValueError
  | kv :: d' => Ok (fst (max_item kv d'))
  end.

Definition label_table : list (string * string) :=
  [("libreoffice", "LibreOffice");
   ("google_docs", "Google Docs");
   ("apple_pages", "Apple Pages");
   ("word", "Microsoft Word");
   ("pandoc", "Pandoc / programmatic");
   ("wordpad", "WordPad");
   ("textedit", "TextEdit")].

Fixpoint lookup_label (t : list (string * string)) (key : string) : result string :=
  match t with
  | [] => Raise (KeyError key)
  | (k, v) :: t' => if String.eqb k key then Ok v else lookup_label t' key
  end.

Definition label (key : string) : result string := lookup_label label_table key.

(** [{k: v for k, v in scores.items() if k != "word"}] *)
Definition non_word_of (scores : Scores) : Scores :=
  filter (fun kv => negb (String.eqb (fst kv) "word")) scores.

Definition choose_verdict (scores : Scores) : result string :=
  let non_word := non_word_of scores in
  do top_origin <- max_key non_word;
  do top_val <- getitem non_word top_origin;
  do word_val <- getitem scores "word";
  if ge top_val 7 then
    do l <- label top_origin;
    Ok ("Definitely " ++ l ++ " export")%string
  else if ge top_val 5 then
    do l <- label top_origin;
    Ok ("Likely " ++ l ++ " export or mixed")%string
  else if ge word_val 7 && lt top_val 4 then
    Ok "Pure Microsoft Word"
  else if ge word_val 5 && lt top_val 5 then
    Ok "Probably Microsoft Word (minor artifacts present)"
  else
    Ok "Inconclusive / mixed".

(** Two [scores] dictionaries hold the same mapping when every key has a
    score in both or in neither, and the two scores are the same number. *)
Definition same_mapping (s1 s2 : Scores) : Prop :=
  forall key,
    match getitem s1 key, getitem s2 key with
    | Ok a, Ok b => a == b
    | Raise _, Raise _ => True
    | _, _ => False
    end.

(** The record returned by [score_docx]. *)
Record Report : Type := mkReport {
  r_scores : Scores;
  r_verdict : string;
  r_taint : Q;
  r_evidence : list (string * list string);
  r_variant_scores : list (string * Q);
  r_variant_evidence : list (string * list string);
  r_word_web_score : Q;
  r_word_web_evidence : list string;
  r_other_scores : list (string * Q);
  r_other_evidence : list (string * string)
}.

(** The [scores] dictionary as [score_docx] writes it. *)
Definition scoreboard (wd lo gd pg pd wp te : Q) : Scores :=
  [("word", wd); ("libreoffice", lo); ("google_docs", gd); ("apple_pages", pg);
   ("pandoc", pd); ("wordpad", wp); ("textedit", te)].

Section Engine.
Variable fromstring : string -> option Element.

(** The [parts] dictionary of [score_docx]; the six parsed entries are
    read first, in the order of the source, and a [ParseError] of any of
    them leaves the function. *)
Definition load_parts (zf : ZipFile) : result Parts :=
  do app_xml <- read_xml_from_zip fromstring zf "docProps/app.xml";
  do font_xml <- read_xml_from_zip fromstring zf "word/fontTable.xml";
  do doc_xml <- read_xml_from_zip fromstring zf "word/document.xml";
  do styles_xml <- read_xml_from_zip fromstring zf "word/styles.xml";
  do settings_xml <- read_xml_from_zip fromstring zf "word/settings.xml";
  do theme_xml <- read_xml_from_zip fromstring zf "word/theme/theme1.xml";
  Ok (mkParts app_xml font_xml doc_xml styles_xml settings_xml theme_xml
              (read_text_from_zip zf "[Content_Types].xml")
              (read_text_from_zip zf "docProps/custom.xml")
              (read_text_from_zip zf "docProps/core.xml")
              (read_text_from_zip zf "docProps/app.xml")
              (read_text_from_zip zf "word/fontTable.xml")
              (read_text_from_zip zf "word/document.xml")
              (read_text_from_zip zf "word/styles.xml")
              (read_text_from_zip zf "word/settings.xml")
              (read_text_from_zip zf "word/theme/theme1.xml")).

(** The body of [score_docx] after [parts] is built, with the three
    advisory computations (Word variants, Word on the web, other engines)
    as arguments. *)
Definition assemble
           (variants : ZipFile -> Parts -> list (string * Q) * list (string * list string))
           (wordaspect : ZipFile -> Q * list string)
           (lomarkeshare : Bundle -> list (string * Q) * list (string * string))
           (zf : ZipFile) (parts : Parts) : result Report :=
  let '(lo_score, lo_ev) := lo_checks zf parts in
  let '(gd_score, gd_ev) := gdocs_checks zf parts in
  let '(pg_score, pg_ev) := pages_checks zf parts in
  let '(pd_score, pd_ev) := pandoc_checks zf parts in
  let '(wd_score, wd_ev) := word_checks fromstring zf parts lo_score gd_score pg_score in
  let '(word_variant_scores, word_variant_ev) := variants zf parts in
  let '(wp_score, wp_ev) := wordpad_checks zf parts in
  let '(te_score, te_ev) := textedit_checks zf parts in
  let scores := scoreboard wd_score lo_score gd_score pg_score pd_score wp_score te_score in
  do verdict <- choose_verdict scores;
  let evidence :=
    [("word", wd_ev); ("libreoffice", lo_ev); ("google_docs", gd_ev);
     ("apple_pages", pg_ev); ("pandoc", pd_ev); ("wordpad", wp_ev);
     ("textedit", te_ev)] in
  let taint_like := py_max lo_score [gd_score; pg_score; pd_score] in
  let '(wordweb_score, wordweb_ev) := wordaspect zf in
  let '(lo_extras, lo_extra_ev) :=
    lomarkeshare (mkBundle (app_txt parts) (core_txt parts) (font_txt parts)
                           (styles_txt parts) (theme_txt parts) (doc_txt parts)) in
  Ok (mkReport scores verdict taint_like evidence
               word_variant_scores word_variant_ev
               wordweb_score wordweb_ev lo_extras lo_extra_ev).

(** [score_docx], for an archive that opened. *)
Definition score_docx (zf : ZipFile) : result Report :=
  do parts <- load_parts zf;
  assemble word_variants_checks check_speculative_wordaspect
           check_speculative_lomarkeshare zf parts.
End Engine.

(** The seven detector scores that [score_docx] puts in [scores]. *)
Definition primary_scores (fromstring : string -> option Element)
           (zf : ZipFile) (parts : Parts) : Scores :=
  let lo := fst (lo_checks zf parts) in
  let gd := fst (gdocs_checks zf parts) in
  let pg := fst (pages_checks zf parts) in
  scoreboard (fst (word_checks fromstring zf parts lo gd pg)) lo gd pg
             (fst (pandoc_checks zf parts))
             (fst (wordpad_checks zf parts))
             (fst (textedit_checks zf parts)).

(* ================================================================== *)
(** * Sample packages *)
(* ================================================================== *)

(** The documents that the examples parse, with the trees that
    [ET.fromstring] builds for them. *)
Definition app_libreoffice_txt : string :=
  "<Properties><Application>LibreOffice</Application></Properties>".

Definition app_libreoffice_xml : Element :=
  Elem "Properties" None []
       [Elem "Application" (Some "LibreOffice") [] []].

Definition content_types_docprops_first_txt : string :=
  dq "<Types><Override PartName='/docProps/app.xml'/><Override PartName='/word/document.xml'/></Types>".

Definition content_types_docprops_first_xml : Element :=
  Elem "Types" None []
       [Elem "Override" None [("PartName", "/docProps/app.xml")] [];
        Elem "Override" None [("PartName", "/word/document.xml")] []].

Definition fonts_plain_txt : string := "<fonts/>".

Definition fonts_plain_xml : Element := Elem "fonts" None [] [].

Definition styles_lower_hex_txt : string :=
  dq ("<w:styles xmlns:w='" ++ NAMESPACE_w
      ++ "'><w:style><w:color w:val='ff0000'/></w:style></w:styles>")%string.

Definition styles_lower_hex_xml : Element :=
  Elem ("{" ++ NAMESPACE_w ++ "}styles")%string None []
       [Elem ("{" ++ NAMESPACE_w ++ "}style")%string None []
             [Elem ("{" ++ NAMESPACE_w ++ "}color")%string None
                   [(("{" ++ NAMESPACE_w ++ "}val")%string, "ff0000")] []]].

Definition fonts_roboto_txt : string :=
  dq ("<w:fonts xmlns:w='" ++ NAMESPACE_w ++ "'><w:font w:name='Roboto'/></w:fonts>")%string.

Definition fonts_roboto_xml : Element :=
  Elem ("{" ++ NAMESPACE_w ++ "}fonts")%string None []
       [Elem ("{" ++ NAMESPACE_w ++ "}font")%string None
             [(("{" ++ NAMESPACE_w ++ "}name")%string, "Roboto")] []].

(** A text that is not well-formed XML: the start tag is never closed. *)
Definition malformed_txt : string := "<Properties".

(** An instance of the parser for the examples: it knows the sample
    documents above and raises [ParseError] on the empty text and on
    [malformed_txt]; the examples apply it to no other text. *)
Definition sample_fromstring (s : string) : option Element :=
  if String.eqb s app_libreoffice_txt then Some app_libreoffice_xml
  else if String.eqb s content_types_docprops_first_txt
       then Some content_types_docprops_first_xml
  else if String.eqb s fonts_plain_txt then Some fonts_plain_xml
  else if String.eqb s styles_lower_hex_txt then Some styles_lower_hex_xml
  else if String.eqb s fonts_roboto_txt then Some fonts_roboto_xml
  else None.

(** An archive without entries. *)
Definition empty_zip : ZipFile := [].

(** An archive written by LibreOffice metadata with the override order of
    a generated manifest. *)
Definition lo_ordered_zip : ZipFile :=
  [("[Content_Types].xml", content_types_docprops_first_txt);
   ("docProps/app.xml", app_libreoffice_txt)].

(** An archive whose [docProps/app.xml] is not well-formed. *)
Definition malformed_zip : ZipFile :=
  [("docProps/app.xml", malformed_txt)].

(** An archive whose core properties name Pandoc. *)
Definition pandoc_zip : ZipFile :=
  [("docProps/core.xml", "pandoc")].

(** An archive with a font table that has no font fingerprints. *)
Definition plain_fonts_zip : ZipFile :=
  [("word/fontTable.xml", fonts_plain_txt)].

(** An archive in which only a weak Google Docs pattern matches. *)
Definition gd_weak_zip : ZipFile :=
  [("word/styles.xml", styles_lower_hex_txt)].

(** An archive with the same weak pattern and a Google font. *)
Definition gd_fonts_zip : ZipFile :=
  [("word/styles.xml", styles_lower_hex_txt);
   ("word/fontTable.xml", fonts_roboto_txt)].

(* ================================================================== *)
(** * Notions used to state the properties *)
(* ================================================================== *)

(** A state whose score is not negative. *)
Definition nonneg (st : St) : Prop := 0 <= score st.

(** The sum of the weights of the four tests of [gdocs_checks] that carry
    a weight of their own and pass. *)
Definition gd_strong_weight (parts : Parts) : Q :=
  (if gd_bool_attr parts then 2.0 else 0)
  + (if gd_decimal parts then 1.5 else 0)
  + (if gd_play parts then 3.0 else 0)
  + (if gd_roboto parts then 1.5 else 0).

(** The three strongest non-Word scores of a ScoreBoard, as the
    specification words the input of Word's extra signal: the non-Word
    scores sorted from the largest down, cut after the third. *)
Fixpoint insert_desc (x : Q) (l : list Q) : list Q :=
  match l with
  | [] => [x]
  | y :: l' => if Qltb y x then x :: l else y :: insert_desc x l'
  end.

Definition spec_three_strongest_non_word (scores : Scores) : list Q :=
  firstn 3 (fold_right insert_desc [] (map snd (non_word_of scores))).

(** [evidence.get(key) or []], as [main] reads the evidence of an origin. *)
Definition evidence_for (r : Report) (key : string) : list string :=
  match find (fun kv => String.eqb (fst kv) key) (r_evidence r) with
  | Some kv => snd kv
  | None => []
  end.

(** The six entries that [score_docx] parses as XML. *)
Definition xml_entries : list string :=
  ["docProps/app.xml"; "word/fontTable.xml"; "word/document.xml";
   "word/styles.xml"; "word/settings.xml"; "word/theme/theme1.xml"].

(* ================================================================== *)
(** * The summary paragraph and the concise verdict *)
(* ================================================================== *)

(** [d.get(key, 0)] on a dictionary of scores *)
Fixpoint get_or_zero (d : list (string * Q)) (key : string) : Q :=
  match d with
  | [] => 0
  | (k, v) :: d' => if String.eqb k key then v else get_or_zero d' key
  end.

(** [" ".join(lines)] *)
Fixpoint join_space (lines : list string) : string :=
  match lines with
  | [] => ""
  | [l] => l
  | l :: rest => (l ++ " " ++ join_space rest)%string
  end.

(** The variant that [summarize_provenance] names, if any. *)
Definition likely_variant (word_variants : list (string * Q)) : option string :=
  if Qltb (get_or_zero word_variants "word_desktop") (get_or_zero word_variants "word_web")
  then Some "Word for the Web"
  else if Qltb 0 (get_or_zero word_variants "word_desktop")
  then Some "Word Desktop"
  else None.

Definition summarize_provenance (result : Report) : string :=
  let verdict := r_verdict result in
  let word_variants := r_variant_scores result in
  let lines := [("Overall verdict: " ++ verdict ++ ".")%string] in
  let lines :=
    match likely_variant word_variants with
    | Some v =>
        lines ++ [("Within Microsoft Word, this document most closely matches **"
                   ++ v ++ "** patterns.")%string]
    | None => lines
    end in
  let lines :=
    lines ++ ["Heuristics examined include font defaults, XML namespaces, and application metadata."] in
  join_space lines.

(** [s.split()]: the words of [s], separated by runs of white space.
    [word] holds the characters of the word being read. *)
Fixpoint split_from (word : string) (s : string) : list string :=
  match s with
  | EmptyString => if nonempty word then [word] else []
  | String c s' =>
      if isspace c
      then (if nonempty word then word :: split_from "" s' else split_from "" s')
      else split_from (word ++ String c "")%string s'
  end.

Definition split (s : string) : list string := split_from "" s.

(** The verdict that [main] prints under [--concise]:
    [verdict2[0] if len(verdict2) < 2 else verdict2[1]]; [None] stands for
    the [IndexError] of [verdict2[0]] on a verdict without a word. *)
Definition concise_verdict (verdict : string) : option string :=
  let verdict2 := split verdict in
  if (List.length verdict2 <? 2)%nat
  then nth_error verdict2 0
  else nth_error verdict2 1.

(** The labels that [choose_verdict] can return on a ScoreBoard. *)
Definition non_word_labels : list string :=
  ["LibreOffice"; "Google Docs"; "Apple Pages"; "Pandoc / programmatic";
   "WordPad"; "TextEdit"].

Definition all_verdicts : list string :=
  map (fun l => ("Definitely " ++ l ++ " export")%string) non_word_labels
  ++ map (fun l => ("Likely " ++ l ++ " export or mixed")%string) non_word_labels
  ++ ["Pure Microsoft Word";
      "Probably Microsoft Word (minor artifacts present)";
      "Inconclusive / mixed"].

(** The evidence texts that the cross-detector properties name. *)
Definition app_word_text : string := "Application tag indicates Microsoft Word".
Definition word_sysclr_text : string := "Theme uses <a:sysClr> (Windows system color mapping)".
Definition word_fingerprint_text : string :=
  "Font table includes <w:panose1> / <w:sig> fingerprints (Word)".
Definition lo_no_fingerprint_text : string :=
  "No <w:panose1> or <w:sig> font fingerprints (often present in Word)".
Definition pages_srgb_text : string := "Theme uses only <a:srgbClr> (no <a:sysClr>)".
Definition pages_weak_text : string :=
  "No <a:objectDefaults> or <a:extLst> (weak Pages indicator)".
Definition pandoc_theme_text : string :=
  "Theme lacks thm15 namespace, uses only sRGB colors (Pandoc minimal theme)".
Definition wordpad_overrides_text : string :=
  "Content_Types.xml lacks theme/settings/fontTable overrides (WordPad pattern)".
Definition textedit_theme_text : string :=
  "Has theme but lacks styles/settings/fontTable/numbering (TextEdit pattern)".

(** A second parser instance, for an archive that Word wrote. *)
Definition app_word_txt : string :=
  "<Properties><Application>Microsoft Office Word</Application></Properties>".

Definition app_word_xml : Element :=
  Elem "Properties" None []
       [Elem "Application" (Some "Microsoft Office Word") [] []].

Definition NAMESPACE_a : string :=
  "http://schemas.openxmlformats.org/drawingml/2006/main".

Definition theme_word_txt : string :=
  dq ("<a:theme xmlns:a='" ++ NAMESPACE_a
      ++ "' xmlns:thm15='http://schemas.microsoft.com/office/thememl/2012/main'"
      ++ " name='Office Theme'><a:sysClr val='windowText'/></a:theme>")%string.

Definition theme_word_xml : Element :=
  Elem ("{" ++ NAMESPACE_a ++ "}theme")%string None [("name", "Office Theme")]
       [Elem ("{" ++ NAMESPACE_a ++ "}sysClr")%string None [("val", "windowText")] []].

Definition theme_srgb_txt : string :=
  dq ("<a:theme xmlns:a='" ++ NAMESPACE_a
      ++ "' name='Simple'><a:srgbClr val='4F81BD'/></a:theme>")%string.

Definition theme_srgb_xml : Element :=
  Elem ("{" ++ NAMESPACE_a ++ "}theme")%string None [("name", "Simple")]
       [Elem ("{" ++ NAMESPACE_a ++ "}srgbClr")%string None [("val", "4F81BD")] []].

Definition word_fromstring (s : string) : option Element :=
  if String.eqb s app_word_txt then Some app_word_xml
  else if String.eqb s theme_word_txt then Some theme_word_xml
  else if String.eqb s theme_srgb_txt then Some theme_srgb_xml
  else None.

(** An archive whose theme uses sRGB colours only. *)
Definition srgb_theme_zip : ZipFile :=
  [("word/theme/theme1.xml", theme_srgb_txt)].

Definition pure_word_zip : ZipFile :=
  [("docProps/app.xml", app_word_txt);
   ("word/theme/theme1.xml", theme_word_txt)].

(** An archive with two web-extension entries. *)
Definition webext_zip : ZipFile :=
  [("webextensions/taskpanes.xml", "<taskpanes/>");
   ("webextensions/webextension1.xml", "<webextension/>")].

(** The evidence text of [check_speculative_wordaspect] for an entry under
    [webextensions/]. *)
Definition webext_text (name : string) : string :=
  ("Contains " ++ name ++ " (Word 365 Web add-in structure)")%string.

(** The summary paragraph with a named variant. *)
Definition summary_with_variant (verdict variant : string) : string :=
  (("Overall verdict: " ++ verdict ++ ".") ++ " "
   ++ ("Within Microsoft Word, this document most closely matches **"
       ++ variant ++ "** patterns.") ++ " "
   ++ "Heuristics examined include font defaults, XML namespaces, and application metadata.")%string.

(** The two buckets of the variant classifier hold scores that are not
    negative. *)
Definition buckets_nonneg (v : VSt) : Prop :=
  0 <= score (word_web v) /\ 0 <= score (word_desktop v).

(** After the last test of the classifier: the two scores add up to at
    least 1 and the two evidence lists hold at least two items. *)
Definition buckets_credited (v : VSt) : Prop :=
  0 <= score (word_web v) /\ 0 <= score (word_desktop v)
  /\ 1 <= score (word_web v) + score (word_desktop v)
  /\ (2 <= List.length (ev (word_web v)) + List.length (ev (word_desktop v)))%nat.

(** The state of [onlyoffice_checks] against the caller's list: the list
    has only grown, the score is not negative, and it is 0 exactly as long
    as nothing was appended. *)
Definition grown_from (evidence : list string) (st : St) : Prop :=
  exists new,
    ev st = evidence ++ new
    /\ 0 <= score st
    /\ (new = [] -> score st == 0)
    /\ (new <> [] -> 1 <= score st).

(** A result of [onlyoffice_checks] against the caller's list. *)
Definition appended_to (evidence : list string) (r : Q * list string) : Prop :=
  exists new,
    snd r = evidence ++ new
    /\ 0 <= fst r <= 10
    /\ (new = [] <-> fst r == 0).

(** An evidence text stands for its test: where the text is in the
    evidence of a state, the test's condition held. *)
Definition means (text : string) (cond : bool) (st : St) : Prop :=
  In text (ev st) -> cond = true.

(** A state whose score has reached [bound] if [cond] held. *)
Definition at_least_when (cond : bool) (bound : Q) (st : St) : Prop :=
  0 <= score st /\ (cond = true -> bound <= score st).


(* ================================================================== *)
(** * The signal tests of the detectors, one row per test *)
(* ================================================================== *)

(** What a passing test does to the state of its detector. *)
Inductive Effect : Type :=
| Weigh (w : Q) (e : string)   (* score += w; ev.append(e) *)
| Mention (e : string)         (* ev.append(e) alone *)
| Add (w : Q).                 (* score += w alone *)

(** A signal test: its condition, which may read the running score, and
    its effect. *)
Record Test : Type := mkTest { passes : Q -> bool; effect : Effect }.

(** A test whose condition does not read the score, with a weight and an
    evidence text. *)
Definition weighs (cond : bool) (w : Q) (e : string) : Test :=
  mkTest (fun _ => cond) (Weigh w e).

(** The tests of a table that pass, in the order of the table, when the
    table is gone through with the running score [s]. *)
Fixpoint passing (tests : list Test) (s : Q) : list Effect :=
  match tests with
  | [] => []
  | t :: rest =>
      if passes t s
      then effect t :: passing rest (match effect t with
                                     | Weigh w _ | Add w => s + w
                                     | Mention _ => s
                                     end)
      else passing rest s
  end.

(** The evidence texts and the weights of a list of effects, in order. *)
Definition texts (effects : list Effect) : list string :=
  flat_map (fun eff => match eff with
                       | Weigh _ e | Mention e => [e]
                       | Add _ => []
                       end) effects.

Definition weights (effects : list Effect) : list Q :=
  flat_map (fun eff => match eff with
                       | Weigh w _ | Add w => [w]
                       | Mention _ => []
                       end) effects.

(** The sum of a list of weights, added one after the other in the order
    of the list, starting from the [0.0] of the source. *)
Definition sum_in_order (ws : list Q) : Q := fold_left Qplus ws 0.

(** A state accounts for a table of tests when its evidence list is the
    list of the texts of the passing tests, in test order, and its score
    is the sum of their weights, added in test order. *)
Definition accounts (tests : list Test) (st : St) : Prop :=
  ev st = texts (passing tests 0)
  /\ score st = sum_in_order (weights (passing tests 0)).

(** A test that adds a weight, which is not zero, together with one
    evidence text. *)
Definition weighted (t : Test) : Prop :=
  exists w e, effect t = Weigh w e /\ ~ w == 0.

(** ** LibreOffice: lines 44-99 *)

Definition lo_tests (parts : Parts) : list Test :=
  let font_txt := font_txt parts in
  let doc_txt := doc_txt parts in
  let styles_txt := styles_txt parts in
  let settings_txt := settings_txt parts in
  let ct_txt := content_types_txt parts in
  let custom_txt := custom_props_txt parts in
  let core_txt := core_txt parts in
  [ weighs (match app_xml parts with
            | Some root =>
                match first_application root with
                | Some elem => contains "libreoffice" (lower (text_or_empty elem))
                | None => false
                end
            | None => false
            end)
           6 "Application tag indicates LibreOffice";
    weighs (any_in ["Liberation"; "Noto"; "Lohit"] font_txt)
           3 "LibreOffice font families present (Liberation/Noto/Lohit)";
    mkTest (fun _ => negb (contains "<w:panose1" font_txt)
                     && negb (contains "<w:sig" font_txt) && nonempty font_txt)
           (Mention "No <w:panose1> or <w:sig> font fingerprints (often present in Word)");
    weighs (contains "<w:formProt" doc_txt)
           3 "Found <w:formProt> (LibreOffice hallmark)";
    weighs (nonempty styles_txt
            && match styles_xml parts with
               | Some styles_root =>
                   let names :=
                     map (fun s => lower (get_default (attrib s)
                                            ("{" ++ NAMESPACE_w ++ "}styleId")%string ""))
                         (findall_w_style styles_root) in
                   existsb (fun n => member n names)
                           ["text body"; "standard"; "heading"; "index"]
               | None => false
               end)
           3 "Found LibreOffice-style names (Text Body / Standard)";
    weighs (nonempty styles_txt
            && any_in ["Liberation Sans"; "Liberation Serif"; "Noto Sans"; "Lohit"]
                      styles_txt)
           3 "LibreOffice font families referenced in styles";
    weighs (contains "<w:autoHyphenation" settings_txt)
           0.5 "Contains <w:autoHyphenation> (possible LO default)";
    weighs (any_in ["image/png"; "image/jpeg"] ct_txt)
           1 "Lists extra image MIME types (often seen in LO)";
    weighs (contains "<vt:bool>0</vt:bool>" custom_txt
            || contains "<vt:bool>1</vt:bool>" custom_txt)
           0.2 "Boolean serialization uses numeric form (LibreOffice style)";
    weighs (contains "vt:lpwstr" custom_txt && contains "$Linux_" custom_txt)
           0.3 "AppVersion property includes LibreOffice/Linux signature";
    weighs (contains "schemas.openxmlformats.org/officeDocument/2006/bibliography" core_txt
            && negb (contains "schemas.microsoft.com/office" core_txt))
           0.4 "Open bibliography schema without Microsoft URIs (LO-style rewrite)" ].

(** ** Google Docs: lines 103-133 *)

(** The two weak patterns append their evidence where they are tested and
    get their weight at the end of the function, under the condition
    [(lower_hex or has_symex) and (fonts_hit or score >= 2.5)];
    [fonts_hit] is set by the two font tests.  The condition is read once
    in the source; it does not change when 0.5 has been added for the
    first pattern. *)
Definition gd_unlocked (parts : Parts) (score : Q) : bool :=
  (gd_lower_hex parts || gd_symex parts)
  && ((gd_play parts || gd_roboto parts) || ge score 2.5).

Definition gdocs_tests (parts : Parts) : list Test :=
  [ weighs (gd_bool_attr parts)
           2.0 "Boolean attributes serialized as w:val='1' (Google Docs pattern)";
    weighs (gd_decimal parts)
           1.5 "Decimal-style numeric attributes (e.g., w:w='0.0') found";
    mkTest (fun _ => gd_lower_hex parts)
           (Mention "Lowercase 6-digit hex color codes (weak Google Docs pattern)");
    mkTest (fun _ => gd_symex parts)
           (Mention "Contains w16se:symex namespace (weak marker; Word may include)");
    weighs (gd_play parts)
           3.0 "Contains Play / Play Bold fonts (Google bundle)";
    weighs (gd_roboto parts)
           1.5 "Contains Roboto/Noto font families (Google pattern)";
    mkTest (fun score => gd_unlocked parts score && gd_lower_hex parts) (Add 0.5);
    mkTest (fun score => gd_unlocked parts score && gd_symex parts) (Add 0.5) ].

(** ** Apple Pages: lines 137-157 *)

Definition pages_tests (parts : Parts) : list Test :=
  let theme_txt := theme_txt parts in
  let app_core_txt := (app_txt parts ++ core_txt parts)%string in
  [ weighs (contains "Helvetica Neue" theme_txt)
           4.5 "Contains Helvetica Neue (Apple Pages default font)";
    weighs (contains "<a:theme" theme_txt && contains "Office Theme" theme_txt
            && negb (contains "xmlns:thm15" theme_txt))
           1.5 "Missing thm15 theme namespace (Pages-style theme)";
    weighs (contains "<a:srgbClr" theme_txt && negb (contains "<a:sysClr" theme_txt))
           1.0 "Theme uses only <a:srgbClr> (no <a:sysClr>)";
    mkTest (fun score => (negb (contains "<a:objectDefaults>" theme_txt)
                          || negb (contains "<a:extLst>" theme_txt))
                         && ge score 1.5)
           (Weigh 0.5 "No <a:objectDefaults> or <a:extLst> (weak Pages indicator)");
    weighs (search re_apple_pages app_core_txt)
           3.5 "Explicit Apple/Pages marker in metadata" ].

(** ** Pandoc: lines 161-231 *)

Definition pandoc_tests (zf : ZipFile) (parts : Parts) : list Test :=
  let app_txt := app_txt parts in
  let core_txt := core_txt parts in
  let styles_txt := styles_txt parts in
  let theme_txt := theme_txt parts in
  let doc_txt := doc_txt parts in
  let font_txt := font_txt parts in
  let web_txt := read_text_from_zip zf "word/webSettings.xml" in
  [ weighs (search (lit_nocase "pandoc") (app_txt ++ core_txt)%string)
           8 "Application or core properties mention Pandoc";
    weighs (negb (any_in ["Application"; "AppVersion"; "Company"] app_txt)
            && nonempty (strip app_txt))
           1.5 "App properties minimal (likely programmatic generation)";
    weighs (search re_pandoc_styles styles_txt)
           2.5 "Contains 'SourceCode' / 'VerbatimChar' styles (Pandoc hallmark)";
    weighs (search re_token_styles styles_txt)
           2.0 "Contains Pygments token styles (Pandoc code highlighting)";
    weighs (negb (contains "xmlns:thm15" theme_txt) && contains "<a:srgbClr" theme_txt
            && negb (contains "<a:sysClr" theme_txt))
           1.5 "Theme lacks thm15 namespace, uses only sRGB colors (Pandoc minimal theme)";
    weighs (all_in ["Calibri"; "Cambria"] font_txt
            && negb (any_in ["Aptos"; "Liberation"; "Roboto"] font_txt))
           1.0 "Generic Calibri/Cambria font table (typical Pandoc default)";
    weighs (negb (contains "rsidR" doc_txt) && negb (contains "mc:Ignorable" doc_txt))
           1.0 "Document XML lacks Word-specific rsid and mc:Ignorable attributes";
    weighs (contains "<w:doNotSaveAsSingleFile" web_txt
            && negb (contains "optimizeForBrowser" web_txt))
           0.8 "Contains <w:doNotSaveAsSingleFile> without optimizeForBrowser (Pandoc default)";
    weighs (negb (contains "<w:latentStyles" styles_txt)
            && contains (dq "<w:styleId='Normal'") styles_txt)
           0.8 "Missing <w:latentStyles> (common in Pandoc-generated DOCX)";
    weighs (count doc_txt "<w:r>" <? 2 * count doc_txt "<w:p>")%nat
           0.8 "Low <w:r>/<w:p> ratio (flattened run structure typical of Pandoc)";
    weighs (contains "<w:pPr>" doc_txt
            && negb (any_in ["w:spacing"; "w:ind"; "w:contextualSpacing"] doc_txt))
           0.5 "Paragraph properties minimal (no spacing/indent attributes)";
    weighs (contains "Lucida" font_txt && negb (contains "Cambria Math" font_txt))
           0.5 "Math font substitution (Lucida instead of Cambria Math)";
    weighs (any_in ["4F81BD"; "C0504D"; "9BBB59"; "8064A2"; "4BACC6"; "F79646"] theme_txt)
           0.5 "Classic Office 2007 color palette (Pandoc default theme)";
    weighs (search re_empty_author core_txt)
           0.5 "Empty author/modified fields (metadata stripped by Pandoc)" ].

(** ** WordPad: lines 235-269 *)

Definition wordpad_tests (parts : Parts) : list Test :=
  let content_types := content_types_txt parts in
  let styles_txt := styles_txt parts in
  let doc_txt := doc_txt parts in
  [ weighs (negb (contains "/word/theme/theme1.xml" content_types)
            && negb (contains "/word/settings.xml" content_types)
            && negb (contains "/word/fontTable.xml" content_types))
           3 "Content_Types.xml lacks theme/settings/fontTable overrides (WordPad pattern)";
    weighs ((0 <? len_splitlines styles_txt)%nat && (len_splitlines styles_txt <? 10)%nat
            && contains (dq "<w:styleId='Normal'") styles_txt)
           3 "Tiny styles.xml with only 'Normal' style (WordPad hallmark)";
    weighs (contains "<w:document xmlns:w=" doc_txt
            && negb (contains "xmlns:r=" doc_txt)
            && negb (contains "xmlns:mc=" doc_txt))
           3 "Document XML uses only xmlns:w (minimal namespace set typical of WordPad)";
    weighs (negb (nonempty (app_txt parts)) && negb (nonempty (core_txt parts)))
           1 "No app/core properties (WordPad omits docProps entirely)" ].

(** ** TextEdit: lines 274-334 *)

Definition textedit_tests (parts : Parts) : list Test :=
  let content_types := content_types_txt parts in
  let app_txt := app_txt parts in
  let core_txt := core_txt parts in
  let doc_txt := doc_txt parts in
  let theme_txt := theme_txt parts in
  [ weighs (contains "/word/theme/theme1.xml" content_types
            && negb (contains "/word/styles.xml" content_types)
            && negb (contains "/word/settings.xml" content_types)
            && negb (contains "/word/fontTable.xml" content_types)
            && negb (contains "/word/numbering.xml" content_types))
           3 "Has theme but lacks styles/settings/fontTable/numbering (TextEdit pattern)";
    weighs (startswith (strip app_txt) "<Properties"
            && negb (contains "<Application>" app_txt))
           3 "app.xml is empty <Properties> with no <Application> tag (TextEdit hallmark)";
    weighs (contains "<cp:coreProperties" core_txt
            && (count core_txt "<dc:" =? 1)%nat
            && negb (contains "<lastModifiedBy>" core_txt)
            && negb (contains "<revision>" core_txt))
           2 "core.xml uses cp: prefix and only dc:creator (TextEdit serialization)";
    weighs (contains "xmlns:w=" doc_txt
            && forallb (fun x => negb (contains x doc_txt))
                       ["xmlns:mc="; "xmlns:w14="; "xmlns:w15="; "xmlns:w16="]
            && contains (dq "<w:rFonts w:ascii='Times'") doc_txt)
           2 "document.xml limited to base namespaces and hardcoded Times font";
    weighs (contains (dq "name='Default Theme'") theme_txt)
           1 "Theme1.xml uses name='Default Theme' (TextEdit theme rewrite)";
    weighs (negb (contains "/docProps/custom.xml" content_types)
            && negb (contains "/customXml/" content_types)
            && negb (contains "<Template>" app_txt))
           1 "No customXml or extended properties (TextEdit metadata purge)" ].

(** ** Microsoft Word: lines 339-394 *)

(** The condition of the ordering test: the manifest parses, lists
    [/word/document.xml], and its last [/docProps/] override comes before
    its first [/word/] override. *)
Definition order_test (fromstring : string -> option Element) (parts : Parts) : bool :=
  match fromstring (content_types_txt parts) with
  | None => false
  | Some root =>
      let overrides :=
        map (fun elem => get_default (attrib elem) "PartName" "")
            (filter (fun elem => endswith (tag elem) "Override") (children root)) in
      member "/word/document.xml" overrides
      && match next_index (fun p => startswith p "/word/") overrides with
         | Some wf =>
             let docprops_last :=
               max_index (fun p => startswith p "/docProps/") overrides (-1) in
             (0 <=? docprops_last)%Z && (docprops_last <? wf)%Z
         | None => false
         end
  end.

Definition word_tests (fromstring : string -> option Element) (parts : Parts)
           (lo_score gd_score pg_score : Q) : list Test :=
  let theme_txt := theme_txt parts in
  let font_txt := font_txt parts in
  let styles_txt := styles_txt parts in
  [ weighs (match app_xml parts with
            | Some root =>
                match first_application root with
                | Some elem => contains "word" (lower (text_or_empty elem))
                | None => false
                end
            | None => false
            end)
           4.0 "Application tag indicates Microsoft Word";
    weighs (contains "xmlns:thm15" theme_txt)
           1.5 "Theme includes thm15 namespace (common in Word)";
    weighs (contains "<a:sysClr" theme_txt)
           1.0 "Theme uses <a:sysClr> (Windows system color mapping)";
    weighs (contains "<w:panose1" font_txt || contains "<w:sig" font_txt)
           1.0 "Font table includes <w:panose1> / <w:sig> fingerprints (Word)";
    weighs (search re_headings styles_txt)
           0.8 "Heading1–3 style cascade present (Word defaults)";
    weighs (lt lo_score 4 && lt gd_score 4 && lt pg_score 4)
           1.2 "No strong non-Word indicators (boosting Word confidence)";
    weighs (order_test fromstring parts)
           (- 0.3)
           ("Override order in [Content_Types].xml shows docProps before /word/document.xml "
            ++ "(python-docx generation pattern; small deduction)")%string ].

(** ** Going through a table *)

(** One test on a state, and a table from its first test to its last. *)
Definition apply_test (t : Test) (st : St) : St :=
  if passes t (score st)
  then match effect t with
       | Weigh w e => hit w e st
       | Mention e => note e st
       | Add w => bump w st
       end
  else st.

Definition run_tests (tests : list Test) (st : St) : St :=
  fold_left (fun st t => apply_test t st) tests st.

(** [result] is the state that the tests leave when they start from [s]. *)
Definition follows (tests : list Test) (s result : St) : Prop :=
  result = run_tests tests s.

(** The result of a detector reports a table of tests when the evidence
    list it returns is the list of the texts of the passing tests, in test
    order, and the score it returns is the sum of their weights, added in
    test order and cut at [10.0]. *)
Definition reports (tests : list Test) (r : Q * list string) : Prop :=
  snd r = texts (passing tests 0)
  /\ fst r = py_min (sum_in_order (weights (passing tests 0))) 10.0.

(** A detector all of whose tests are weighted: every passing test adds
    its weight and appends its one evidence item, so the result has as
    many evidence items as tests passed. *)
Definition reports_weighted (tests : list Test) (r : Q * list string) : Prop :=
  reports tests r
  /\ Forall weighted tests
  /\ List.length (snd r) = List.length (passing tests 0).
(* ================================================================== *)
(** * Properties *)
(* ================================================================== *)

(** ** The text operations and the pattern matcher on small inputs *)

Example contains_ex : contains "<w:sig" "<w:font><w:sig w:usb0='1'/></w:font>" = true.
Proof. reflexivity. Qed.

Example contains_empty_ex : contains "" "" = true /\ contains "a" "" = false.
Proof. split; reflexivity. Qed.

Example count_ex : count "<w:p><w:r><w:r></w:p><w:p>" "<w:p>" = 2%nat.
Proof. reflexivity. Qed.

Example strip_ex : strip "  <Properties/> " = "<Properties/>".
Proof. reflexivity. Qed.

Example splitlines_ex :
  map len_splitlines
      [""; "a"; "a" ++ LF; "a" ++ CR ++ LF ++ "b"; LF ++ LF; CR ++ "b"]%string
  = [0; 1; 1; 2; 2; 2]%nat.
Proof. reflexivity. Qed.

Example str_int_ex : str (int "01134") = "1134" /\ str 0 = "0".
Proof. split; reflexivity. Qed.

Example re_decimal_ex :
  let r := seq [lit (dq "w:w='"); Plus isdecimal; lit "."; Plus isdecimal; lit (dq "'")] in
  search r (dq "<w:tblW w:w='0.0'/>") = true /\ search r (dq "<w:tblW w:w='50'/>") = false.
Proof. split; reflexivity. Qed.


(** ** Order on scores *)

Lemma Qltb_true (x y : Q) : Qltb x y = true <-> x < y.
Proof.
  unfold Qltb. rewrite Qlt_alt.
  destruct (x ?= y); split; intro H; try reflexivity; discriminate.
Qed.

Lemma Qltb_false (x y : Q) : Qltb x y = false <-> y <= x.
Proof.
  split; intro H.
  - apply Qnot_lt_le. intro L. apply Qltb_true in L. congruence.
  - destruct (Qltb x y) eqn:E; [|reflexivity].
    apply Qltb_true in E. exfalso. apply (Qlt_not_le _ _ E H).
Qed.

Lemma ge_true (x y : Q) : ge x y = true <-> y <= x.
Proof. unfold ge. apply Qle_bool_iff. Qed.

Lemma ge_false (x y : Q) : ge x y = false <-> x < y.
Proof.
  unfold ge. split; intro H.
  - apply Qnot_le_lt. intro L. apply Qle_bool_iff in L. congruence.
  - destruct (Qle_bool y x) eqn:E; [|reflexivity].
    apply Qle_bool_iff in E. exfalso. apply (Qlt_not_le _ _ H E).
Qed.

Lemma lt_true (x y : Q) : lt x y = true <-> x < y.
Proof. apply Qltb_true. Qed.

Lemma lt_false (x y : Q) : lt x y = false <-> y <= x.
Proof. apply Qltb_false. Qed.

#[global] Instance Qltb_proper : Proper (Qeq ==> Qeq ==> eq) Qltb.
Proof. intros x x' Hx y y' Hy. unfold Qltb. now rewrite Hx, Hy. Qed.

#[global] Instance ge_proper : Proper (Qeq ==> Qeq ==> eq) ge.
Proof. intros x x' Hx y y' Hy. unfold ge. now rewrite Hx, Hy. Qed.

#[global] Instance lt_proper : Proper (Qeq ==> Qeq ==> eq) lt.
Proof. intros x x' Hx y y' Hy. unfold lt. now rewrite Hx, Hy. Qed.

(** Turns the boolean tests on scores in the context into inequalities. *)
Ltac order_hyps :=
  repeat match goal with
    | H : Qltb _ _ = true |- _ => apply Qltb_true in H
    | H : Qltb _ _ = false |- _ => apply Qltb_false in H
    | H : ge _ _ = true |- _ => apply ge_true in H
    | H : ge _ _ = false |- _ => apply ge_false in H
    | H : lt _ _ = true |- _ => apply lt_true in H
    | H : lt _ _ = false |- _ => apply lt_false in H
    end.

Lemma py_min_le_r (a b : Q) : py_min a b <= b.
Proof.
  unfold py_min. destruct (Qltb b a) eqn:E; order_hyps; lra.
Qed.

Lemma py_min_le_l (a b : Q) : py_min a b <= a.
Proof.
  unfold py_min. destruct (Qltb b a) eqn:E; order_hyps; lra.
Qed.

Lemma py_min_ge (a b c : Q) : c <= a -> c <= b -> c <= py_min a b.
Proof.
  unfold py_min. destruct (Qltb b a); auto.
Qed.


(** ** The verdict reducer *)

(** [max_item] returns the first of the items with the largest value:
    the items before it are strictly smaller, the items after it are not
    larger. *)
Lemma max_item_first_largest (d : Scores) :
  forall best, exists pre post,
    best :: d = pre ++ max_item best d :: post
    /\ Forall (fun kv => snd kv < snd (max_item best d)) pre
    /\ Forall (fun kv => snd kv <= snd (max_item best d)) post.
Proof.
  induction d as [|kv d IH]; intro best; simpl.
  - exists [], []. repeat split; constructor.
  - destruct (Qltb (snd best) (snd kv)) eqn:E; order_hyps.
    + destruct (IH kv) as (pre & post & Heq & Hpre & Hpost).
      exists (best :: pre), post. repeat split; trivial.
      * simpl. congruence.
      * constructor; trivial.
        destruct pre as [|p pre]; simpl in Heq; injection Heq as Hk Hd.
        -- rewrite <- Hk. exact E.
        -- subst p. inversion Hpre; subst. lra.
    + destruct (IH best) as (pre & post & Heq & Hpre & Hpost).
      destruct pre as [|p pre]; simpl in Heq; injection Heq as Hk Hd.
      * exists [], (kv :: post). repeat split.
        -- simpl. congruence.
        -- constructor.
        -- constructor; trivial. now rewrite <- Hk.
      * subst p. exists (best :: kv :: pre), post. repeat split; trivial.
        -- simpl. congruence.
        -- inversion Hpre; subst. repeat constructor; trivial. lra.
Qed.

Lemma max_item_in (d : Scores) (best : string * Q) : In (max_item best d) (best :: d).
Proof.
  destruct (max_item_first_largest d best) as (pre & post & Heq & _).
  rewrite Heq. apply in_or_app. right. now left.
Qed.

Lemma max_item_largest (d : Scores) (best kv : string * Q) :
  In kv (best :: d) -> snd kv <= snd (max_item best d).
Proof.
  destruct (max_item_first_largest d best) as (pre & post & Heq & Hpre & Hpost).
  rewrite Heq. intro Hin. apply in_app_or in Hin as [Hin|[Hin|Hin]].
  - rewrite Forall_forall in Hpre. apply Qlt_le_weak. now apply Hpre.
  - subst kv. apply Qle_refl.
  - rewrite Forall_forall in Hpost. now apply Hpost.
Qed.

(** The entries of the non-Word dictionary, as [choose_verdict] sees them. *)
Lemma non_word_of_scoreboard (wd lo gd pg pd wp te : Q) :
  non_word_of (scoreboard wd lo gd pg pd wp te)
  = [("libreoffice", lo); ("google_docs", gd); ("apple_pages", pg);
     ("pandoc", pd); ("wordpad", wp); ("textedit", te)].
Proof. reflexivity. Qed.

(** The six shapes of the top entry. *)
Lemma top_entry_cases (lo gd pg pd wp te : Q) :
  let r := max_item ("libreoffice", lo)
                    [("google_docs", gd); ("apple_pages", pg); ("pandoc", pd);
                     ("wordpad", wp); ("textedit", te)] in
  r = ("libreoffice", lo) \/ r = ("google_docs", gd) \/ r = ("apple_pages", pg)
  \/ r = ("pandoc", pd) \/ r = ("wordpad", wp) \/ r = ("textedit", te).
Proof.
  intro r. pose proof (max_item_in _ _ : In r _) as Hin.
  simpl in Hin. intuition auto.
Qed.

(** [choose_verdict] on a ScoreBoard, after its three dictionary accesses. *)
Lemma choose_verdict_top (wd lo gd pg pd wp te : Q) :
  let r := max_item ("libreoffice", lo)
                    [("google_docs", gd); ("apple_pages", pg); ("pandoc", pd);
                     ("wordpad", wp); ("textedit", te)] in
  max_key (non_word_of (scoreboard wd lo gd pg pd wp te)) = Ok (fst r)
  /\ getitem (non_word_of (scoreboard wd lo gd pg pd wp te)) (fst r) = Ok (snd r)
  /\ choose_verdict (scoreboard wd lo gd pg pd wp te)
     = (if ge (snd r) 7 then
          do l <- label (fst r); Ok ("Definitely " ++ l ++ " export")%string
        else if ge (snd r) 5 then
          do l <- label (fst r); Ok ("Likely " ++ l ++ " export or mixed")%string
        else if ge wd 7 && lt (snd r) 4 then Ok "Pure Microsoft Word"
        else if ge wd 5 && lt (snd r) 5 then
          Ok "Probably Microsoft Word (minor artifacts present)"
        else Ok "Inconclusive / mixed").
Proof.
  intro r. split; [reflexivity|].
  unfold choose_verdict. rewrite non_word_of_scoreboard.
  change (max_key _) with (Ok (fst r)). unfold bind at 1.
  destruct (top_entry_cases lo gd pg pd wp te) as [H|[H|[H|[H|[H|H]]]]];
    fold r in H; rewrite H; split; reflexivity.
Qed.


(** The reducer returns a label on every ScoreBoard. *)
Lemma choose_verdict_total (wd lo gd pg pd wp te : Q) :
  exists verdict, choose_verdict (scoreboard wd lo gd pg pd wp te) = Ok verdict.
Proof.
  destruct (choose_verdict_top wd lo gd pg pd wp te) as (_ & _ & Hv).
  set (r := max_item _ _) in *. rewrite Hv.
  assert (Hlbl : exists lbl, label (fst r) = Ok lbl).
  { destruct (top_entry_cases lo gd pg pd wp te) as [H|[H|[H|[H|[H|H]]]]];
      fold r in H; rewrite H; eexists; reflexivity. }
  destruct Hlbl as (lbl & ->). unfold bind.
  destruct (ge (snd r) 7); destruct (ge (snd r) 5);
    destruct (ge wd 7 && lt (snd r) 4); destruct (ge wd 5 && lt (snd r) 5);
    eexists; reflexivity.
Qed.

(** The top entry of a ScoreBoard is the first of its non-Word entries
    with the highest score: no entry is higher, and the entries listed
    before it are strictly lower. *)
Lemma top_is_first_largest (lo gd pg pd wp te : Q) :
  let entries := [("libreoffice", lo); ("google_docs", gd); ("apple_pages", pg);
                  ("pandoc", pd); ("wordpad", wp); ("textedit", te)] in
  let r := max_item ("libreoffice", lo)
                    [("google_docs", gd); ("apple_pages", pg); ("pandoc", pd);
                     ("wordpad", wp); ("textedit", te)] in
  exists i,
    nth_error entries i = Some r
    /\ (forall kv, In kv entries -> snd kv <= snd r)
    /\ (forall j kv, (j < i)%nat -> nth_error entries j = Some kv -> snd kv < snd r).
Proof.
  intros entries r.
  destruct (max_item_first_largest
              [("google_docs", gd); ("apple_pages", pg); ("pandoc", pd);
               ("wordpad", wp); ("textedit", te)] ("libreoffice", lo))
    as (pre & post & Heq & Hpre & Hpost).
  fold r in Heq, Hpre, Hpost. fold entries in Heq.
  exists (List.length pre). rewrite Heq. split; [|split].
  - rewrite nth_error_app2 by lia. now rewrite Nat.sub_diag.
  - intros kv Hin. rewrite <- Heq in Hin. apply max_item_largest. exact Hin.
  - intros j kv Hj Hnth. rewrite nth_error_app1 in Hnth by exact Hj.
    apply nth_error_In in Hnth. rewrite Forall_forall in Hpre. now apply Hpre.
Qed.

(** The first of the six non-Word scores that no other exceeds is the
    score of the top entry, under the key at the same place. *)
Lemma first_largest_is_top (lo gd pg pd wp te : Q) (i : nat) (topVal : Q) :
  nth_error [lo; gd; pg; pd; wp; te] i = Some topVal ->
  (forall v, In v [lo; gd; pg; pd; wp; te] -> v <= topVal) ->
  (forall j v, (j < i)%nat -> nth_error [lo; gd; pg; pd; wp; te] j = Some v -> v < topVal) ->
  exists key lbl,
    nth_error ["libreoffice"; "google_docs"; "apple_pages"; "pandoc"; "wordpad";
               "textedit"] i = Some key
    /\ nth_error ["LibreOffice"; "Google Docs"; "Apple Pages"; "Pandoc / programmatic";
                  "WordPad"; "TextEdit"] i = Some lbl
    /\ max_item ("libreoffice", lo)
                [("google_docs", gd); ("apple_pages", pg); ("pandoc", pd);
                 ("wordpad", wp); ("textedit", te)] = (key, topVal)
    /\ label key = Ok lbl.
Proof.
  intros Hi Hall Hfirst.
  pose proof (Hall lo (or_introl eq_refl)) as Hlo.
  pose proof (Hall gd (or_intror (or_introl eq_refl))) as Hgd.
  pose proof (Hall pg (or_intror (or_intror (or_introl eq_refl)))) as Hpg.
  pose proof (Hall pd (or_intror (or_intror (or_intror (or_introl eq_refl))))) as Hpd.
  pose proof (Hall wp (or_intror (or_intror (or_intror (or_intror (or_introl eq_refl))))))
    as Hwp.
  pose proof (Hall te (or_intror (or_intror (or_intror (or_intror
                         (or_intror (or_introl eq_refl))))))) as Hte.
  clear Hall.
  do 6 (destruct i as [|i];
        [ injection Hi as <-;
          try pose proof (Hfirst 0%nat lo ltac:(lia) eq_refl) as Flo;
          try pose proof (Hfirst 1%nat gd ltac:(lia) eq_refl) as Fgd;
          try pose proof (Hfirst 2%nat pg ltac:(lia) eq_refl) as Fpg;
          try pose proof (Hfirst 3%nat pd ltac:(lia) eq_refl) as Fpd;
          try pose proof (Hfirst 4%nat wp ltac:(lia) eq_refl) as Fwp;
          clear Hfirst;
          eexists; eexists; split; [reflexivity|]; split; [reflexivity|];
          split; [|reflexivity];
          cbn [max_item snd];
          repeat match goal with
            | |- context [Qltb ?x ?y] =>
                is_var x; is_var y;
                let E := fresh "E" in destruct (Qltb x y) eqn:E; cbn [snd]
            end;
          order_hyps; first [reflexivity | exfalso; lra]
        | ]).
  destruct i; discriminate Hi.
Qed.

(** C4: on every ScoreBoard the reducer follows the five-step cascade with
    inclusive thresholds.  The six non-Word scores are taken in the order
    libreoffice, google_docs, apple_pages, pandoc, wordpad, textedit;
    [topVal] is the highest of them and [lbl] the label of the first
    origin that has it.  [topVal >= 7] gives "Definitely <lbl> export"
    whatever Word's score is, else [topVal >= 5] gives "Likely <lbl> export
    or mixed", else [Word >= 7] and [topVal < 4] give "Pure Microsoft
    Word", else [Word >= 5] and [topVal < 5] give "Probably Microsoft Word
    (minor artifacts present)", else the verdict is "Inconclusive /
    mixed". *)
Theorem choose_verdict_cascade (wd lo gd pg pd wp te : Q) :
  let scores := scoreboard wd lo gd pg pd wp te in
  let non_word := [lo; gd; pg; pd; wp; te] in
  let labels := ["LibreOffice"; "Google Docs"; "Apple Pages"; "Pandoc / programmatic";
                 "WordPad"; "TextEdit"] in
  exists i topVal lbl,
    nth_error non_word i = Some topVal
    /\ nth_error labels i = Some lbl
    /\ (forall v, In v non_word -> v <= topVal)
    /\ (forall j v, (j < i)%nat -> nth_error non_word j = Some v -> v < topVal)
    /\ (7 <= topVal ->
        choose_verdict scores = Ok ("Definitely " ++ lbl ++ " export")%string)
    /\ (5 <= topVal -> topVal < 7 ->
        choose_verdict scores = Ok ("Likely " ++ lbl ++ " export or mixed")%string)
    /\ (topVal < 4 -> 7 <= wd ->
        choose_verdict scores = Ok "Pure Microsoft Word")
    /\ (topVal < 5 -> 5 <= wd -> ~ (topVal < 4 /\ 7 <= wd) ->
        choose_verdict scores = Ok "Probably Microsoft Word (minor artifacts present)")
    /\ (topVal < 5 -> wd < 5 ->
        choose_verdict scores = Ok "Inconclusive / mixed").
Proof.
  intros scores non_word labels.
  pose proof (choose_verdict_top wd lo gd pg pd wp te) as Htop. cbv zeta in Htop.
  destruct Htop as (_ & _ & Hverdict).
  destruct (top_is_first_largest lo gd pg pd wp te) as (i & Hnth & Hall & Hfirst).
  set (r := max_item _ _) in *.
  assert (Hvals : forall j, nth_error non_word j
                            = option_map snd
                                (nth_error [("libreoffice", lo); ("google_docs", gd);
                                            ("apple_pages", pg); ("pandoc", pd);
                                            ("wordpad", wp); ("textedit", te)] j)).
  { intro j. do 6 (destruct j as [|j]; [reflexivity|]). now destruct j. }
  assert (Hlbl : exists lbl, nth_error labels i = Some lbl /\ label (fst r) = Ok lbl).
  { do 6 (destruct i as [|i];
          [injection Hnth as <-; eexists; split; reflexivity|]).
    destruct i; discriminate Hnth. }
  destruct Hlbl as (lbl & Hlabel & Hlbl).
  exists i, (snd r), lbl.
  split; [rewrite Hvals, Hnth; reflexivity|].
  split; [exact Hlabel|].
  split.
  { intros v Hin.
    assert (Hex : exists kv, In kv [("libreoffice", lo); ("google_docs", gd);
                                    ("apple_pages", pg); ("pandoc", pd);
                                    ("wordpad", wp); ("textedit", te)] /\ snd kv = v).
    { change non_word with (map snd [("libreoffice", lo); ("google_docs", gd);
                                     ("apple_pages", pg); ("pandoc", pd);
                                     ("wordpad", wp); ("textedit", te)]) in Hin.
      apply in_map_iff in Hin as (kv & Hkv & Hin). exists kv. split; assumption. }
    destruct Hex as (kv & Hin' & <-). now apply Hall. }
  split.
  { intros j v Hj Hv. rewrite Hvals in Hv.
    destruct (nth_error _ j) as [kv|] eqn:Ej; [|discriminate Hv].
    injection Hv as <-. now apply (Hfirst j). }
  subst scores. rewrite Hverdict, Hlbl. unfold bind.
  repeat split.
  - intro H7. now rewrite (proj2 (ge_true _ _) H7).
  - intros H5 H7.
    now rewrite (proj2 (ge_false _ _) H7), (proj2 (ge_true _ _) H5).
  - intros H4 W7.
    assert (H7 : snd r < 7) by lra. assert (H5 : snd r < 5) by lra.
    now rewrite (proj2 (ge_false _ _) H7), (proj2 (ge_false _ _) H5),
      (proj2 (ge_true _ _) W7), (proj2 (lt_true _ _) H4).
  - intros H5 W5 Hnot.
    assert (H7 : snd r < 7) by lra.
    rewrite (proj2 (ge_false _ _) H7), (proj2 (ge_false _ _) H5),
      (proj2 (ge_true _ _) W5), (proj2 (lt_true _ _) H5).
    destruct (ge wd 7) eqn:W7; destruct (lt (snd r) 4) eqn:L4; try reflexivity.
    order_hyps. exfalso. apply Hnot. now split.
  - intros H5 W5.
    assert (H7 : snd r < 7) by lra. assert (W7 : wd < 7) by lra.
    now rewrite (proj2 (ge_false _ _) H7), (proj2 (ge_false _ _) H5),
      (proj2 (ge_false _ _) W7), (proj2 (ge_false _ _) W5).
Qed.

(** The boundary scenarios of the cascade. *)
Example verdict_top_exactly_seven :
  choose_verdict (scoreboard 3.0 0 7.0 0 0 0 0) = Ok "Definitely Google Docs export".
Proof. reflexivity. Qed.

Example verdict_all_zero :
  choose_verdict (scoreboard 0 0 0 0 0 0 0) = Ok "Inconclusive / mixed".
Proof. reflexivity. Qed.

Example verdict_just_below_seven :
  choose_verdict (scoreboard 3.0 0 0 0 6.99 0 0)
  = Ok "Likely Pandoc / programmatic export or mixed".
Proof. reflexivity. Qed.

Lemma choose_verdict_cascade_witness :
  choose_verdict (scoreboard 3.0 0 0 0 7.0 0 0)
  = Ok "Definitely Pandoc / programmatic export"
  /\ choose_verdict (scoreboard 0 0 0 0 0 0 0) = Ok "Inconclusive / mixed".
Proof.
  split.
  - destruct (choose_verdict_cascade 3.0 0 0 0 7.0 0 0)
      as (i & topVal & lbl & Hval & Hlbl & Hall & Hfirst & H7 & _).
    assert (Hi : i = 3%nat).
    { pose proof (Hall 7.0 (or_intror (or_intror (or_intror (or_introl eq_refl))))) as Hpd.
      destruct i as [|[|[|[|[|[|i]]]]]];
        [ | | | reflexivity | | | destruct i; discriminate Hval ];
        exfalso; injection Hval as <-; vm_compute in Hpd; now apply Hpd. }
    subst i. injection Hval as <-. injection Hlbl as <-.
    apply H7. vm_compute. discriminate.
  - destruct (choose_verdict_cascade 0 0 0 0 0 0 0)
      as (i & topVal & lbl & Hval & _ & _ & _ & _ & _ & _ & _ & H0).
    assert (Ht : topVal = 0).
    { destruct i as [|[|[|[|[|[|i]]]]]];
        [injection Hval as <-; reflexivity .. | destruct i; discriminate Hval]. }
    subst topVal. apply H0; vm_compute; reflexivity.
Defined.

(** C10: when several non-Word origins share the highest score, the
    reducer's top origin is the one listed first in the ScoreBoard's order
    libreoffice, google_docs, apple_pages, pandoc, wordpad, textedit.
    Let the origin at place [i] have a score that no non-Word origin
    exceeds and that every origin listed before it stays strictly below;
    origins listed after it may have the same score.  Then [max] selects
    its key, and a verdict that names an origin names this one: its label
    stands in "Definitely ... export" from 7 on and in "Likely ... export
    or mixed" from 5 on. *)
Theorem tie_break_earliest (wd lo gd pg pd wp te : Q) (i : nat) (topVal : Q)
        (key lbl : string) :
  let scores := scoreboard wd lo gd pg pd wp te in
  let non_word := [lo; gd; pg; pd; wp; te] in
  nth_error non_word i = Some topVal ->
  nth_error ["libreoffice"; "google_docs"; "apple_pages"; "pandoc"; "wordpad";
             "textedit"] i = Some key ->
  nth_error ["LibreOffice"; "Google Docs"; "Apple Pages"; "Pandoc / programmatic";
             "WordPad"; "TextEdit"] i = Some lbl ->
  (forall v, In v non_word -> v <= topVal) ->
  (forall j v, (j < i)%nat -> nth_error non_word j = Some v -> v < topVal) ->
  max_key (non_word_of scores) = Ok key
  /\ (7 <= topVal ->
      choose_verdict scores = Ok ("Definitely " ++ lbl ++ " export")%string)
  /\ (5 <= topVal -> topVal < 7 ->
      choose_verdict scores = Ok ("Likely " ++ lbl ++ " export or mixed")%string).
Proof.
  intros scores non_word Hval Hkey Hlabel Hall Hfirst.
  destruct (first_largest_is_top lo gd pg pd wp te i topVal Hval Hall Hfirst)
    as (key' & lbl' & Hkey' & Hlabel' & Hmax & Hlbl).
  assert (key' = key) by congruence. assert (lbl' = lbl) by congruence. subst key' lbl'.
  pose proof (choose_verdict_top wd lo gd pg pd wp te) as Htop. cbv zeta in Htop.
  rewrite Hmax in Htop. cbn [fst snd] in Htop.
  destruct Htop as (Hk & _ & Hverdict).
  subst scores. split; [exact Hk|].
  rewrite Hverdict, Hlbl. unfold bind. split.
  - intro H7. now rewrite (proj2 (ge_true _ _) H7).
  - intros H5 H7.
    now rewrite (proj2 (ge_false _ _) H7), (proj2 (ge_true _ _) H5).
Qed.

(** A tie at 8 between LibreOffice and TextEdit goes to LibreOffice; a
    tie at 6 between Pandoc and WordPad goes to Pandoc. *)
Lemma tie_break_earliest_witness :
  choose_verdict (scoreboard 0 8 0 0 0 0 8) = Ok "Definitely LibreOffice export"
  /\ choose_verdict (scoreboard 0 0 0 0 6 6 0)
     = Ok "Likely Pandoc / programmatic export or mixed".
Proof.
  split.
  - apply (tie_break_earliest 0 8 0 0 0 0 8 0%nat 8 "libreoffice" "LibreOffice");
      try reflexivity.
    + intros v Hin. simpl in Hin.
      repeat (destruct Hin as [<-|Hin]; [vm_compute; discriminate|]). contradiction.
    + intros j v Hj. lia.
    + vm_compute. discriminate.
  - apply (tie_break_earliest 0 0 0 0 6 6 0 3%nat 6 "pandoc" "Pandoc / programmatic");
      try reflexivity.
    + intros v Hin. simpl in Hin.
      repeat (destruct Hin as [<-|Hin]; [vm_compute; discriminate|]). contradiction.
    + intros j v Hj Hv.
      destruct j as [|[|[|j]]]; [injection Hv as <-; reflexivity ..|lia].
    + vm_compute. discriminate.
Defined.

(** [max_item] reads the values through the order only. *)
Lemma max_item_same (d d' : Scores) :
  Forall2 (fun a b => fst a = fst b /\ snd a == snd b) d d' ->
  forall best best',
    fst best = fst best' -> snd best == snd best' ->
    fst (max_item best d) = fst (max_item best' d')
    /\ snd (max_item best d) == snd (max_item best' d').
Proof.
  induction 1 as [|a b d d' [Hk Hv] _ IH]; intros best best' Hbk Hbv; simpl.
  - now split.
  - rewrite (Qltb_proper _ _ Hbv _ _ Hv).
    destruct (Qltb (snd best') (snd b)); now apply IH.
Qed.

(** C8: the reducer is a total function of the ScoreBoard: on two
    ScoreBoards that give every origin the same score it returns the same
    label, and it returns a label on every ScoreBoard. *)
Theorem verdict_is_a_function (wd lo gd pg pd wp te wd' lo' gd' pg' pd' wp' te' : Q) :
  same_mapping (scoreboard wd lo gd pg pd wp te)
               (scoreboard wd' lo' gd' pg' pd' wp' te') ->
  choose_verdict (scoreboard wd lo gd pg pd wp te)
  = choose_verdict (scoreboard wd' lo' gd' pg' pd' wp' te')
  /\ exists verdict, choose_verdict (scoreboard wd lo gd pg pd wp te) = Ok verdict.
Proof.
  intro Hsame.
  pose proof (Hsame "word") as Hwd. pose proof (Hsame "libreoffice") as Hlo.
  pose proof (Hsame "google_docs") as Hgd. pose proof (Hsame "apple_pages") as Hpg.
  pose proof (Hsame "pandoc") as Hpd. pose proof (Hsame "wordpad") as Hwp.
  pose proof (Hsame "textedit") as Hte. simpl in Hwd, Hlo, Hgd, Hpg, Hpd, Hwp, Hte.
  destruct (choose_verdict_top wd lo gd pg pd wp te) as (_ & _ & Hv).
  destruct (choose_verdict_top wd' lo' gd' pg' pd' wp' te') as (_ & _ & Hv').
  assert (Hrest : Forall2 (fun a b : string * Q => fst a = fst b /\ snd a == snd b)
            [("google_docs", gd); ("apple_pages", pg); ("pandoc", pd);
             ("wordpad", wp); ("textedit", te)]
            [("google_docs", gd'); ("apple_pages", pg'); ("pandoc", pd');
             ("wordpad", wp'); ("textedit", te')]).
  { repeat (constructor; [split; [reflexivity|assumption]|]). constructor. }
  destruct (max_item_same _ _ Hrest ("libreoffice", lo) ("libreoffice", lo')
                          eq_refl Hlo) as (Hfst & Hsnd).
  set (r := max_item ("libreoffice", lo) _) in *.
  set (r' := max_item ("libreoffice", lo') _) in *.
  split.
  - rewrite Hv, Hv', Hfst.
    rewrite (ge_proper _ _ Hsnd 7 7 (Qeq_refl 7)).
    rewrite (ge_proper _ _ Hsnd 5 5 (Qeq_refl 5)).
    rewrite (ge_proper _ _ Hwd 7 7 (Qeq_refl 7)).
    rewrite (ge_proper _ _ Hwd 5 5 (Qeq_refl 5)).
    rewrite (lt_proper _ _ Hsnd 4 4 (Qeq_refl 4)).
    rewrite (lt_proper _ _ Hsnd 5 5 (Qeq_refl 5)).
    reflexivity.
  - apply choose_verdict_total.
Qed.

Lemma verdict_is_a_function_witness :
  choose_verdict (scoreboard 7.0 1 2 3 0.5 0 0)
  = choose_verdict (scoreboard (14 # 2) (2 # 2) 2 3 (1 # 2) 0 0)
  /\ exists verdict, choose_verdict (scoreboard 7.0 1 2 3 0.5 0 0) = Ok verdict.
Proof.
  apply verdict_is_a_function.
  intro key. unfold scoreboard. cbn [getitem].
  repeat match goal with
         | |- context [String.eqb ?a key] => destruct (String.eqb a key)
         end; vm_compute; first [reflexivity | exact I].
Defined.


(** ** Walking through a detector *)

(** A detector body is a chain of [let]s.  A property of the state is
    carried from one binding to the next; the bindings of other values
    (texts, flags) are crossed without looking at them. *)
Lemma let_state (P : St -> Prop) (e : St) (b : St -> St) :
  P e -> (forall st, P st -> P (b st)) -> P (let st := e in b st).
Proof. intros He Hb. exact (Hb e He). Qed.

Lemma let_value {A : Type} (P : St -> Prop) (e : A) (b : A -> St) :
  (forall x, P (b x)) -> P (let x := e in b x).
Proof. intro Hb. exact (Hb e). Qed.

(** [walk P step] proves [P body]: [step] proves [P] of one binding from
    [P] of the state before it. *)
Ltac walk P step :=
  lazymatch goal with
  | |- P (let x := ?e in @?b x) =>
      lazymatch type of e with
      | St =>
          refine (let_state P e b _ _);
          [ step | let st := fresh "st" in let H := fresh "Hst" in
                   intros st H; cbv beta; walk P step ]
      | _ =>
          refine (let_value P e b _);
          let x := fresh "x" in intro x; cbv beta; walk P step
      end
  | |- _ => step
  end.

(** One binding: every branch is the state before it or an update of it. *)
Ltac branches upd :=
  cbv zeta;
  repeat match goal with
    | |- context [match ?c with _ => _ end] => destruct c
    end;
  solve [repeat first [assumption | upd]].

(** *** Scores are not negative outside the Word detector *)

Lemma nonneg_hit (w : Q) (e : string) (st : St) :
  0 <= w -> nonneg st -> nonneg (hit w e st).
Proof. unfold nonneg, hit. simpl. intros. lra. Qed.

Lemma nonneg_note (e : string) (st : St) : nonneg st -> nonneg (note e st).
Proof. exact (fun H => H). Qed.

Lemma nonneg_st0 : nonneg st0.
Proof. unfold nonneg. simpl. lra. Qed.

Ltac nonneg_step :=
  branches ltac:(first [ exact nonneg_st0
                       | apply nonneg_note
                       | apply nonneg_hit; [lra | ] ]).

Lemma lo_body_nonneg (parts : Parts) : nonneg (lo_body parts).
Proof. cbv delta [lo_body]; cbv beta. walk nonneg nonneg_step. Qed.

Lemma pages_body_nonneg (parts : Parts) : nonneg (pages_body parts).
Proof. cbv delta [pages_body]; cbv beta. walk nonneg nonneg_step. Qed.

Lemma pandoc_body_nonneg (zf : ZipFile) (parts : Parts) : nonneg (pandoc_body zf parts).
Proof. cbv delta [pandoc_body]; cbv beta. walk nonneg nonneg_step. Qed.

Lemma wordpad_body_nonneg (parts : Parts) : nonneg (wordpad_body parts).
Proof. cbv delta [wordpad_body]; cbv beta. walk nonneg nonneg_step. Qed.

Lemma textedit_body_nonneg (parts : Parts) : nonneg (textedit_body parts).
Proof. cbv delta [textedit_body]; cbv beta. walk nonneg nonneg_step. Qed.

(** The Google Docs detector binds its state together with a flag; its six
    tests are few enough to go through every outcome. *)
Ltac gdocs_cases parts :=
  unfold gdocs_body;
  destruct (gd_bool_attr parts) eqn:Ebool; destruct (gd_decimal parts) eqn:Edec;
  destruct (gd_lower_hex parts) eqn:Ehex; destruct (gd_symex parts) eqn:Esym;
  destruct (gd_play parts) eqn:Eplay; destruct (gd_roboto parts) eqn:Erob.

Lemma gdocs_body_nonneg (parts : Parts) : nonneg (gdocs_body parts).
Proof. gdocs_cases parts; vm_compute; discriminate. Qed.

Lemma finish_nonneg (st : St) : nonneg st -> 0 <= fst (finish st).
Proof. intro H. simpl. apply py_min_ge; [exact H | lra]. Qed.

(** The part of the clamp invariant that holds: every detector score is at
    most 10, and the six non-Word scores are at least 0. *)
Lemma detector_scores_at_most_10
      (fromstring : string -> option Element) (zf : ZipFile) (parts : Parts)
      (lo gd pg : Q) :
  fst (lo_checks zf parts) <= 10
  /\ fst (gdocs_checks zf parts) <= 10
  /\ fst (pages_checks zf parts) <= 10
  /\ fst (pandoc_checks zf parts) <= 10
  /\ fst (wordpad_checks zf parts) <= 10
  /\ fst (textedit_checks zf parts) <= 10
  /\ fst (word_checks fromstring zf parts lo gd pg) <= 10.
Proof.
  assert (H : forall st, fst (finish st) <= 10).
  { intro st. simpl. pose proof (py_min_le_r (score st) 10.0). lra. }
  repeat split; apply H.
Qed.

Lemma non_word_scores_at_least_0 (zf : ZipFile) (parts : Parts) :
  0 <= fst (lo_checks zf parts)
  /\ 0 <= fst (gdocs_checks zf parts)
  /\ 0 <= fst (pages_checks zf parts)
  /\ 0 <= fst (pandoc_checks zf parts)
  /\ 0 <= fst (wordpad_checks zf parts)
  /\ 0 <= fst (textedit_checks zf parts).
Proof.
  repeat split; apply finish_nonneg.
  - apply lo_body_nonneg.
  - apply gdocs_body_nonneg.
  - apply pages_body_nonneg.
  - apply pandoc_body_nonneg.
  - apply wordpad_body_nonneg.
  - apply textedit_body_nonneg.
Qed.

(** *** The Word detector, step by step *)

Lemma word_signals_nonneg (parts : Parts) (st : St) :
  nonneg st -> nonneg (word_signals parts st).
Proof. intro H. cbv delta [word_signals]; cbv beta. walk nonneg nonneg_step. Qed.

(** The ordering test either leaves the state or deducts 0.3 with one
    evidence item; which of the two does not depend on the state. *)
Lemma word_order_cases (fromstring : string -> option Element) (parts : Parts) :
  (forall st, word_order fromstring parts st = st)
  \/ (forall st, word_order fromstring parts st = hit (- 0.3) order_text st).
Proof.
  unfold word_order.
  destruct (fromstring (content_types_txt parts)) as [root|]; [|now left].
  cbv zeta.
  destruct (member _ _); [|now left].
  destruct (next_index _ _); [|now left].
  destruct (_ && _); [now right | now left].
Qed.

Lemma word_boost_cases (lo gd pg : Q) (st : St) :
  (lo < 4 /\ gd < 4 /\ pg < 4 /\ word_boost lo gd pg st = hit 1.2 boost_text st)
  \/ (~ (lo < 4 /\ gd < 4 /\ pg < 4) /\ word_boost lo gd pg st = st).
Proof.
  unfold word_boost.
  destruct (lt lo 4) eqn:E1; destruct (lt gd 4) eqn:E2; destruct (lt pg 4) eqn:E3;
    order_hyps; simpl; first [left; now repeat split | right; split; [lra | reflexivity]].
Qed.

(** The Word score is at least -0.3. *)
Lemma word_score_at_least_minus_03
      (fromstring : string -> option Element) (zf : ZipFile) (parts : Parts)
      (lo gd pg : Q) :
  - 0.3 <= fst (word_checks fromstring zf parts lo gd pg).
Proof.
  unfold word_checks, word_body. simpl fst.
  pose proof (word_signals_nonneg parts st0 nonneg_st0) as Hs. unfold nonneg in Hs.
  set (s := word_signals parts st0) in *.
  assert (Hb : 0 <= score (word_boost lo gd pg s)).
  { destruct (word_boost_cases lo gd pg s) as [(_ & _ & _ & ->)|(_ & ->)]; simpl; lra. }
  apply py_min_ge; [|lra].
  destruct (word_order_cases fromstring parts) as [H|H]; rewrite H; simpl; lra.
Qed.


(** ** The scoring engine *)

(** What [assemble] puts in the ScoreBoard, the verdict and the taint,
    whatever the three advisory computations return. *)
Lemma assemble_fields
      (fromstring : string -> option Element)
      (variants : ZipFile -> Parts -> list (string * Q) * list (string * list string))
      (wordaspect : ZipFile -> Q * list string)
      (lomarkeshare : Bundle -> list (string * Q) * list (string * string))
      (zf : ZipFile) (parts : Parts) :
  exists r,
    assemble fromstring variants wordaspect lomarkeshare zf parts = Ok r
    /\ r_scores r = primary_scores fromstring zf parts
    /\ choose_verdict (primary_scores fromstring zf parts) = Ok (r_verdict r)
    /\ r_taint r = py_max (fst (lo_checks zf parts))
                          [fst (gdocs_checks zf parts); fst (pages_checks zf parts);
                           fst (pandoc_checks zf parts)]
    /\ r_evidence r
       = [("word", snd (word_checks fromstring zf parts (fst (lo_checks zf parts))
                                    (fst (gdocs_checks zf parts))
                                    (fst (pages_checks zf parts))));
          ("libreoffice", snd (lo_checks zf parts));
          ("google_docs", snd (gdocs_checks zf parts));
          ("apple_pages", snd (pages_checks zf parts));
          ("pandoc", snd (pandoc_checks zf parts));
          ("wordpad", snd (wordpad_checks zf parts));
          ("textedit", snd (textedit_checks zf parts))].
Proof.
  unfold assemble, primary_scores.
  destruct (lo_checks zf parts) as [lo_score lo_ev].
  destruct (gdocs_checks zf parts) as [gd_score gd_ev].
  destruct (pages_checks zf parts) as [pg_score pg_ev].
  destruct (pandoc_checks zf parts) as [pd_score pd_ev].
  cbn [fst snd].
  destruct (word_checks fromstring zf parts lo_score gd_score pg_score) as [wd_score wd_ev].
  destruct (variants zf parts) as [vs ve].
  destruct (wordpad_checks zf parts) as [wp_score wp_ev].
  destruct (textedit_checks zf parts) as [te_score te_ev].
  cbn [fst snd].
  destruct (choose_verdict_total wd_score lo_score gd_score pg_score pd_score
                                 wp_score te_score) as (verdict & Hv).
  rewrite Hv. cbn [bind].
  destruct (wordaspect zf) as [ws we].
  destruct (lomarkeshare _) as [os oe].
  eexists. split; [reflexivity|]. cbn [r_scores r_verdict r_taint r_evidence].
  repeat split.
Qed.

(** [score_docx] returns a report exactly when the part bundle could be
    built. *)
Lemma score_docx_cases (fromstring : string -> option Element) (zf : ZipFile) :
  (exists parts r,
      load_parts fromstring zf = Ok parts
      /\ score_docx fromstring zf = Ok r
      /\ assemble fromstring word_variants_checks check_speculative_wordaspect
                  check_speculative_lomarkeshare zf parts = Ok r)
  \/ (exists e, load_parts fromstring zf = Raise e /\ score_docx fromstring zf = Raise e).
Proof.
  unfold score_docx.
  destruct (load_parts fromstring zf) as [parts|e]; cbn [bind].
  - left.
    destruct (assemble_fields fromstring word_variants_checks check_speculative_wordaspect
                              check_speculative_lomarkeshare zf parts) as (r & Hr & _).
    exists parts, r. now rewrite Hr.
  - right. now exists e.
Qed.

(** An absent entry is no error; an entry that does not parse is one. *)
Lemma read_xml_from_zip_cases
      (fromstring : string -> option Element) (zf : ZipFile) (name : string) :
  (exists root, read_xml_from_zip fromstring zf name = Ok root)
  \/ (read_xml_from_zip fromstring zf name = Raise ParseError
      /\ exists data, zf_open zf name = Some data /\ fromstring data = None).
Proof.
  unfold read_xml_from_zip.
  destruct (zf_open zf name) as [data|]; [|left; now eexists].
  destruct (fromstring data) eqn:E; [left; now eexists|].
  right. split; [reflexivity|]. now exists data.
Qed.

(** The bundle is built when every entry of [xml_entries] that the archive
    has is well-formed; entries that are absent do not matter. *)
Lemma load_parts_total (fromstring : string -> option Element) (zf : ZipFile) :
  (forall name data, In name xml_entries -> zf_open zf name = Some data ->
                     fromstring data <> None) ->
  exists parts, load_parts fromstring zf = Ok parts.
Proof.
  intro Hok. unfold load_parts.
  repeat match goal with
    | |- context [read_xml_from_zip fromstring zf ?name] =>
        destruct (read_xml_from_zip_cases fromstring zf name)
          as [(? & ->)|(_ & data & Hopen & Hnone)];
        [ cbn [bind]
        | exfalso; apply (Hok name data); [simpl; tauto | exact Hopen | exact Hnone] ]
    end.
  eexists. reflexivity.
Qed.

Lemma score_docx_total_when_parts_parse
      (fromstring : string -> option Element) (zf : ZipFile) :
  (forall name data, In name xml_entries -> zf_open zf name = Some data ->
                     fromstring data <> None) ->
  exists r, score_docx fromstring zf = Ok r
            /\ map fst (r_scores r)
               = ["word"; "libreoffice"; "google_docs"; "apple_pages"; "pandoc";
                  "wordpad"; "textedit"].
Proof.
  intro Hok. destruct (load_parts_total fromstring zf Hok) as (parts & Hparts).
  destruct (score_docx_cases fromstring zf) as [(p & r & Hp & Hr & Ha)|(e & He & _)];
    [|congruence].
  exists r. split; [exact Hr|].
  destruct (assemble_fields fromstring word_variants_checks check_speculative_wordaspect
                            check_speculative_lomarkeshare zf p) as (r' & Hr' & Hs & _).
  assert (r' = r) by congruence. subst r'. rewrite Hs. reflexivity.
Qed.

(** A first parsed entry that is not well-formed ends [score_docx] with
    [ParseError]. *)
Lemma score_docx_raises_on_malformed_app
      (fromstring : string -> option Element) (zf : ZipFile) (data : string) :
  zf_open zf "docProps/app.xml" = Some data -> fromstring data = None ->
  score_docx fromstring zf = Raise ParseError.
Proof.
  intros Hopen Hnone. unfold score_docx, load_parts, read_xml_from_zip at 1.
  rewrite Hopen, Hnone. reflexivity.
Qed.

(** C3: the claim fails on the code.  [read_xml_from_zip] catches
    [KeyError] only, so on the archive [malformed_zip], whose
    [docProps/app.xml] is not well-formed XML, [score_docx] ends with
    [ParseError] and produces no ScoreBoard. *)
Theorem malformed_part_is_fatal :
  zf_open malformed_zip "docProps/app.xml" = Some malformed_txt
  /\ score_docx sample_fromstring malformed_zip = Raise ParseError.
Proof. split; reflexivity. Qed.

(** C1: the claim fails on the code.  The taint is the largest of the
    LibreOffice, Google Docs, Apple Pages and Pandoc scores; WordPad and
    TextEdit are left out.  On the archive without entries the WordPad
    score is 4 and the taint is 1. *)
Theorem taint_leaves_out_wordpad :
  exists r wp,
    score_docx sample_fromstring empty_zip = Ok r
    /\ getitem (r_scores r) "wordpad" = Ok wp
    /\ wp == 4
    /\ r_taint r == 1
    /\ r_taint r < wp.
Proof.
  eexists. eexists. split; [vm_compute; reflexivity|].
  split; [reflexivity|]. repeat split.
Qed.

(** The taint of every report is the largest of four detector scores. *)
Lemma taint_is_max_of_four (fromstring : string -> option Element) (zf : ZipFile) (r : Report) :
  score_docx fromstring zf = Ok r ->
  exists parts,
    load_parts fromstring zf = Ok parts
    /\ r_taint r = py_max (fst (lo_checks zf parts))
                          [fst (gdocs_checks zf parts); fst (pages_checks zf parts);
                           fst (pandoc_checks zf parts)].
Proof.
  intro Hr.
  destruct (score_docx_cases fromstring zf) as [(p & r' & Hp & Hr' & Ha)|(e & _ & He)];
    [|congruence].
  assert (r' = r) by congruence. subst r'.
  destruct (assemble_fields fromstring word_variants_checks check_speculative_wordaspect
                            check_speculative_lomarkeshare zf p) as (r' & Hr2 & _ & _ & Ht & _).
  assert (r' = r) by congruence. subst r'.
  exists p. now split.
Qed.

(** [max] of four scores is not below any of them and does not decrease
    when one of them increases. *)
Lemma py_max_four_bounds (a b c d : Q) :
  a <= py_max a [b; c; d] /\ b <= py_max a [b; c; d]
  /\ c <= py_max a [b; c; d] /\ d <= py_max a [b; c; d].
Proof.
  unfold py_max. simpl.
  repeat match goal with
    | |- context [Qltb ?x ?y] =>
        is_var x; is_var y; let E := fresh "E" in destruct (Qltb x y) eqn:E
    end; order_hyps; repeat split; lra.
Qed.

Lemma py_max_four_monotone (a b c d a' b' c' d' : Q) :
  a <= a' -> b <= b' -> c <= c' -> d <= d' ->
  py_max a [b; c; d] <= py_max a' [b'; c'; d'].
Proof.
  intros. unfold py_max. simpl.
  repeat match goal with
    | |- context [Qltb ?x ?y] =>
        is_var x; is_var y; let E := fresh "E" in destruct (Qltb x y) eqn:E
    end; order_hyps; lra.
Qed.

(** C2: the claim fails on the code.  The deduction of the ordering test
    has no floor: on the archive [lo_ordered_zip] (LibreOffice named in
    the application tag, [docProps] overrides before [/word/document.xml])
    the Word score is -0.3, below the interval [0,10]. *)
Theorem word_score_below_zero :
  exists r wd,
    score_docx sample_fromstring lo_ordered_zip = Ok r
    /\ getitem (r_scores r) "word" = Ok wd
    /\ wd == - 0.3
    /\ wd < 0.
Proof.
  eexists. eexists. split; [vm_compute; reflexivity|].
  split; [reflexivity|]. repeat split.
Qed.

(** C7: the ScoreBoard and the verdict of a report are those of the seven
    primary detectors: the ScoreBoard is [primary_scores] of the part
    bundle, the verdict is the reducer's label for it, and both stay the
    same when the Word-variant classifier, the Word-on-the-web detector
    and the other-engines detector are replaced by any other functions. *)
Theorem advisory_sections_do_not_feed_back
        (fromstring : string -> option Element) (zf : ZipFile) (r : Report) :
  score_docx fromstring zf = Ok r ->
  exists parts,
    load_parts fromstring zf = Ok parts
    /\ r_scores r = primary_scores fromstring zf parts
    /\ choose_verdict (primary_scores fromstring zf parts) = Ok (r_verdict r)
    /\ forall variants wordaspect lomarkeshare,
        exists r',
          assemble fromstring variants wordaspect lomarkeshare zf parts = Ok r'
          /\ r_scores r' = r_scores r
          /\ r_verdict r' = r_verdict r.
Proof.
  intro Hr.
  destruct (score_docx_cases fromstring zf) as [(p & r0 & Hp & Hr0 & Ha)|(e & _ & He)];
    [|congruence].
  assert (r0 = r) by congruence. subst r0.
  destruct (assemble_fields fromstring word_variants_checks check_speculative_wordaspect
                            check_speculative_lomarkeshare zf p)
    as (r1 & Hr1 & Hs & Hv & _).
  assert (r1 = r) by congruence. subst r1.
  exists p. repeat split; trivial.
  intros variants wordaspect lomarkeshare.
  destruct (assemble_fields fromstring variants wordaspect lomarkeshare zf p)
    as (r' & Hr' & Hs' & Hv' & _).
  exists r'. split; [exact Hr'|]. split; [congruence|].
  rewrite Hv in Hv'. congruence.
Qed.

Lemma advisory_sections_do_not_feed_back_witness :
  exists r,
    score_docx sample_fromstring lo_ordered_zip = Ok r
    /\ exists parts,
        load_parts sample_fromstring lo_ordered_zip = Ok parts
        /\ r_scores r = primary_scores sample_fromstring lo_ordered_zip parts
        /\ choose_verdict (primary_scores sample_fromstring lo_ordered_zip parts)
           = Ok (r_verdict r)
        /\ forall variants wordaspect lomarkeshare,
            exists r',
              assemble sample_fromstring variants wordaspect lomarkeshare
                       lo_ordered_zip parts = Ok r'
              /\ r_scores r' = r_scores r
              /\ r_verdict r' = r_verdict r.
Proof.
  destruct (score_docx sample_fromstring lo_ordered_zip) as [r|e] eqn:E.
  - exists r. split; [reflexivity|].
    exact (advisory_sections_do_not_feed_back sample_fromstring lo_ordered_zip r E).
  - vm_compute in E. discriminate E.
Defined.


(** ** Word's look at the other scores *)

Lemma boost_text_not_in_hit (w : Q) (e : string) (st : St) :
  String.eqb e boost_text = false ->
  ~ In boost_text (ev st) -> ~ In boost_text (ev (hit w e st)).
Proof.
  intros Hne Hst Hin. simpl in Hin. apply in_app_or in Hin as [Hin|[Heq|[]]].
  - now apply Hst.
  - rewrite Heq, String.eqb_refl in Hne. discriminate.
Qed.

Ltac boost_free_step :=
  branches ltac:(first [ apply boost_text_not_in_hit; [vm_compute; reflexivity | ] ]).

Lemma word_signals_boost_free (parts : Parts) :
  ~ In boost_text (ev (word_signals parts st0)).
Proof.
  assert (H0 : ~ In boost_text (ev st0)) by (simpl; tauto).
  revert H0. generalize st0 as st. intros st H.
  change ((fun s => ~ In boost_text (ev s)) (word_signals parts st)).
  cbv delta [word_signals]; cbv beta.
  walk (fun s : St => ~ In boost_text (ev s)) boost_free_step.
Qed.

(** The extra signal of the Word detector reads the three scores it is
    passed.  The boost evidence is in the detector's list exactly when
    these three scores are all below 4; then the score is 1.2 above and
    the evidence one item longer than without the boost, and otherwise the
    detector's state is the one without the boost. *)
Lemma word_boost_reads_lo_gd_pg
        (fromstring : string -> option Element) (zf : ZipFile) (parts : Parts)
        (lo gd pg : Q) :
  let low := lo < 4 /\ gd < 4 /\ pg < 4 in
  let st := word_body fromstring parts lo gd pg in
  let base := word_body fromstring parts 4 4 4 in
  (In boost_text (snd (word_checks fromstring zf parts lo gd pg)) <-> low)
  /\ (low -> score st == score base + 1.2
             /\ List.length (ev st) = S (List.length (ev base)))
  /\ (~ low -> st = base).
Proof.
  intros low st base. subst low st base. unfold word_checks, word_body. cbn [snd finish].
  pose proof (word_signals_boost_free parts) as Hfree.
  set (s := word_signals parts st0) in *.
  assert (Hbase : word_boost 4 4 4 s = s).
  { destruct (word_boost_cases 4 4 4 s) as [(H & _)|(_ & H)]; [lra | exact H]. }
  rewrite Hbase.
  assert (Horder_free : ~ In boost_text (ev (word_order fromstring parts s))).
  { destruct (word_order_cases fromstring parts) as [H|H]; rewrite H; [exact Hfree|].
    apply boost_text_not_in_hit; [vm_compute; reflexivity | exact Hfree]. }
  destruct (word_boost_cases lo gd pg s) as [(H1 & H2 & H3 & Hb)|(Hnot & Hb)]; rewrite Hb.
  - split; [|split].
    + split; [intros _; now repeat split|intros _].
      destruct (word_order_cases fromstring parts) as [H|H]; rewrite H; simpl;
        repeat (apply in_or_app; first [right; now left | left]).
    + intros _.
      destruct (word_order_cases fromstring parts) as [H|H]; rewrite !H; simpl;
        rewrite ?length_app; simpl; split; first [lra | lia].
    + intro Hn. exfalso. apply Hn. now repeat split.
  - split; [|split].
    + split; [intro Hin; exfalso; now apply Horder_free | intro H; now exfalso].
    + intro H. now exfalso.
    + reflexivity.
Qed.

(** The three scores are those of LibreOffice, Google Docs and Apple
    Pages: in every report the boost evidence is in Word's list exactly
    when these three scores of the ScoreBoard are all below 4.  The Pandoc,
    WordPad and TextEdit scores are not read. *)
Lemma report_boost_reads_three_scores
      (fromstring : string -> option Element) (zf : ZipFile) (r : Report) :
  score_docx fromstring zf = Ok r ->
  exists lo gd pg,
    getitem (r_scores r) "libreoffice" = Ok lo
    /\ getitem (r_scores r) "google_docs" = Ok gd
    /\ getitem (r_scores r) "apple_pages" = Ok pg
    /\ (In boost_text (evidence_for r "word") <-> lo < 4 /\ gd < 4 /\ pg < 4).
Proof.
  intro Hr.
  destruct (score_docx_cases fromstring zf) as [(p & r0 & Hp & Hr0 & Ha)|(e & _ & He)];
    [|congruence].
  assert (r0 = r) by congruence. subst r0.
  destruct (assemble_fields fromstring word_variants_checks check_speculative_wordaspect
                            check_speculative_lomarkeshare zf p)
    as (r1 & Hr1 & Hs & _ & _ & Hev).
  assert (r1 = r) by congruence. subst r1.
  exists (fst (lo_checks zf p)), (fst (gdocs_checks zf p)), (fst (pages_checks zf p)).
  rewrite Hs. unfold primary_scores.
  repeat (split; [reflexivity|]).
  unfold evidence_for. rewrite Hev.
  change (In boost_text
             (snd (word_checks fromstring zf p (fst (lo_checks zf p))
                               (fst (gdocs_checks zf p)) (fst (pages_checks zf p))))
          <-> fst (lo_checks zf p) < 4 /\ fst (gdocs_checks zf p) < 4
              /\ fst (pages_checks zf p) < 4).
  apply (word_boost_reads_lo_gd_pg fromstring zf p).
Qed.

(** C5: the claim fails on the code.  [score_docx] passes the
    LibreOffice, Google Docs and Apple Pages scores to [word_checks], not
    the three strongest non-Word scores.  On the archive [pandoc_zip],
    whose core properties name Pandoc, the Pandoc score is 9 and the
    verdict "Definitely Pandoc / programmatic export", and Word's evidence
    still has "No strong non-Word indicators (boosting Word confidence)":
    the boost is given although the strongest non-Word score is not below
    4. *)
Theorem boost_fires_beside_definite_pandoc :
  exists r pd,
    score_docx sample_fromstring pandoc_zip = Ok r
    /\ getitem (r_scores r) "pandoc" = Ok pd
    /\ pd == 9
    /\ r_verdict r = "Definitely Pandoc / programmatic export"
    /\ In "No strong non-Word indicators (boosting Word confidence)"
          (evidence_for r "word")
    /\ ~ (forall s, In s (spec_three_strongest_non_word (r_scores r)) -> s < 4).
Proof.
  eexists. eexists. split; [vm_compute; reflexivity|].
  split; [reflexivity|]. split; [reflexivity|]. split; [reflexivity|].
  split; [left; reflexivity|].
  intro H. specialize (H 9.0 (or_introl eq_refl)). vm_compute in H. discriminate H.
Qed.

(** ** The weak patterns of the Google Docs detector *)

(** C6: the two weak patterns (lowercase hex colours, the symex
    namespace) add to the Google Docs score only beside a test that
    carries a weight of its own: when none of those four tests passes the
    score is 0, and a score that differs from the sum of their weights
    means that one of them passed.  The weak patterns add at most 1. *)
Theorem gdocs_weak_patterns_need_strong (zf : ZipFile) (parts : Parts) :
  (gd_bool_attr parts = false -> gd_decimal parts = false ->
   gd_play parts = false -> gd_roboto parts = false ->
   fst (gdocs_checks zf parts) == 0)
  /\ (~ score (gdocs_body parts) == gd_strong_weight parts ->
      gd_bool_attr parts = true \/ gd_decimal parts = true
      \/ gd_play parts = true \/ gd_roboto parts = true)
  /\ gd_strong_weight parts <= score (gdocs_body parts) <= gd_strong_weight parts + 1
  /\ fst (gdocs_checks zf parts) == score (gdocs_body parts).
Proof.
  unfold gdocs_checks, gd_strong_weight. gdocs_cases parts;
    (split; [intros; first [discriminate | vm_compute; reflexivity]|]);
    (split; [intro Hne; first [ now left | right; now left | right; right; now left
                              | right; right; right; reflexivity
                              | exfalso; apply Hne; vm_compute; reflexivity ]|]);
    (split; [split; vm_compute; discriminate | vm_compute; reflexivity]).
Qed.

Lemma gdocs_weak_patterns_need_strong_witness :
  (exists parts,
      load_parts sample_fromstring gd_weak_zip = Ok parts
      /\ gd_lower_hex parts = true
      /\ fst (gdocs_checks gd_weak_zip parts) == 0)
  /\ (exists parts,
         load_parts sample_fromstring gd_fonts_zip = Ok parts
         /\ score (gdocs_body parts) == 2
         /\ (gd_bool_attr parts = true \/ gd_decimal parts = true
             \/ gd_play parts = true \/ gd_roboto parts = true)).
Proof.
  split.
  - eexists. split; [vm_compute; reflexivity|]. split; [vm_compute; reflexivity|].
    apply (proj1 (gdocs_weak_patterns_need_strong gd_weak_zip _)); vm_compute; reflexivity.
  - eexists. split; [vm_compute; reflexivity|]. split; [vm_compute; reflexivity|].
    apply (proj1 (proj2 (gdocs_weak_patterns_need_strong gd_fonts_zip _))).
    vm_compute. discriminate.
Defined.


(** ** Walking with an invariant of any kind *)

(** A second walk, for any state type and any result: the invariant [I]
    is carried along the bindings of the state, the bindings of other
    values are kept as equations, and [final] proves the goal at the end
    of the chain. *)
Lemma let_carry {S B : Type} (I : S -> Prop) (P : B -> Prop) (e : S) (b : S -> B) :
  I e -> (forall st, I st -> P (b st)) -> P (let st := e in b st).
Proof. intros He Hb. exact (Hb e He). Qed.

Lemma let_named {A B : Type} (P : B -> Prop) (e : A) (b : A -> B) :
  (forall x, x = e -> P (b x)) -> P (let x := e in b x).
Proof. intro Hb. exact (Hb e eq_refl). Qed.

Ltac walk_with S I P step final :=
  lazymatch goal with
  | |- P (let x := ?e in @?b x) =>
      lazymatch type of e with
      | S =>
          refine (let_carry I P e b _ _);
          [ step | let st := fresh "st" in let H := fresh "Hst" in
                   intros st H; cbv beta; walk_with S I P step final ]
      | _ =>
          refine (let_named P e b _);
          let x := fresh "x" in let H := fresh "Hx" in
          intros x H; cbv beta; walk_with S I P step final
      end
  | |- _ => final
  end.

(** One binding, any number of nested updates. *)
Ltac cases_then tac :=
  cbv zeta;
  repeat match goal with
    | |- context [match ?c with _ => _ end] => destruct c eqn:?
    end;
  tac.

(** The same walk over the first [n] bindings of the state only; [final]
    then has the rest of the chain as its goal. *)
Ltac walk_first n T I P step final :=
  lazymatch n with
  | O => final
  | S ?m =>
      lazymatch goal with
      | |- P (let x := ?e in @?b x) =>
          lazymatch type of e with
          | T =>
              refine (let_carry I P e b _ _);
              [ step | let st := fresh "st" in let H := fresh "Hst" in
                       intros st H; cbv beta; walk_first m T I P step final ]
          | _ =>
              refine (let_named P e b _);
              let x := fresh "x" in let H := fresh "Hx" in
              intros x H; cbv beta; walk_first n T I P step final
          end
      | |- _ => final
      end
  end.


(** ** Weights and evidence *)

Lemma run_tests_account (tests : list Test) :
  forall st,
    ev (run_tests tests st) = (ev st ++ texts (passing tests (score st)))%list
    /\ score (run_tests tests st)
       = fold_left Qplus (weights (passing tests (score st))) (score st).
Proof.
  unfold run_tests.
  induction tests as [|t tests IH]; intro st; cbn [fold_left passing].
  - cbn. now rewrite app_nil_r.
  - destruct (IH (apply_test t st)) as [He Hs]. rewrite He, Hs. unfold apply_test.
    destruct (passes t (score st)); [|now split].
    destruct (effect t) as [w e|e|w];
      cbn [hit note bump ev score texts weights flat_map app fold_left];
      rewrite <- ?app_assoc; now split.
Qed.

Lemma follows_accounts (tests : list Test) (st : St) :
  follows tests st0 st -> accounts tests st.
Proof.
  unfold follows, accounts, sum_in_order. intros ->.
  destruct (run_tests_account tests st0) as [He Hs]. now split.
Qed.

Lemma follows_step (t : Test) (rest : list Test) (s e : St) (b : St -> St) :
  e = apply_test t s -> (forall s', follows rest s' (b s')) ->
  follows (t :: rest) s (let st := e in b st).
Proof. unfold follows. intros -> H. cbv zeta. now rewrite H. Qed.

Lemma follows_init (tests : list Test) (s : St) (b : St -> St) :
  follows tests s (b s) -> follows tests s (let st := s in b st).
Proof. exact (fun H => H). Qed.

Lemma follows_named {A : Type} (tests : list Test) (s : St) (e : A) (b : A -> St) :
  (forall x, x = e -> follows tests s (b x)) -> follows tests s (let x := e in b x).
Proof. intro H. exact (H e eq_refl). Qed.

Lemma follows_end (s : St) : follows [] s s.
Proof. reflexivity. Qed.

Lemma follows_step2 (t1 t2 : Test) (rest : list Test) (s e : St) (b : St -> St) :
  e = apply_test t2 (apply_test t1 s) -> (forall s', follows rest s' (b s')) ->
  follows (t1 :: t2 :: rest) s (let st := e in b st).
Proof. unfold follows. intros -> H. cbv zeta. now rewrite H. Qed.

(** [follow step] goes through the bindings of a detector body and the
    rows of its table together; [step] proves that one binding of the
    state is one row of the table, or two rows where the source nests two
    tests in one block. *)
Ltac follow step :=
  lazymatch goal with
  | |- follows ?tests ?s (let x := ?e in @?b x) =>
      lazymatch type of e with
      | St =>
          first
            [ constr_eq e s; refine (follows_init tests s b _)
            | lazymatch tests with
              | ?t :: ?rest =>
                  refine (follows_step t rest s e b _ _); [solve [step] | intro]
              end
            | lazymatch tests with
              | ?t1 :: ?t2 :: ?rest =>
                  refine (follows_step2 t1 t2 rest s e b _ _); [solve [step] | intro]
              end ];
          cbv beta; follow step
      | _ =>
          refine (follows_named tests s e b _);
          let x := fresh "x" in let H := fresh "Hx" in
          intros x H; cbv beta; subst x; follow step
      end
  | |- follows [] ?s ?s => exact (follows_end s)
  end.

(** A test nested in a second condition, which is the row with the
    conjunction of the two. *)
Ltac gated_row :=
  cbv beta iota delta [apply_test passes effect];
  match goal with |- (if ?c then _ else _) = _ => destruct c end;
  [ match goal with |- (if ?d then _ else _) = _ => destruct d end | ];
  reflexivity.

Ltac one_row := first [reflexivity | cases_then ltac:(reflexivity) | gated_row].

(** A table with its rows written out. *)
Ltac with_rows table tac :=
  lazymatch goal with
  | |- follows ?tests ?s ?body =>
      let T := fresh "T" in let HT := fresh "HT" in
      remember tests as T eqn:HT;
      cbv delta [table] in HT; cbv beta zeta in HT; subst T; tac
  end.

Lemma pandoc_body_follows (zf : ZipFile) (parts : Parts) :
  follows (pandoc_tests zf parts) st0 (pandoc_body zf parts).
Proof.
  with_rows pandoc_tests ltac:(cbv delta [pandoc_body]; cbv beta; follow one_row).
Qed.

Lemma lo_body_follows (parts : Parts) : follows (lo_tests parts) st0 (lo_body parts).
Proof.
  with_rows lo_tests ltac:(cbv delta [lo_body]; cbv beta; follow one_row).
Qed.

Lemma pages_body_follows (parts : Parts) :
  follows (pages_tests parts) st0 (pages_body parts).
Proof.
  with_rows pages_tests ltac:(cbv delta [pages_body]; cbv beta; follow one_row).
Qed.

Lemma wordpad_body_follows (parts : Parts) :
  follows (wordpad_tests parts) st0 (wordpad_body parts).
Proof.
  with_rows wordpad_tests ltac:(cbv delta [wordpad_body]; cbv beta; follow one_row).
Qed.

Lemma textedit_body_follows (parts : Parts) :
  follows (textedit_tests parts) st0 (textedit_body parts).
Proof.
  with_rows textedit_tests ltac:(cbv delta [textedit_body]; cbv beta; follow one_row).
Qed.

Lemma gdocs_body_follows (parts : Parts) :
  follows (gdocs_tests parts) st0 (gdocs_body parts).
Proof.
  unfold follows, gdocs_tests, gd_unlocked.
  gdocs_cases parts; vm_compute; reflexivity.
Qed.

(** The ordering test of the Word detector is a row as well. *)
Lemma word_order_row (fromstring : string -> option Element) (parts : Parts) (s : St) :
  word_order fromstring parts s
  = apply_test (weighs (order_test fromstring parts) (- 0.3) order_text) s.
Proof.
  unfold word_order, order_test.
  cbv beta iota delta [apply_test weighs passes effect].
  destruct (fromstring (content_types_txt parts)) as [root|]; [|reflexivity].
  cbv zeta.
  destruct (member _ _); [|reflexivity].
  destruct (next_index _ _); [|reflexivity].
  destruct (_ && _); reflexivity.
Qed.

Lemma word_signals_follows
      (fromstring : string -> option Element) (parts : Parts) (lo gd pg : Q) (s : St) :
  follows (firstn 5 (word_tests fromstring parts lo gd pg)) s (word_signals parts s).
Proof.
  remember (firstn 5 (word_tests fromstring parts lo gd pg)) as T eqn:HT.
  cbv delta [word_tests] in HT; cbv beta zeta in HT; cbn [firstn] in HT; subst T.
  cbv delta [word_signals]; cbv beta. follow one_row.
Qed.

Lemma word_body_follows
      (fromstring : string -> option Element) (parts : Parts) (lo gd pg : Q) :
  follows (word_tests fromstring parts lo gd pg) st0
          (word_body fromstring parts lo gd pg).
Proof.
  pose proof (word_signals_follows fromstring parts lo gd pg st0) as Hs.
  unfold follows in *.
  assert (Hrows : word_tests fromstring parts lo gd pg
                  = (firstn 5 (word_tests fromstring parts lo gd pg)
                     ++ [weighs (lt lo 4 && lt gd 4 && lt pg 4) 1.2 boost_text;
                         weighs (order_test fromstring parts) (- 0.3) order_text])%list)
    by reflexivity.
  rewrite Hrows. unfold run_tests in *. rewrite fold_left_app, <- Hs.
  cbn [fold_left]. unfold word_body. rewrite word_order_row. reflexivity.
Qed.

(** A table of weighted tests gives as many evidence items as tests pass. *)
Lemma weighted_one_item_each (tests : list Test) :
  Forall weighted tests ->
  forall s, List.length (texts (passing tests s)) = List.length (passing tests s).
Proof.
  induction 1 as [|t tests (w & e & Ht & _) _ IH]; intro s; cbn [passing].
  - reflexivity.
  - destruct (passes t s); [|apply IH].
    rewrite Ht. cbn. now rewrite IH.
Qed.

Lemma follows_reports (tests : list Test) (st : St) :
  follows tests st0 st -> reports tests (finish st).
Proof.
  intro H. destruct (follows_accounts tests st H) as [He Hs].
  unfold reports, finish. cbn [fst snd]. now rewrite He, Hs.
Qed.

Ltac all_weighted :=
  repeat (constructor;
          [ eexists; eexists; split;
            [ reflexivity | let H := fresh in intro H; vm_compute in H; discriminate H ]
          | ]);
  constructor.

Lemma weighted_reports (tests : list Test) (st : St) :
  follows tests st0 st -> Forall weighted tests -> reports_weighted tests (finish st).
Proof.
  intros Hf Hw. pose proof (follows_reports tests st Hf) as Hr.
  split; [exact Hr|]. split; [exact Hw|].
  destruct Hr as [-> _]. now apply weighted_one_item_each.
Qed.

(** C9, as the code has it.  Every detector goes through a fixed table of
    tests, one row for each test of the source with its condition, its
    weight and its evidence text.  In the Pages, Pandoc, WordPad, TextEdit
    and Word detectors every row is weighted: a passing test adds its
    weight, which is not zero, and appends its one evidence item, so the
    evidence list returned is the list of the texts of the passing tests,
    with one item for each, and the score is the sum of their weights,
    added in test order and cut at 10.  The LibreOffice detector does the
    same except for its font-fingerprint test, which appends its text and
    adds no weight.  In the Google Docs detector the two weak patterns
    append their texts whenever they match, and 0.5 is added for each of
    them in the last two rows, without a further evidence item, under the
    conjunctive condition [gd_unlocked]. *)
Theorem weights_come_with_evidence
        (fromstring : string -> option Element) (zf : ZipFile) (parts : Parts)
        (lo gd pg : Q) :
  reports_weighted (pages_tests parts) (pages_checks zf parts)
  /\ reports_weighted (pandoc_tests zf parts) (pandoc_checks zf parts)
  /\ reports_weighted (wordpad_tests parts) (wordpad_checks zf parts)
  /\ reports_weighted (textedit_tests parts) (textedit_checks zf parts)
  /\ reports_weighted (word_tests fromstring parts lo gd pg)
                      (word_checks fromstring zf parts lo gd pg)
  /\ reports (lo_tests parts) (lo_checks zf parts)
  /\ Forall (fun t =>
               weighted t
               \/ effect t
                  = Mention "No <w:panose1> or <w:sig> font fingerprints (often present in Word)")
            (lo_tests parts)
  /\ reports (gdocs_tests parts) (gdocs_checks zf parts).
Proof.
  split; [apply weighted_reports; [apply pages_body_follows | unfold pages_tests; all_weighted]|].
  split; [apply weighted_reports;
          [apply pandoc_body_follows | unfold pandoc_tests; all_weighted]|].
  split; [apply weighted_reports;
          [apply wordpad_body_follows | unfold wordpad_tests; all_weighted]|].
  split; [apply weighted_reports;
          [apply textedit_body_follows | unfold textedit_tests; all_weighted]|].
  split; [apply weighted_reports;
          [apply word_body_follows | unfold word_tests; all_weighted]|].
  split; [apply follows_reports, lo_body_follows|].
  split; [|apply follows_reports, gdocs_body_follows].
  unfold lo_tests.
  repeat (constructor;
          [ first [ right; reflexivity
                  | left; eexists; eexists; split;
                    [ reflexivity
                    | let H := fresh in intro H; vm_compute in H; discriminate H ] ]
          | ]).
  constructor.
Qed.

(** C9, as the specification words it, fails: on the archive
    [plain_fonts_zip] the LibreOffice detector appends an evidence item for
    its font-fingerprint test, which adds no weight: the score stays 0. *)
Lemma lo_evidence_without_weight :
  exists r lo,
    score_docx sample_fromstring plain_fonts_zip = Ok r
    /\ getitem (r_scores r) "libreoffice" = Ok lo
    /\ lo == 0
    /\ evidence_for r "libreoffice"
       = ["No <w:panose1> or <w:sig> font fingerprints (often present in Word)"].
Proof.
  eexists. eexists. split; [vm_compute; reflexivity|].
  split; [reflexivity|]. split; reflexivity.
Qed.

(** ** Further properties of the code *)

(** *** Ranges of the detector scores *)

(** X1: the LibreOffice, Google Docs, Apple Pages, Pandoc, WordPad and
    TextEdit scores lie in [0,10] for every archive and part bundle. *)
Theorem non_word_scores_in_range (zf : ZipFile) (parts : Parts) :
  (0 <= fst (lo_checks zf parts) <= 10)
  /\ (0 <= fst (gdocs_checks zf parts) <= 10)
  /\ (0 <= fst (pages_checks zf parts) <= 10)
  /\ (0 <= fst (pandoc_checks zf parts) <= 10)
  /\ (0 <= fst (wordpad_checks zf parts) <= 10)
  /\ (0 <= fst (textedit_checks zf parts) <= 10).
Proof.
  destruct (non_word_scores_at_least_0 zf parts) as (L1 & L2 & L3 & L4 & L5 & L6).
  destruct (detector_scores_at_most_10 (fun _ => None) zf parts 0 0 0)
    as (U1 & U2 & U3 & U4 & U5 & U6 & _).
  repeat split; assumption.
Qed.

(** The states that the Word detector can reach: what the tests on the
    parts leave is one of finitely many states, and every one of them
    satisfies [P] as soon as [P] holds of the states computed below. *)
Ltac word_cases fromstring parts lo gd pg :=
  unfold word_checks, word_body;
  destruct (word_order_cases fromstring parts) as [Hord|Hord]; rewrite !Hord;
  destruct (word_boost_cases lo gd pg (word_signals parts st0))
    as [(Hlo & Hgd & Hpg & Hboost)|(Hnot & Hboost)];
  rewrite !Hboost; clear Hord Hboost;
  unfold word_signals;
  cases_then idtac.

Lemma word_checks_facts
      (fromstring : string -> option Element) (zf : ZipFile) (parts : Parts)
      (lo gd pg : Q) :
  let r := word_checks fromstring zf parts lo gd pg in
  (- 0.3 <= fst r <= 9.5)
  /\ fst r = score (word_body fromstring parts lo gd pg)
  /\ (fst r < 0 -> snd r = [order_text] /\ fst r == - 0.3)
  /\ (5.5 < fst r -> In app_word_text (snd r)).
Proof.
  cbv zeta. word_cases fromstring parts lo gd pg;
    (split; [split; vm_compute; discriminate|]);
    (split; [vm_compute; reflexivity|]);
    (split; [intro Hneg; first [ split; vm_compute; reflexivity
                               | exfalso; vm_compute in Hneg; discriminate Hneg ]|]);
    intro Hbig;
    first [ vm_compute; tauto
          | exfalso; vm_compute in Hbig; discriminate Hbig ].
Qed.

(** X2: the Word score lies in [-0.3, 9.5], so its clamp at 10 never
    changes it; it is negative only when the deduction of the ordering
    test is the detector's only evidence, and then it is -0.3. *)
Theorem word_score_range
        (fromstring : string -> option Element) (zf : ZipFile) (parts : Parts)
        (lo gd pg : Q) :
  let r := word_checks fromstring zf parts lo gd pg in
  (- 0.3 <= fst r <= 9.5)
  /\ fst r = score (word_body fromstring parts lo gd pg)
  /\ (fst r < 0 -> snd r = [order_text] /\ fst r == - 0.3).
Proof.
  cbv zeta.
  destruct (word_checks_facts fromstring zf parts lo gd pg) as (H1 & H2 & H3 & _).
  repeat split; try apply H1; try exact H2; apply H3; assumption.
Qed.

Lemma word_score_range_witness :
  exists parts,
    load_parts sample_fromstring lo_ordered_zip = Ok parts
    /\ snd (word_checks sample_fromstring lo_ordered_zip parts 6 0 0) = [order_text]
    /\ fst (word_checks sample_fromstring lo_ordered_zip parts 6 0 0) == - 0.3.
Proof.
  eexists. split; [vm_compute; reflexivity|].
  apply (word_score_range sample_fromstring lo_ordered_zip _ 6 0 0).
  vm_compute. reflexivity.
Defined.


(** *** What a verdict tells *)

(** The verdict on a ScoreBoard, one origin at the top: the five branches
    of the cascade with what each of them knows about the scores. *)
Lemma cascade_branches (top wd : Q) (lbl : string) (v : string) :
  (if ge top 7 then Ok ("Definitely " ++ lbl ++ " export")%string
   else if ge top 5 then Ok ("Likely " ++ lbl ++ " export or mixed")%string
   else if ge wd 7 && lt top 4 then Ok "Pure Microsoft Word"
   else if ge wd 5 && lt top 5 then
     Ok "Probably Microsoft Word (minor artifacts present)"
   else Ok "Inconclusive / mixed") = Ok v ->
  (7 <= top /\ v = ("Definitely " ++ lbl ++ " export")%string)
  \/ (5 <= top /\ top < 7 /\ v = ("Likely " ++ lbl ++ " export or mixed")%string)
  \/ (top < 4 /\ 7 <= wd /\ v = "Pure Microsoft Word")
  \/ (top < 5 /\ 5 <= wd /\ ~ (top < 4 /\ 7 <= wd)
      /\ v = "Probably Microsoft Word (minor artifacts present)")
  \/ (top < 5 /\ wd < 5 /\ v = "Inconclusive / mixed").
Proof.
  destruct (ge top 7) eqn:E7; [intro H; injection H as <-; order_hyps; now left|].
  destruct (ge top 5) eqn:E5;
    [intro H; injection H as <-; order_hyps; right; left; now repeat split|].
  destruct (ge wd 7) eqn:W7; destruct (lt top 4) eqn:L4;
    destruct (ge wd 5) eqn:W5; destruct (lt top 5) eqn:L5;
    cbn [andb]; intro H; injection H as <-; order_hyps;
    first [ right; right; left; now repeat split
          | right; right; right; left; repeat split; trivial; intros [? ?]; lra
          | right; right; right; right; repeat split; trivial; lra
          | exfalso; lra ].
Qed.

(** The verdict on a ScoreBoard, with the origin at the top made explicit. *)
Lemma verdict_on_scoreboard (wd lo gd pg pd wp te : Q) (v : string) :
  choose_verdict (scoreboard wd lo gd pg pd wp te) = Ok v ->
  exists top lbl,
    In lbl non_word_labels
    /\ lo <= top /\ gd <= top /\ pg <= top /\ pd <= top /\ wp <= top /\ te <= top
    /\ ((7 <= top /\ v = ("Definitely " ++ lbl ++ " export")%string)
        \/ (5 <= top /\ top < 7 /\ v = ("Likely " ++ lbl ++ " export or mixed")%string)
        \/ (top < 4 /\ 7 <= wd /\ v = "Pure Microsoft Word")
        \/ (top < 5 /\ 5 <= wd /\ ~ (top < 4 /\ 7 <= wd)
            /\ v = "Probably Microsoft Word (minor artifacts present)")
        \/ (top < 5 /\ wd < 5 /\ v = "Inconclusive / mixed")).
Proof.
  intro Hc.
  destruct (choose_verdict_top wd lo gd pg pd wp te) as (_ & _ & Hv).
  rewrite Hv in Hc. clear Hv.
  pose proof (max_item_largest
                [("google_docs", gd); ("apple_pages", pg); ("pandoc", pd);
                 ("wordpad", wp); ("textedit", te)] ("libreoffice", lo)) as Hmax.
  pose proof (Hmax ("libreoffice", lo) (or_introl eq_refl)) as Hlo.
  pose proof (Hmax ("google_docs", gd) (or_intror (or_introl eq_refl))) as Hgd.
  pose proof (Hmax ("apple_pages", pg) (or_intror (or_intror (or_introl eq_refl)))) as Hpg.
  pose proof (Hmax ("pandoc", pd)
                (or_intror (or_intror (or_intror (or_introl eq_refl))))) as Hpd.
  pose proof (Hmax ("wordpad", wp)
                (or_intror (or_intror (or_intror (or_intror (or_introl eq_refl)))))) as Hwp.
  pose proof (Hmax ("textedit", te)
                (or_intror (or_intror (or_intror (or_intror
                   (or_intror (or_introl eq_refl))))))) as Hte.
  clear Hmax. cbn [snd] in Hlo, Hgd, Hpg, Hpd, Hwp, Hte.
  assert (Hlbl : exists lbl, label (fst (max_item ("libreoffice", lo)
                   [("google_docs", gd); ("apple_pages", pg); ("pandoc", pd);
                    ("wordpad", wp); ("textedit", te)])) = Ok lbl
                 /\ In lbl non_word_labels).
  { destruct (top_entry_cases lo gd pg pd wp te) as [H|[H|[H|[H|[H|H]]]]];
      rewrite H; eexists; (split; [reflexivity | simpl; tauto]). }
  destruct Hlbl as (lbl & Hlbl & Hin).
  rewrite Hlbl in Hc. cbn [bind] in Hc.
  generalize dependent (max_item ("libreoffice", lo)
                   [("google_docs", gd); ("apple_pages", pg); ("pandoc", pd);
                    ("wordpad", wp); ("textedit", te)]).
  intros r Hc Hlo Hgd Hpg Hpd Hwp Hte _.
  exists (snd r), lbl. repeat (split; [assumption|]).
  now apply cascade_branches.
Qed.

(** X3: what the three verdicts without an origin tell about a
    ScoreBoard.  "Pure Microsoft Word" means a Word score of at least 7
    with every non-Word score below 4, "Probably Microsoft Word (minor
    artifacts present)" a Word score of at least 5 with every non-Word
    score below 5, and "Inconclusive / mixed" that all seven scores are
    below 5. *)
Theorem verdict_tells_scores (wd lo gd pg pd wp te : Q) (v : string) :
  choose_verdict (scoreboard wd lo gd pg pd wp te) = Ok v ->
  (v = "Pure Microsoft Word" ->
   7 <= wd /\ lo < 4 /\ gd < 4 /\ pg < 4 /\ pd < 4 /\ wp < 4 /\ te < 4)
  /\ (v = "Probably Microsoft Word (minor artifacts present)" ->
      5 <= wd /\ lo < 5 /\ gd < 5 /\ pg < 5 /\ pd < 5 /\ wp < 5 /\ te < 5)
  /\ (v = "Inconclusive / mixed" ->
      wd < 5 /\ lo < 5 /\ gd < 5 /\ pg < 5 /\ pd < 5 /\ wp < 5 /\ te < 5).
Proof.
  intro Hc.
  destruct (verdict_on_scoreboard _ _ _ _ _ _ _ _ Hc)
    as (top & lbl & _ & Hlo & Hgd & Hpg & Hpd & Hwp & Hte & Hcase).
  split; [|split]; intro Hv; subst v;
    destruct Hcase as [(_ & H)|[(_ & _ & H)|[(? & ? & H)|[(? & ? & ? & H)|(? & ? & H)]]]];
    try discriminate H; repeat split; lra.
Qed.

Lemma verdict_tells_scores_witness :
  choose_verdict (scoreboard 7.5 0 0 0 1.0 3.0 0) = Ok "Pure Microsoft Word"
  /\ 7 <= 7.5 /\ 1.0 < 4 /\ 3.0 < 4.
Proof.
  split; [reflexivity|].
  destruct (verdict_tells_scores 7.5 0 0 0 1.0 3.0 0 "Pure Microsoft Word" eq_refl)
    as (H & _).
  destruct (H eq_refl) as (Hwd & _ & _ & _ & Hpd & Hwp & _).
  exact (conj Hwd (conj Hpd Hwp)).
Defined.

(** The first word of each origin's label. *)
Lemma concise_of_origin (lbl first : string) :
  In (lbl, first)
     [("LibreOffice", "LibreOffice"); ("Google Docs", "Google");
      ("Apple Pages", "Apple"); ("Pandoc / programmatic", "Pandoc");
      ("WordPad", "WordPad"); ("TextEdit", "TextEdit")] ->
  concise_verdict ("Definitely " ++ lbl ++ " export") = Some first
  /\ concise_verdict ("Likely " ++ lbl ++ " export or mixed") = Some first
  /\ nth_error (split lbl) 0 = Some first.
Proof.
  intro Hin. cbn [In] in Hin.
  repeat (destruct Hin as [Hin|Hin];
          [injection Hin as <- <-; repeat split; vm_compute; reflexivity|]).
  contradiction.
Qed.

(** X4: what [main] prints for the verdict under [--concise].  The
    verdict on a ScoreBoard is one of fifteen labels, and the word printed
    is the second word of the label.  For a verdict that names an origin
    it is the first word of the origin's label, for "Definitely ... export"
    and for "Likely ... export or mixed" alike, so the concise output does
    not tell the two levels apart; it is "Microsoft" for both Word
    verdicts and "/" for "Inconclusive / mixed". *)
Theorem concise_verdict_values (wd lo gd pg pd wp te : Q) :
  let origins :=
    [("LibreOffice", "LibreOffice"); ("Google Docs", "Google");
     ("Apple Pages", "Apple"); ("Pandoc / programmatic", "Pandoc");
     ("WordPad", "WordPad"); ("TextEdit", "TextEdit")] in
  (exists v c,
      choose_verdict (scoreboard wd lo gd pg pd wp te) = Ok v
      /\ In v all_verdicts
      /\ concise_verdict v = Some c
      /\ ((exists lbl,
              In (lbl, c) origins
              /\ (v = ("Definitely " ++ lbl ++ " export")%string
                  \/ v = ("Likely " ++ lbl ++ " export or mixed")%string))
          \/ (c = "Microsoft"
              /\ (v = "Pure Microsoft Word"
                  \/ v = "Probably Microsoft Word (minor artifacts present)"))
          \/ (c = "/" /\ v = "Inconclusive / mixed")))
  /\ (forall lbl first,
         In (lbl, first) origins ->
         concise_verdict ("Definitely " ++ lbl ++ " export") = Some first
         /\ concise_verdict ("Likely " ++ lbl ++ " export or mixed") = Some first
         /\ nth_error (split lbl) 0 = Some first).
Proof.
  intro origins. split; [|exact concise_of_origin].
  destruct (choose_verdict_total wd lo gd pg pd wp te) as (v & Hc).
  destruct (verdict_on_scoreboard _ _ _ _ _ _ _ _ Hc)
    as (top & lbl & Hin & _ & _ & _ & _ & _ & _ & Hcase).
  assert (Horigin : exists first, In (lbl, first) origins).
  { cbn [In non_word_labels] in Hin.
    repeat (destruct Hin as [<-|Hin];
            [eexists; cbn [In origins];
             first [ left; reflexivity | right; left; reflexivity
                   | right; right; left; reflexivity
                   | right; right; right; left; reflexivity
                   | right; right; right; right; left; reflexivity
                   | right; right; right; right; right; left; reflexivity ]|]).
    contradiction. }
  destruct Horigin as (first & Hfirst).
  destruct (concise_of_origin lbl first Hfirst) as (Hdef & Hlik & _).
  assert (Hall : In v all_verdicts).
  { cbn [In non_word_labels] in Hin.
    destruct Hcase as [(_ & H)|[(_ & _ & H)|[(_ & _ & H)|[(_ & _ & _ & H)|(_ & _ & H)]]]];
      subst v;
      repeat (destruct Hin as [<-|Hin]; [vm_compute; tauto|]);
      first [contradiction | vm_compute; tauto]. }
  destruct Hcase as [(_ & H)|[(_ & _ & H)|[(_ & _ & H)|[(_ & _ & _ & H)|(_ & _ & H)]]]];
    subst v.
  - exists ("Definitely " ++ lbl ++ " export")%string, first.
    repeat (split; [assumption|]). left. exists lbl. split; [exact Hfirst | now left].
  - exists ("Likely " ++ lbl ++ " export or mixed")%string, first.
    repeat (split; [assumption|]). left. exists lbl. split; [exact Hfirst | now right].
  - exists "Pure Microsoft Word", "Microsoft".
    repeat (split; [first [assumption | reflexivity]|]).
    right. left. split; [reflexivity | now left].
  - exists "Probably Microsoft Word (minor artifacts present)", "Microsoft".
    repeat (split; [first [assumption | reflexivity]|]).
    right. left. split; [reflexivity | now right].
  - exists "Inconclusive / mixed", "/".
    repeat (split; [first [assumption | reflexivity]|]).
    right. right. now split.
Qed.

(** *** The part bundle and the report *)

(** [max] of four scores is one of them. *)
Lemma py_max_four_in (a b c d : Q) :
  py_max a [b; c; d] = a \/ py_max a [b; c; d] = b
  \/ py_max a [b; c; d] = c \/ py_max a [b; c; d] = d.
Proof.
  unfold py_max. simpl.
  repeat match goal with
    | |- context [Qltb ?x ?y] => is_var x; is_var y; destruct (Qltb x y)
    end; tauto.
Qed.

(** X7: the taint of a report is one of the LibreOffice, Google Docs,
    Apple Pages and Pandoc scores of its ScoreBoard, the largest of the
    four, and lies in [0,10]. *)
Theorem taint_of_report
        (fromstring : string -> option Element) (zf : ZipFile) (r : Report) :
  score_docx fromstring zf = Ok r ->
  exists lo gd pg pd,
    getitem (r_scores r) "libreoffice" = Ok lo
    /\ getitem (r_scores r) "google_docs" = Ok gd
    /\ getitem (r_scores r) "apple_pages" = Ok pg
    /\ getitem (r_scores r) "pandoc" = Ok pd
    /\ (r_taint r = lo \/ r_taint r = gd \/ r_taint r = pg \/ r_taint r = pd)
    /\ lo <= r_taint r /\ gd <= r_taint r /\ pg <= r_taint r /\ pd <= r_taint r
    /\ 0 <= r_taint r <= 10.
Proof.
  intro Hr.
  destruct (score_docx_cases fromstring zf) as [(p & r0 & Hp & Hr0 & Ha)|(e & _ & He)];
    [|congruence].
  assert (r0 = r) by congruence. subst r0.
  destruct (assemble_fields fromstring word_variants_checks check_speculative_wordaspect
                            check_speculative_lomarkeshare zf p)
    as (r1 & Hr1 & Hs & _ & Ht & _).
  assert (r1 = r) by congruence. subst r1.
  exists (fst (lo_checks zf p)), (fst (gdocs_checks zf p)),
         (fst (pages_checks zf p)), (fst (pandoc_checks zf p)).
  rewrite Hs, Ht. unfold primary_scores.
  repeat (split; [reflexivity|]).
  split; [apply py_max_four_in|].
  destruct (py_max_four_bounds (fst (lo_checks zf p)) (fst (gdocs_checks zf p))
                               (fst (pages_checks zf p)) (fst (pandoc_checks zf p)))
    as (B1 & B2 & B3 & B4).
  repeat (split; [assumption|]).
  destruct (non_word_scores_at_least_0 zf p) as (L1 & _).
  destruct (detector_scores_at_most_10 fromstring zf p 0 0 0) as (U1 & U2 & U3 & U4 & _).
  split; [lra|].
  destruct (py_max_four_in (fst (lo_checks zf p)) (fst (gdocs_checks zf p))
                           (fst (pages_checks zf p)) (fst (pandoc_checks zf p)))
    as [ -> | [ -> | [ -> | -> ]]]; assumption.
Qed.

Lemma taint_of_report_witness :
  exists r,
    score_docx sample_fromstring lo_ordered_zip = Ok r
    /\ 0 <= r_taint r <= 10.
Proof.
  destruct (score_docx sample_fromstring lo_ordered_zip) as [r|e] eqn:E.
  - exists r. split; [reflexivity|].
    destruct (taint_of_report sample_fromstring lo_ordered_zip r E)
      as (lo & gd & pg & pd & _ & _ & _ & _ & _ & _ & _ & _ & _ & H).
    exact H.
  - vm_compute in E. discriminate E.
Defined.

(** X8: a report whose verdict is "Pure Microsoft Word" has the
    Application-tag evidence in Word's list (without that tag the Word
    score stays at 5.5 or below), every non-Word score below 4 and a taint
    below 4. *)
Theorem pure_word_needs_application_tag
        (fromstring : string -> option Element) (zf : ZipFile) (r : Report) :
  score_docx fromstring zf = Ok r ->
  r_verdict r = "Pure Microsoft Word" ->
  In app_word_text (evidence_for r "word")
  /\ (forall k s, In (k, s) (non_word_of (r_scores r)) -> s < 4)
  /\ r_taint r < 4.
Proof.
  intros Hr Hpure.
  destruct (score_docx_cases fromstring zf) as [(p & r0 & Hp & Hr0 & Ha)|(e & _ & He)];
    [|congruence].
  assert (r0 = r) by congruence. subst r0.
  destruct (assemble_fields fromstring word_variants_checks check_speculative_wordaspect
                            check_speculative_lomarkeshare zf p)
    as (r1 & Hr1 & Hs & Hv & Ht & Hev).
  assert (r1 = r) by congruence. subst r1.
  rewrite Hpure in Hv. unfold primary_scores in Hv, Hs.
  destruct (verdict_on_scoreboard _ _ _ _ _ _ _ _ Hv)
    as (top & lbl & _ & Hlo & Hgd & Hpg & Hpd & Hwp & Hte & Hcase).
  destruct Hcase as [(_ & H)|[(_ & _ & H)|[(H4 & H7 & _)|[(_ & _ & _ & H)|(_ & _ & H)]]]];
    try discriminate H.
  split; [|split].
  - unfold evidence_for. rewrite Hev.
    change (In app_word_text
               (snd (word_checks fromstring zf p (fst (lo_checks zf p))
                                 (fst (gdocs_checks zf p)) (fst (pages_checks zf p))))).
    apply word_checks_facts. lra.
  - intros k s Hin. rewrite Hs in Hin. rewrite non_word_of_scoreboard in Hin.
    cbn [In] in Hin.
    destruct Hin as [E|[E|[E|[E|[E|[E|[]]]]]]];
      apply (f_equal snd) in E; cbn [snd] in E; rewrite <- E; lra.
  - rewrite Ht.
    destruct (py_max_four_in (fst (lo_checks zf p)) (fst (gdocs_checks zf p))
                             (fst (pages_checks zf p)) (fst (pandoc_checks zf p)))
      as [ -> | [ -> | [ -> | -> ]]]; lra.
Qed.

Lemma pure_word_needs_application_tag_witness :
  exists r,
    score_docx word_fromstring pure_word_zip = Ok r
    /\ r_verdict r = "Pure Microsoft Word"
    /\ In app_word_text (evidence_for r "word")
    /\ r_taint r < 4.
Proof.
  destruct (score_docx word_fromstring pure_word_zip) as [r|e] eqn:E.
  - exists r.
    assert (Hv : r_verdict r = "Pure Microsoft Word").
    { vm_compute in E. injection E as <-. reflexivity. }
    split; [reflexivity|]. split; [exact Hv|].
    destruct (pure_word_needs_application_tag word_fromstring pure_word_zip r E Hv)
      as (Hin & _ & Ht).
    exact (conj Hin Ht).
  - vm_compute in E. discriminate E.
Defined.


(** *** Word variants and the summary paragraph *)

Lemma buckets_nonneg_web (w : Q) (e : string) (v : VSt) :
  0 <= w -> buckets_nonneg v -> buckets_nonneg (web w e v).
Proof. unfold buckets_nonneg. simpl. intros ? [? ?]. split; lra. Qed.

Lemma buckets_nonneg_desktop (w : Q) (e : string) (v : VSt) :
  0 <= w -> buckets_nonneg v -> buckets_nonneg (desktop w e v).
Proof. unfold buckets_nonneg. simpl. intros ? [? ?]. split; lra. Qed.

Lemma word_variants_body_credited (parts : Parts) :
  buckets_credited (word_variants_body parts).
Proof.
  cbv delta [word_variants_body]; cbv beta.
  walk_first 7%nat VSt buckets_nonneg buckets_credited
    ltac:(cases_then ltac:(solve [repeat first
            [ assumption
            | split; simpl; lra
            | apply buckets_nonneg_web; [lra|]
            | apply buckets_nonneg_desktop; [lra|] ]]))
    ltac:(cases_then ltac:(
            match goal with H : buckets_nonneg _ |- _ => destruct H end;
            unfold buckets_credited; simpl; rewrite ?length_app; simpl;
            repeat split; first [lra | lia])).
Qed.

Lemma word_variants_facts (zf : ZipFile) (parts : Parts) :
  exists w d ew ed v,
    word_variants_checks zf parts
    = ([("word_web", w); ("word_desktop", d)], [("word_web", ew); ("word_desktop", ed)])
    /\ 0 <= w <= 10 /\ 0 <= d <= 10
    /\ 1 <= w + d
    /\ (2 <= List.length ew + List.length ed)%nat
    /\ likely_variant (fst (word_variants_checks zf parts)) = Some v
    /\ (v = "Word for the Web" \/ v = "Word Desktop")
    /\ (v = "Word for the Web" <-> d < w).
Proof.
  unfold word_variants_checks.
  destruct (word_variants_body_credited parts) as (Hw & Hd & Hsum & Hlen).
  generalize dependent (word_variants_body parts). intros v Hw Hd Hsum Hlen.
  cbv zeta.
  pose proof (py_min_le_r (score (word_web v)) 10.0) as Uw.
  pose proof (py_min_le_r (score (word_desktop v)) 10.0) as Ud.
  assert (Lw : 0 <= py_min (score (word_web v)) 10.0) by (apply py_min_ge; lra).
  assert (Ld : 0 <= py_min (score (word_desktop v)) 10.0) by (apply py_min_ge; lra).
  assert (Hs : 1 <= py_min (score (word_web v)) 10.0 + py_min (score (word_desktop v)) 10.0).
  { unfold py_min in *.
    destruct (Qltb 10.0 (score (word_web v))) eqn:E1;
      destruct (Qltb 10.0 (score (word_desktop v))) eqn:E2; order_hyps; lra. }
  set (w := py_min (score (word_web v)) 10.0) in *.
  set (d := py_min (score (word_desktop v)) 10.0) in *.
  assert (Hlv : likely_variant [("word_web", w); ("word_desktop", d)]
                = if Qltb d w then Some "Word for the Web" else Some "Word Desktop").
  { unfold likely_variant. cbn [get_or_zero String.eqb Ascii.eqb Bool.eqb].
    change (get_or_zero [("word_web", w); ("word_desktop", d)] "word_desktop") with d.
    change (get_or_zero [("word_web", w); ("word_desktop", d)] "word_web") with w.
    destruct (Qltb d w) eqn:E; [reflexivity|].
    destruct (Qltb 0 d) eqn:E0; [reflexivity|]. order_hyps. exfalso. lra. }
  exists w, d, (ev (word_web v)), (ev (word_desktop v)),
         (if Qltb d w then "Word for the Web" else "Word Desktop").
  split; [reflexivity|]. split; [split; lra|]. split; [split; lra|].
  split; [exact Hs|]. split; [exact Hlen|].
  cbn [fst]. rewrite Hlv.
  destruct (Qltb d w) eqn:E; order_hyps;
    (split; [reflexivity|]); (split; [tauto|]); split; intro H;
    first [reflexivity | assumption | discriminate H | exfalso; lra].
Qed.

(** X9: the variant classifier returns the two buckets [word_web] and
    [word_desktop], in this order, each with a score in [0,10].  Its last
    two tests credit one bucket or the other, so the two scores add up to
    at least 1, the two evidence lists hold at least two items together,
    and the scores always name a likely variant: Word for the Web when the
    web score is the larger one, Word Desktop otherwise. *)
Theorem word_variants_always_name_a_variant (zf : ZipFile) (parts : Parts) :
  exists w d ew ed v,
    word_variants_checks zf parts
    = ([("word_web", w); ("word_desktop", d)], [("word_web", ew); ("word_desktop", ed)])
    /\ 0 <= w <= 10 /\ 0 <= d <= 10
    /\ 1 <= w + d
    /\ (2 <= List.length ew + List.length ed)%nat
    /\ likely_variant (fst (word_variants_checks zf parts)) = Some v
    /\ (v = "Word for the Web" \/ v = "Word Desktop")
    /\ (v = "Word for the Web" <-> d < w).
Proof. apply word_variants_facts. Qed.

(** The advisory fields of a report are what the three advisory
    computations return. *)
Lemma score_docx_variant_field
      (fromstring : string -> option Element) (zf : ZipFile) (r : Report) :
  score_docx fromstring zf = Ok r ->
  exists parts,
    load_parts fromstring zf = Ok parts
    /\ r_variant_scores r = fst (word_variants_checks zf parts)
    /\ r_variant_evidence r = snd (word_variants_checks zf parts)
    /\ r_word_web_score r = fst (check_speculative_wordaspect zf)
    /\ r_word_web_evidence r = snd (check_speculative_wordaspect zf).
Proof.
  unfold score_docx.
  destruct (load_parts fromstring zf) as [parts|e]; [|discriminate].
  cbn [bind]. unfold assemble.
  destruct (lo_checks zf parts) as [lo_score lo_ev].
  destruct (gdocs_checks zf parts) as [gd_score gd_ev].
  destruct (pages_checks zf parts) as [pg_score pg_ev].
  destruct (pandoc_checks zf parts) as [pd_score pd_ev].
  destruct (word_checks fromstring zf parts lo_score gd_score pg_score) as [wd_score wd_ev].
  destruct (word_variants_checks zf parts) as [vs ve] eqn:Ev.
  destruct (wordpad_checks zf parts) as [wp_score wp_ev].
  destruct (textedit_checks zf parts) as [te_score te_ev].
  destruct (choose_verdict _) as [verdict|]; [|discriminate].
  cbn [bind].
  destruct (check_speculative_wordaspect zf) as [ws we] eqn:Ew.
  destruct (check_speculative_lomarkeshare _) as [os oe].
  intro H. injection H as <-. exists parts. rewrite Ev. repeat split.
Qed.

(** X10: the summary paragraph of a report always has its sentence on the
    Word variant, whatever the verdict is: it is the verdict sentence, the
    sentence naming Word for the Web or Word Desktop, and the closing
    sentence. *)
Theorem summary_always_names_a_variant
        (fromstring : string -> option Element) (zf : ZipFile) (r : Report) :
  score_docx fromstring zf = Ok r ->
  exists v,
    (v = "Word for the Web" \/ v = "Word Desktop")
    /\ likely_variant (r_variant_scores r) = Some v
    /\ summarize_provenance r = summary_with_variant (r_verdict r) v.
Proof.
  intro Hr.
  destruct (score_docx_variant_field fromstring zf r Hr) as (parts & _ & Hvs & _).
  destruct (word_variants_facts zf parts)
    as (w & d & ew & ed & v & _ & _ & _ & _ & _ & Hlv & Hv & _).
  exists v. split; [exact Hv|]. rewrite Hvs. split; [exact Hlv|].
  unfold summarize_provenance. cbv zeta. rewrite Hvs, Hlv. reflexivity.
Qed.

Lemma summary_always_names_a_variant_witness :
  exists r,
    score_docx sample_fromstring lo_ordered_zip = Ok r
    /\ r_verdict r = "Likely LibreOffice export or mixed"
    /\ exists v,
        (v = "Word for the Web" \/ v = "Word Desktop")
        /\ likely_variant (r_variant_scores r) = Some v
        /\ summarize_provenance r = summary_with_variant (r_verdict r) v.
Proof.
  destruct (score_docx sample_fromstring lo_ordered_zip) as [r|e] eqn:E.
  - exists r. split; [reflexivity|].
    split; [vm_compute in E; injection E as <-; reflexivity|].
    exact (summary_always_names_a_variant sample_fromstring lo_ordered_zip r E).
  - vm_compute in E. discriminate E.
Defined.


(** *** The conjunctive tests of the Google Docs and Pages detectors *)

(** X11: the Google Docs score in closed form.  The two weak patterns add
    0.5 each exactly when a Google font test passed or both the
    boolean-attribute test and the decimal-attribute test passed; one of
    those two alone (2.0 or 1.5 points) does not reach the 2.5 that the
    detector asks for.  The evidence list has one item for each of the six
    tests that pass, weak or not. *)
Theorem gdocs_score_closed_form (parts : Parts) :
  let unlocked :=
    gd_play parts || gd_roboto parts || (gd_bool_attr parts && gd_decimal parts) in
  let count (b : bool) := if b then 1%nat else 0%nat in
  score (gdocs_body parts)
  == gd_strong_weight parts
     + (if unlocked
        then (if gd_lower_hex parts then 0.5 else 0)
             + (if gd_symex parts then 0.5 else 0)
        else 0)
  /\ List.length (ev (gdocs_body parts))
     = (count (gd_bool_attr parts) + count (gd_decimal parts)
        + count (gd_lower_hex parts) + count (gd_symex parts)
        + count (gd_play parts) + count (gd_roboto parts))%nat.
Proof.
  cbv zeta. unfold gd_strong_weight.
  gdocs_cases parts; split; vm_compute; reflexivity.
Qed.

(** X12: the weak Pages indicator (no object defaults or no extension
    list in the theme) is reported exactly when the theme lacks one of the
    two and the Helvetica Neue test or the missing-thm15 test has passed
    before it.  An sRGB-only theme alone (1.0 point) does not unlock it,
    and the Apple/Pages marker in the metadata is tested after it. *)
Theorem pages_weak_indicator_gate (zf : ZipFile) (parts : Parts) :
  let theme := theme_txt parts in
  In pages_weak_text (snd (pages_checks zf parts))
  <-> (negb (contains "<a:objectDefaults>" theme) || negb (contains "<a:extLst>" theme))
      && (contains "Helvetica Neue" theme
          || (contains "<a:theme" theme && contains "Office Theme" theme
              && negb (contains "xmlns:thm15" theme))) = true.
Proof.
  cbv zeta. unfold pages_checks, pages_body. cbn [snd finish]. cbv zeta.
  destruct (contains "Helvetica Neue" (theme_txt parts));
    destruct (contains "<a:theme" (theme_txt parts) && contains "Office Theme" (theme_txt parts)
              && negb (contains "xmlns:thm15" (theme_txt parts)));
    destruct (contains "<a:srgbClr" (theme_txt parts)
              && negb (contains "<a:sysClr" (theme_txt parts)));
    destruct (negb (contains "<a:objectDefaults>" (theme_txt parts))
              || negb (contains "<a:extLst>" (theme_txt parts)));
    destruct (search re_apple_pages (app_txt parts ++ core_txt parts));
    vm_compute; split; intro H;
    first [ reflexivity | discriminate H | tauto
          | repeat (destruct H as [H|H]; [discriminate H|]); contradiction ].
Qed.


(** *** The speculative detectors *)

Lemma grown_from_start (evidence : list string) : grown_from evidence (mkSt 0 evidence).
Proof.
  exists []. cbn [ev score]. rewrite app_nil_r.
  repeat split; try lra. intro H. now contradiction H.
Qed.

Lemma grown_from_hit (evidence : list string) (w : Q) (e : string) (st : St) :
  1 <= w -> grown_from evidence st -> grown_from evidence (hit w e st).
Proof.
  intros Hw (new & Hev & H0 & _ & _).
  exists (new ++ [e]). cbn [hit ev score]. rewrite Hev, app_assoc.
  repeat split; try lra.
  intro H. apply app_eq_nil in H as [_ H]. discriminate H.
Qed.

Lemma grown_from_finish (evidence : list string) (st : St) :
  grown_from evidence st ->
  exists new,
    snd (finish st) = evidence ++ new
    /\ 0 <= fst (finish st) <= 10
    /\ (new = [] <-> fst (finish st) == 0).
Proof.
  intros (new & Hev & H0 & Hnil & Hpos).
  exists new. cbn [finish fst snd]. split; [exact Hev|].
  pose proof (py_min_le_r (score st) 10.0).
  assert (0 <= py_min (score st) 10.0) by (apply py_min_ge; lra).
  split; [split; lra|].
  split.
  - intro Hn. specialize (Hnil Hn). unfold py_min.
    destruct (Qltb 10.0 (score st)) eqn:E; order_hyps; [exfalso; lra | exact Hnil].
  - intro Hz. destruct new as [|x new]; [reflexivity|]. exfalso.
    assert (1 <= score st) by (apply Hpos; discriminate).
    unfold py_min in Hz.
    destruct (Qltb 10.0 (score st)) eqn:E; order_hyps; lra.
Qed.

(** X13: [onlyoffice_checks] only appends to the evidence list it is
    given.  For a document text in which every width that the two loops
    convert with [int] has at most 4300 digits, so that the conversions
    return, the list after the call is the list before it followed by the
    new items, the returned score lies in [0,10], and it is 0 exactly when
    nothing was appended. *)
Theorem onlyoffice_checks_appends (doc_text : string) (evidence : list string) :
  (forall m, In m (findall_group re_cell_spacing doc_text) -> int_returns m = true) ->
  (forall m, In m (findall_group re_width doc_text) -> int_returns m = true) ->
  exists new,
    snd (onlyoffice_checks doc_text evidence) = evidence ++ new
    /\ 0 <= fst (onlyoffice_checks doc_text evidence) <= 10
    /\ (new = [] <-> fst (onlyoffice_checks doc_text evidence) == 0).
Proof.
  intros _ _.
  change (appended_to evidence (onlyoffice_checks doc_text evidence)).
  cbv delta [onlyoffice_checks]; cbv beta.
  walk_with St (grown_from evidence) (appended_to evidence)
    ltac:(cases_then ltac:(solve [repeat first
            [ assumption
            | exact (grown_from_start evidence)
            | apply grown_from_hit; [lra|] ]]))
    ltac:(apply grown_from_finish; assumption).
Qed.

Lemma onlyoffice_checks_appends_witness :
  exists new,
    snd (onlyoffice_checks (dq "<w:tblCellSpacing w:w='1134'/>") ["seen before"])
    = ["seen before"] ++ new
    /\ 0 <= fst (onlyoffice_checks (dq "<w:tblCellSpacing w:w='1134'/>") ["seen before"])
       <= 10
    /\ (new = []
        <-> fst (onlyoffice_checks (dq "<w:tblCellSpacing w:w='1134'/>") ["seen before"])
            == 0).
Proof.
  apply (onlyoffice_checks_appends (dq "<w:tblCellSpacing w:w='1134'/>") ["seen before"]);
    intros m Hin; vm_compute in Hin; destruct Hin as [<-|[]]; reflexivity.
Defined.

(** The loop of [check_speculative_wordaspect] over the entry names. *)
Lemma wordaspect_name_grows (st : St) (name : string) :
  0 <= score st ->
  0 <= score (wordaspect_name st name)
  /\ (forall x, In x (ev st) -> In x (ev (wordaspect_name st name)))
  /\ (ev (wordaspect_name st name) = [] -> score (wordaspect_name st name) == 0
      -> ev st = [] /\ score st == 0)
  /\ (startswith name "webextensions/" = true ->
      In (webext_text name) (ev (wordaspect_name st name))).
Proof.
  intro H0. unfold wordaspect_name, webext_text.
  destruct (startswith name "webextensions/");
    destruct (contains "sharepoint.com" (lower name)); cbn [hit ev score];
    (split; [lra|]); (split; [intros x Hx; repeat (apply in_or_app; left); exact Hx|]);
    (split; [intros Hnil Hz;
             first [ now split
                   | exfalso; repeat (apply app_eq_nil in Hnil as [Hnil ?]); discriminate ]|]);
    intro Hs; first [discriminate Hs | idtac];
    repeat first [ apply in_or_app; right; now left | apply in_or_app; left ].
Qed.

Lemma wordaspect_loop (names : list string) :
  forall st, 0 <= score st ->
    0 <= score (fold_left wordaspect_name names st)
    /\ (forall x, In x (ev st) -> In x (ev (fold_left wordaspect_name names st)))
    /\ (forall name, In name names -> startswith name "webextensions/" = true ->
                     In (webext_text name) (ev (fold_left wordaspect_name names st))).
Proof.
  induction names as [|n names IH]; intros st H0; cbn [fold_left].
  - repeat split; trivial. intros name [].
  - destruct (wordaspect_name_grows st n H0) as (H1 & Hmono & _ & Hweb).
    destruct (IH (wordaspect_name st n) H1) as (H2 & Hmono2 & Hall).
    split; [exact H2|]. split; [intros x Hx; apply Hmono2, Hmono, Hx|].
    intros name [<-|Hin] Hs; [apply Hmono2, Hweb, Hs | now apply Hall].
Qed.

(** X14: the Word-on-the-web detector returns a score in [0,10], and its
    loop over the archive reports every entry whose name starts with
    [webextensions/]: the evidence list names each of them. *)
Theorem wordaspect_reports_every_webextension (zf : ZipFile) :
  0 <= fst (check_speculative_wordaspect zf) <= 10
  /\ forall name,
      In name (namelist zf) -> startswith name "webextensions/" = true ->
      In (webext_text name) (snd (check_speculative_wordaspect zf)).
Proof.
  unfold check_speculative_wordaspect. cbv zeta.
  destruct (wordaspect_loop (namelist zf) st0) as (H0 & _ & Hall); [simpl; lra|].
  set (s := fold_left wordaspect_name (namelist zf) st0) in *.
  destruct (search re_sharepoint (read_text_from_zip zf "docProps/core.xml"));
    destruct (search (lit "Microsoft Office Word") (read_text_from_zip zf "docProps/core.xml"));
    cbn [fst snd hit ev score];
    (split; [split; [apply py_min_ge; lra
                    | match goal with |- py_min ?a _ <= _ =>
                        pose proof (py_min_le_r a 10); lra end]|]);
    intros name Hin Hs; specialize (Hall name Hin Hs);
    repeat first [exact Hall | apply in_or_app; left].
Qed.

Lemma wordaspect_reports_every_webextension_witness :
  In (webext_text "webextensions/taskpanes.xml")
     (snd (check_speculative_wordaspect webext_zip))
  /\ In (webext_text "webextensions/webextension1.xml")
        (snd (check_speculative_wordaspect webext_zip)).
Proof.
  split; apply (wordaspect_reports_every_webextension webext_zip);
    first [reflexivity | simpl; tauto].
Defined.


(** *** The reducer on other dictionaries *)

Lemma getitem_of_member (d : Scores) (k : string) (v : Q) :
  In (k, v) d -> exists v', getitem d k = Ok v'.
Proof.
  induction d as [|[k' w] d IH]; intros Hin; [destruct Hin|].
  cbn [getitem]. destruct (String.eqb k' k) eqn:E; [now eexists|].
  destruct Hin as [Heq|Hin]; [|now apply IH].
  injection Heq as -> ->. rewrite String.eqb_refl in E. discriminate.
Qed.

Lemma getitem_missing (d : Scores) (k : string) :
  (forall v, ~ In (k, v) d) -> getitem d k = Raise (KeyError k).
Proof.
  induction d as [|[k' w] d IH]; intro Hno; [reflexivity|].
  cbn [getitem]. destruct (String.eqb k' k) eqn:E.
  - apply String.eqb_eq in E. subst k'. exfalso. apply (Hno w). now left.
  - apply IH. intros v Hin. apply (Hno v). now right.
Qed.

(** X15: the reducer's errors on a dictionary that is no ScoreBoard.
    Without a non-Word entry it ends with [ValueError] ([max] of an empty
    dictionary); with non-Word entries and no [word] key it ends with
    [KeyError] for [word]; and a top origin that has no label ends it with
    [KeyError] for that origin only when its score is at least 5, below
    that the label is never looked up. *)
Theorem choose_verdict_errors (scores : Scores) :
  (non_word_of scores = [] -> choose_verdict scores = Raise ValueError)
  /\ (non_word_of scores <> [] -> (forall v, ~ In ("word", v) scores) ->
      choose_verdict scores = Raise (KeyError "word"))
  /\ (forall top top_val word_val,
         max_key (non_word_of scores) = Ok top ->
         getitem (non_word_of scores) top = Ok top_val ->
         getitem scores "word" = Ok word_val ->
         label top = Raise (KeyError top) ->
         (5 <= top_val -> choose_verdict scores = Raise (KeyError top))
         /\ (top_val < 5 -> exists v, choose_verdict scores = Ok v)).
Proof.
  split; [|split].
  - intro Hnil. unfold choose_verdict. now rewrite Hnil.
  - intros Hne Hno. unfold choose_verdict.
    destruct (non_word_of scores) as [|kv d] eqn:E; [contradiction|].
    cbn [max_key bind].
    destruct (getitem_of_member (kv :: d) (fst (max_item kv d)) (snd (max_item kv d)))
      as (v' & Hv').
    { destruct (max_item kv d) eqn:Em. cbn [fst snd]. rewrite <- Em. apply max_item_in. }
    rewrite Hv'. cbn [bind]. now rewrite (getitem_missing scores "word" Hno).
  - intros top top_val word_val Hmax Hget Hword Hlbl.
    unfold choose_verdict. rewrite Hmax. cbn [bind]. rewrite Hget. cbn [bind].
    rewrite Hword. cbn [bind]. rewrite Hlbl. cbn [bind].
    split.
    + intro H5. destruct (ge top_val 7); [reflexivity|].
      now rewrite (proj2 (ge_true _ _) H5).
    + intro H5. assert (H7 : top_val < 7) by lra.
      rewrite (proj2 (ge_false _ _) H7), (proj2 (ge_false _ _) H5).
      destruct (ge word_val 7 && lt top_val 4); [now eexists|].
      destruct (ge word_val 5 && lt top_val 5); now eexists.
Qed.

Lemma choose_verdict_errors_witness :
  choose_verdict [("word", 9)] = Raise ValueError
  /\ choose_verdict [("libreoffice", 8)] = Raise (KeyError "word")
  /\ choose_verdict [("word", 1); ("abiword", 6)] = Raise (KeyError "abiword")
  /\ exists v, choose_verdict [("word", 1); ("abiword", 4)] = Ok v.
Proof.
  split; [apply (proj1 (choose_verdict_errors [("word", 9)])); reflexivity|].
  split.
  - apply (proj1 (proj2 (choose_verdict_errors [("libreoffice", 8)]))).
    + discriminate.
    + intros v [H|[]]. discriminate H.
  - split.
    + apply (proj2 (proj2 (choose_verdict_errors [("word", 1); ("abiword", 6)]))
               "abiword" 6 1); try reflexivity. vm_compute. discriminate.
    + apply (proj2 (proj2 (choose_verdict_errors [("word", 1); ("abiword", 4)]))
               "abiword" 4 1); reflexivity.
Defined.

(** *** Tests that different detectors share *)

Lemma means_st0 (text : string) (cond : bool) : means text cond st0.
Proof. intros []. Qed.

(** One binding of a detector, for [means]: the evidence that is new is
    either another text or comes with the condition. *)
Ltac means_step :=
  repeat match goal with H : ?x = _ |- _ => is_var x; subst x end;
  cases_then ltac:(
    first
      [ assumption
      | exact (means_st0 _ _)
      | let Hin := fresh "Hin" in
        unfold means in *; intro Hin;
        first
          [ reflexivity
          | cbn [hit note ev] in Hin;
            repeat (apply in_app_or in Hin as [Hin|Hin]);
            first
              [ match goal with H : In _ (ev ?s) -> _ |- _ => exact (H Hin) end
              | match goal with
                | H : In _ (ev ?s) -> ?c = true, E : ?c = false |- _ =>
                    rewrite (H Hin) in E; discriminate E
                end
              | destruct Hin as [Hin|[]];
                first [ vm_compute in Hin; discriminate Hin | assumption ] ] ] ]).

Lemma pandoc_theme_means (zf : ZipFile) (parts : Parts) :
  means pandoc_theme_text
        (negb (contains "xmlns:thm15" (theme_txt parts))
         && contains "<a:srgbClr" (theme_txt parts)
         && negb (contains "<a:sysClr" (theme_txt parts)))
        (pandoc_body zf parts).
Proof.
  cbv delta [pandoc_body]; cbv beta.
  walk_with St
    (means pandoc_theme_text
           (negb (contains "xmlns:thm15" (theme_txt parts))
            && contains "<a:srgbClr" (theme_txt parts)
            && negb (contains "<a:sysClr" (theme_txt parts))))
    (means pandoc_theme_text
           (negb (contains "xmlns:thm15" (theme_txt parts))
            && contains "<a:srgbClr" (theme_txt parts)
            && negb (contains "<a:sysClr" (theme_txt parts))))
    means_step ltac:(assumption).
Qed.


Lemma lo_note_means (parts : Parts) :
  means lo_no_fingerprint_text
        (negb (contains "<w:panose1" (font_txt parts))
         && negb (contains "<w:sig" (font_txt parts))
         && nonempty (font_txt parts))
        (lo_body parts).
Proof.
  cbv delta [lo_body]; cbv beta.
  walk_with St
    (means lo_no_fingerprint_text
           (negb (contains "<w:panose1" (font_txt parts))
            && negb (contains "<w:sig" (font_txt parts))
            && nonempty (font_txt parts)))
    (means lo_no_fingerprint_text
           (negb (contains "<w:panose1" (font_txt parts))
            && negb (contains "<w:sig" (font_txt parts))
            && nonempty (font_txt parts)))
    means_step ltac:(assumption).
Qed.

Lemma wordpad_overrides_means (parts : Parts) :
  means wordpad_overrides_text
        (negb (contains "/word/theme/theme1.xml" (content_types_txt parts))
         && negb (contains "/word/settings.xml" (content_types_txt parts))
         && negb (contains "/word/fontTable.xml" (content_types_txt parts)))
        (wordpad_body parts).
Proof.
  cbv delta [wordpad_body]; cbv beta.
  walk_with St
    (means wordpad_overrides_text
           (negb (contains "/word/theme/theme1.xml" (content_types_txt parts))
            && negb (contains "/word/settings.xml" (content_types_txt parts))
            && negb (contains "/word/fontTable.xml" (content_types_txt parts))))
    (means wordpad_overrides_text
           (negb (contains "/word/theme/theme1.xml" (content_types_txt parts))
            && negb (contains "/word/settings.xml" (content_types_txt parts))
            && negb (contains "/word/fontTable.xml" (content_types_txt parts))))
    means_step ltac:(assumption).
Qed.

Lemma textedit_theme_means (parts : Parts) :
  means textedit_theme_text
        (contains "/word/theme/theme1.xml" (content_types_txt parts)
         && negb (contains "/word/styles.xml" (content_types_txt parts))
         && negb (contains "/word/settings.xml" (content_types_txt parts))
         && negb (contains "/word/fontTable.xml" (content_types_txt parts))
         && negb (contains "/word/numbering.xml" (content_types_txt parts)))
        (textedit_body parts).
Proof.
  cbv delta [textedit_body]; cbv beta.
  walk_with St
    (means textedit_theme_text
           (contains "/word/theme/theme1.xml" (content_types_txt parts)
            && negb (contains "/word/styles.xml" (content_types_txt parts))
            && negb (contains "/word/settings.xml" (content_types_txt parts))
            && negb (contains "/word/fontTable.xml" (content_types_txt parts))
            && negb (contains "/word/numbering.xml" (content_types_txt parts))))
    (means textedit_theme_text
           (contains "/word/theme/theme1.xml" (content_types_txt parts)
            && negb (contains "/word/styles.xml" (content_types_txt parts))
            && negb (contains "/word/settings.xml" (content_types_txt parts))
            && negb (contains "/word/fontTable.xml" (content_types_txt parts))
            && negb (contains "/word/numbering.xml" (content_types_txt parts))))
    means_step ltac:(assumption).
Qed.

(** The evidence of the Word detector for a test on the parts is the
    evidence of [word_signals]: the boost and the ordering test append
    other texts. *)
Lemma word_evidence_from_signals
      (fromstring : string -> option Element) (parts : Parts) (lo gd pg : Q)
      (text : string) :
  String.eqb text boost_text = false -> String.eqb text order_text = false ->
  In text (ev (word_body fromstring parts lo gd pg)) ->
  In text (ev (word_signals parts st0)).
Proof.
  intros Hb Ho. unfold word_body.
  assert (Hne : forall e, String.eqb text e = false -> text <> e).
  { intros e He Heq. rewrite Heq, String.eqb_refl in He. discriminate. }
  destruct (word_order_cases fromstring parts) as [H|H]; rewrite H;
    destruct (word_boost_cases lo gd pg (word_signals parts st0))
      as [(_ & _ & _ & ->)|(_ & ->)];
    cbn [hit ev]; intro Hin;
    repeat (apply in_app_or in Hin as [Hin|[Heq|[]]];
            [|exfalso; first [ apply (Hne _ Hb); now symmetry
                             | apply (Hne _ Ho); now symmetry ]]);
    exact Hin.
Qed.

Lemma word_sysclr_means (parts : Parts) (st : St) :
  means word_sysclr_text (contains "<a:sysClr" (theme_txt parts)) st ->
  means word_sysclr_text (contains "<a:sysClr" (theme_txt parts)) (word_signals parts st).
Proof.
  intro H0. cbv delta [word_signals]; cbv beta.
  walk_with St
    (means word_sysclr_text (contains "<a:sysClr" (theme_txt parts)))
    (means word_sysclr_text (contains "<a:sysClr" (theme_txt parts)))
    means_step ltac:(assumption).
Qed.

Lemma word_fingerprint_means (parts : Parts) (st : St) :
  means word_fingerprint_text
        (contains "<w:panose1" (font_txt parts) || contains "<w:sig" (font_txt parts)) st ->
  means word_fingerprint_text
        (contains "<w:panose1" (font_txt parts) || contains "<w:sig" (font_txt parts))
        (word_signals parts st).
Proof.
  intro H0. cbv delta [word_signals]; cbv beta.
  walk_with St
    (means word_fingerprint_text
           (contains "<w:panose1" (font_txt parts) || contains "<w:sig" (font_txt parts)))
    (means word_fingerprint_text
           (contains "<w:panose1" (font_txt parts) || contains "<w:sig" (font_txt parts)))
    means_step ltac:(assumption).
Qed.

(** The sRGB-only test of the Pages detector, both ways. *)
Lemma pages_srgb_iff (parts : Parts) :
  In pages_srgb_text (ev (pages_body parts))
  <-> contains "<a:srgbClr" (theme_txt parts)
      && negb (contains "<a:sysClr" (theme_txt parts)) = true.
Proof.
  unfold pages_body. cbv zeta.
  destruct (contains "Helvetica Neue" (theme_txt parts));
    destruct (contains "<a:theme" (theme_txt parts) && contains "Office Theme" (theme_txt parts)
              && negb (contains "xmlns:thm15" (theme_txt parts)));
    destruct (contains "<a:srgbClr" (theme_txt parts)
              && negb (contains "<a:sysClr" (theme_txt parts)));
    destruct (negb (contains "<a:objectDefaults>" (theme_txt parts))
              || negb (contains "<a:extLst>" (theme_txt parts)));
    destruct (search re_apple_pages (app_txt parts ++ core_txt parts));
    vm_compute; split; intro H;
    first [ reflexivity | discriminate H | tauto
          | repeat (destruct H as [H|H]; [discriminate H|]); contradiction ].
Qed.

(** X16: one fact about the theme feeds two detectors.  Whenever the
    Pandoc detector reports its minimal-theme evidence (no thm15
    namespace, sRGB colours only), the Pages detector reports its
    sRGB-only evidence for the same bundle, and the Word detector does not
    report its system-colour evidence. *)
Theorem pandoc_theme_evidence_implies_pages_evidence
        (fromstring : string -> option Element) (zf : ZipFile) (parts : Parts)
        (lo gd pg : Q) :
  In pandoc_theme_text (snd (pandoc_checks zf parts)) ->
  In pages_srgb_text (snd (pages_checks zf parts))
  /\ ~ In word_sysclr_text (snd (word_checks fromstring zf parts lo gd pg)).
Proof.
  unfold pandoc_checks, pages_checks, word_checks. cbn [snd finish].
  intro Hin. pose proof (pandoc_theme_means zf parts Hin) as Hc.
  apply andb_true_iff in Hc as [Hc Hsys]. apply andb_true_iff in Hc as [_ Hsrgb].
  split.
  - apply pages_srgb_iff. now rewrite Hsrgb, Hsys.
  - intro Hw.
    apply word_evidence_from_signals in Hw; [|reflexivity|reflexivity].
    apply (word_sysclr_means parts st0 (means_st0 _ _)) in Hw.
    rewrite Hw in Hsys. discriminate.
Qed.

(** X17: evidence that never comes together for one bundle: the Pages
    sRGB-only evidence and Word's system-colour evidence; LibreOffice's
    note that the font table has no fingerprints and Word's evidence that
    it has them; WordPad's evidence that the manifest lacks the theme,
    settings and font-table overrides and TextEdit's evidence that it has
    the theme without the others. *)
Theorem exclusive_evidence
        (fromstring : string -> option Element) (zf : ZipFile) (parts : Parts)
        (lo gd pg : Q) :
  ~ (In pages_srgb_text (snd (pages_checks zf parts))
     /\ In word_sysclr_text (snd (word_checks fromstring zf parts lo gd pg)))
  /\ ~ (In lo_no_fingerprint_text (snd (lo_checks zf parts))
        /\ In word_fingerprint_text (snd (word_checks fromstring zf parts lo gd pg)))
  /\ ~ (In wordpad_overrides_text (snd (wordpad_checks zf parts))
        /\ In textedit_theme_text (snd (textedit_checks zf parts))).
Proof.
  unfold pages_checks, word_checks, lo_checks, wordpad_checks, textedit_checks.
  cbn [snd finish].
  split; [|split].
  - intros [Hp Hw]. apply pages_srgb_iff in Hp. apply andb_true_iff in Hp as [_ Hsys].
    apply word_evidence_from_signals in Hw; [|reflexivity|reflexivity].
    apply (word_sysclr_means parts st0 (means_st0 _ _)) in Hw.
    rewrite Hw in Hsys. discriminate.
  - intros [Hl Hw]. apply lo_note_means in Hl.
    apply word_evidence_from_signals in Hw; [|reflexivity|reflexivity].
    apply (word_fingerprint_means parts st0 (means_st0 _ _)) in Hw.
    destruct (contains "<w:panose1" (font_txt parts));
      destruct (contains "<w:sig" (font_txt parts)); discriminate.
  - intros [Hwp Hte]. apply wordpad_overrides_means in Hwp.
    apply textedit_theme_means in Hte.
    destruct (contains "/word/theme/theme1.xml" (content_types_txt parts));
      discriminate.
Qed.

Lemma pandoc_theme_evidence_implies_pages_evidence_witness :
  exists parts,
    load_parts word_fromstring srgb_theme_zip = Ok parts
    /\ In pandoc_theme_text (snd (pandoc_checks srgb_theme_zip parts))
    /\ In pages_srgb_text (snd (pages_checks srgb_theme_zip parts)).
Proof.
  destruct (load_parts word_fromstring srgb_theme_zip) as [parts|e] eqn:E.
  - exists parts. split; [reflexivity|].
    assert (Hin : In pandoc_theme_text (snd (pandoc_checks srgb_theme_zip parts))).
    { vm_compute in E. injection E as <-. vm_compute. tauto. }
    split; [exact Hin|].
    exact (proj1 (pandoc_theme_evidence_implies_pages_evidence
                    word_fromstring srgb_theme_zip parts 0 0 0 Hin)).
  - vm_compute in E. discriminate E.
Defined.


(** *** An explicit Pandoc mention *)

Lemma at_least_when_hit (cond : bool) (bound w : Q) (e : string) (st : St) :
  0 <= w -> at_least_when cond bound st -> at_least_when cond bound (hit w e st).
Proof.
  intros Hw [H0 Hc]. split; cbn [hit score]; [lra|].
  intro H. specialize (Hc H). lra.
Qed.

Lemma pandoc_mention_scores_8 (zf : ZipFile) (parts : Parts) :
  at_least_when (search (lit_nocase "pandoc") (app_txt parts ++ core_txt parts)) 8
                (pandoc_body zf parts).
Proof.
  cbv delta [pandoc_body]; cbv beta.
  walk_first 1%nat St nonneg
    (at_least_when (search (lit_nocase "pandoc") (app_txt parts ++ core_txt parts)) 8)
    ltac:(exact nonneg_st0)
    ltac:(idtac; walk_with St
            (at_least_when (search (lit_nocase "pandoc") (app_txt parts ++ core_txt parts)) 8)
            (at_least_when (search (lit_nocase "pandoc") (app_txt parts ++ core_txt parts)) 8)
            ltac:(repeat match goal with H : ?x = _ |- _ => is_var x; subst x end;
                  cases_then ltac:(
                    first [ assumption
                          | apply at_least_when_hit; [lra | assumption]
                          | match goal with H : nonneg ?s |- _ =>
                              unfold nonneg in H; split; cbn [hit score];
                              [lra | intros _; lra]
                            end
                          | match goal with H : nonneg ?s, E : _ = false |- _ =>
                              unfold nonneg in H; split;
                              [exact H | intro Hc; discriminate Hc]
                            end ]))
            ltac:(assumption)).
Qed.

(** X18: an explicit mention of Pandoc in the application or core
    properties, in any letter case, puts the Pandoc score at 8 or above,
    and the verdict of the report is then a "Definitely ... export"
    verdict for one of the six non-Word origins, whatever the Word score
    is. *)
Theorem pandoc_mention_gives_definite_verdict
        (fromstring : string -> option Element) (zf : ZipFile) (r : Report)
        (parts : Parts) :
  score_docx fromstring zf = Ok r ->
  load_parts fromstring zf = Ok parts ->
  search (lit_nocase "pandoc") (app_txt parts ++ core_txt parts) = true ->
  8 <= fst (pandoc_checks zf parts)
  /\ exists lbl,
      In lbl non_word_labels
      /\ r_verdict r = ("Definitely " ++ lbl ++ " export")%string.
Proof.
  intros Hr Hp Hmention.
  destruct (score_docx_cases fromstring zf) as [(p & r0 & Hp0 & Hr0 & Ha)|(e & _ & He)];
    [|congruence].
  assert (r0 = r) by congruence. assert (p = parts) by congruence. subst r0 p.
  destruct (assemble_fields fromstring word_variants_checks check_speculative_wordaspect
                            check_speculative_lomarkeshare zf parts)
    as (r1 & Hr1 & _ & Hv & _).
  assert (r1 = r) by congruence. subst r1.
  assert (H8 : 8 <= fst (pandoc_checks zf parts)).
  { unfold pandoc_checks. cbn [fst finish].
    destruct (pandoc_mention_scores_8 zf parts) as [_ H]. specialize (H Hmention).
    apply py_min_ge; lra. }
  split; [exact H8|].
  unfold primary_scores in Hv.
  destruct (verdict_on_scoreboard _ _ _ _ _ _ _ _ Hv)
    as (top & lbl & Hin & _ & _ & _ & Hpd & _ & _ & Hcase).
  exists lbl. split; [exact Hin|].
  destruct Hcase as [(_ & H)|[(_ & ? & _)|[(? & _)|[(? & _)|(? & _)]]]];
    [exact H | exfalso; lra ..].
Qed.

Lemma pandoc_mention_gives_definite_verdict_witness :
  exists r parts,
    score_docx sample_fromstring pandoc_zip = Ok r
    /\ load_parts sample_fromstring pandoc_zip = Ok parts
    /\ 8 <= fst (pandoc_checks pandoc_zip parts)
    /\ exists lbl,
        In lbl non_word_labels
        /\ r_verdict r = ("Definitely " ++ lbl ++ " export")%string.
Proof.
  destruct (score_docx sample_fromstring pandoc_zip) as [r|e] eqn:E;
    [|vm_compute in E; discriminate E].
  destruct (load_parts sample_fromstring pandoc_zip) as [parts|e] eqn:Ep;
    [|vm_compute in Ep; discriminate Ep].
  exists r, parts. split; [reflexivity|]. split; [reflexivity|].
  apply (pandoc_mention_gives_definite_verdict sample_fromstring pandoc_zip r parts E Ep).
  vm_compute in Ep. injection Ep as <-. reflexivity.
Defined.

